(** * A shallow embedding of the document service

    The development follows the layout of the repository:

    - [Py]: the fragment of Python the sources rely on (exceptions,
      [try]/[except], string methods);
    - [S3util]: [s3util.py], storage URIs;
    - [Models]: [models.py], the persisted rows;
    - [Manager]: [tasks/manager.py], the handler registry;
    - [Worker]: [worker.py], the task-run state machine;
    - [App]: [app.py], the source resolution chain;
    - [Loader]: [loader.py], type detection, routing and output assembly;
    - [Float64]: Python's floats, for the max-side downscaling step, and
      [Hardware]: the same step on primitive binary64 numbers.

    External collaborators are parameters: the clock, the object store and
    the registered handlers are section variables of the worker, and the
    file system, the content classifier, the imaging and PDF libraries and
    the external converters are the fields of [Loader.Env].  Every theorem
    holds whatever they answer. *)

From Stdlib Require Import ZArith Strings.Byte Ascii String.
From Stdlib Require Import Floats.PrimFloat Floats.FloatOps Floats.SpecFloat Uint63.
From stdpp Require Import gmap strings list fin_maps pretty.

Local Open Scope string_scope.

(* ===================================================================== *)
(** ** Python fragment *)
(* ===================================================================== *)

Module Py.

(** [bytes] objects. *)
Abbreviation bytes := (list byte).

(** One attempted storage location in the not-found diagnostic of
    [app._resolve_source_bytes_or_404]: [{"bucket": b, "key": k, "from": tag}]. *)
Record tried_entry := Tried { t_bucket : string; t_key : string; t_from : string }.

(** The [detail] of an [HTTPException]: a text, or the payload of the 404
    raised by the resolution chain,
    [{"message": m, "tried": [...], "hint": h}]. *)
Inductive http_detail :=
| DetailText (text : string)
| HttpDetail (d_message : string) (d_tried : list tried_entry) (d_hint : string).

(** Python's own [str.strip()], [str.lower()] and [repr] of a [str].  They
    act on Unicode text (blanks and capital letters beyond ASCII, what is
    printable) and are not code of the repository: whatever is proved
    below holds for every such three functions. *)
Class Builtins := {
  str_strip : string -> string;
  str_lower : string -> string;
  str_repr : string -> string
}.

(** Instances of Python's [Exception] that the sources raise or let
    through.  [ClientError] is botocore's, with the [Error.Code] of its
    response; [OtherError] stands for every other [Exception] subclass an
    external library may raise (it is *not* a [ClientError]). *)
Inductive exn :=
| AssertionError (msg : string)
| ValueError (msg : string)
| RuntimeError (msg : string)
| TypeError (msg : string)
| ClientError (code : string) (msg : string)
| HTTPException (status_code : Z) (detail : http_detail)
| OtherError (cls : string) (msg : string).

Section Str.

Context {B : Builtins}.

(** [str(c)] for one entry of the payload, a [dict] of three strings. *)
Definition tried_text (c : tried_entry) : string :=
  "{'bucket': " ++ str_repr (t_bucket c) ++ ", 'key': " ++ str_repr (t_key c)
  ++ ", 'from': " ++ str_repr (t_from c) ++ "}".

(** [f"{detail}"]: the text itself, or [str] of the [dict]. *)
Definition detail_text (d : http_detail) : string :=
  match d with
  | DetailText text => text
  | HttpDetail m tried h =>
      "{'message': " ++ str_repr m ++ ", 'tried': ["
      ++ String.concat ", " (map tried_text tried) ++ "], 'hint': " ++ str_repr h ++ "}"
  end.

(** [str(e)].  For an [HTTPException] it is [f"{status_code}: {detail}"]. *)
Definition str (e : exn) : string :=
  match e with
  | AssertionError m | ValueError m | RuntimeError m | TypeError m => m
  | ClientError _ m => m
  | HTTPException status_code d => pretty status_code ++ ": " ++ detail_text d
  | OtherError _ m => m
  end.

End Str.

(** The outcome of a Python call: a value or a raised exception. *)
Inductive result (A : Type) :=
| Ok (a : A)
| Raise (e : exn).
Arguments Ok {A} a.
Arguments Raise {A} e.

Definition bind {A B} (r : result A) (k : A -> result B) : result B :=
  match r with
  | Ok a => k a
  | Raise e => Raise e
  end.

(** [try: body / except Exception as e: handler e]. *)
Definition try_except {A} (body : result A) (handler : exn -> result A) : result A :=
  match body with
  | Ok a => Ok a
  | Raise e => handler e
  end.

Definition raises {A} (r : result A) : Prop :=
  match r with Raise _ => True | Ok _ => False end.

Definition returns {A} (r : result A) : Prop :=
  match r with Ok _ => True | Raise _ => False end.

(** *** String methods on ASCII text

    The functions below are Python's on strings whose characters all lie
    below code point 128; the concrete deployments, whose names are ASCII,
    use them for the three builtins. *)

(** [c.lower()] for one character: only [A]..[Z] change. *)
Definition ascii_lower (c : ascii) : ascii :=
  let n := nat_of_ascii c in
  if (65 <=? n)%nat && (n <=? 90)%nat then ascii_of_nat (n + 32) else c.

Definition ascii_upper (c : ascii) : ascii :=
  let n := nat_of_ascii c in
  if (97 <=? n)%nat && (n <=? 122)%nat then ascii_of_nat (n - 32) else c.

Fixpoint lower (s : string) : string :=
  match s with
  | EmptyString => EmptyString
  | String c s' => String (ascii_lower c) (lower s')
  end.

Fixpoint upper (s : string) : string :=
  match s with
  | EmptyString => EmptyString
  | String c s' => String (ascii_upper c) (upper s')
  end.

(** The characters [str.strip()] removes, below code point 128:
    tab, line feed, vertical tab, form feed, carriage return, the four
    separators 0x1c..0x1f and the space. *)
Definition is_space (c : ascii) : bool :=
  let n := nat_of_ascii c in
  ((9 <=? n)%nat && (n <=? 13)%nat) || ((28 <=? n)%nat && (n <=? 32)%nat).

Fixpoint lstrip (s : string) : string :=
  match s with
  | EmptyString => EmptyString
  | String c s' => if is_space c then lstrip s' else s
  end.

(** [rstrip]: a character is kept when it is not a space or when
    something non-blank follows. *)
Fixpoint rstrip (s : string) : string :=
  match s with
  | EmptyString => EmptyString
  | String c s' =>
      match rstrip s' with
      | EmptyString => if is_space c then EmptyString else String c EmptyString
      | r => String c r
      end
  end.

Definition strip (s : string) : string := rstrip (lstrip s).

(** [s.startswith(p)]. *)
Definition startswith (s p : string) : bool := String.prefix p s.

(** [s[n:]]. *)
Fixpoint drop_str (n : nat) (s : string) : string :=
  match n, s with
  | O, _ => s
  | S n', String _ s' => drop_str n' s'
  | S _, EmptyString => EmptyString
  end.

(** [s.split(c, 1)] for a one-character separator: [Some (a, b)] for the
    two-element list [[a, b]], [None] for the one-element list [[s]]. *)
Fixpoint split_once (c : ascii) (s : string) : option (string * string) :=
  match s with
  | EmptyString => None
  | String d s' =>
      if Ascii.eqb c d then Some (EmptyString, s')
      else match split_once c s' with
           | Some (a, b) => Some (String d a, b)
           | None => None
           end
  end.

(** [c in s]. *)
Fixpoint contains (c : ascii) (s : string) : bool :=
  match s with
  | EmptyString => false
  | String d s' => Ascii.eqb c d || contains c s'
  end.

Definition backslash : ascii := ascii_of_nat 92.
Definition dquote : ascii := ascii_of_nat 34.

Definition hex_digit (n : nat) : ascii :=
  match get n "0123456789abcdef" with Some c => c | None => "0"%char end.

(** One character of [repr(s)], inside the quotes [q]. *)
Definition repr_char (q c : ascii) : string :=
  let n := nat_of_ascii c in
  if Ascii.eqb c backslash then String backslash (String backslash EmptyString)
  else if Ascii.eqb c q then String backslash (String q EmptyString)
  else if (n =? 9)%nat then String backslash "t"
  else if (n =? 10)%nat then String backslash "n"
  else if (n =? 13)%nat then String backslash "r"
  else if (n <? 32)%nat || (n =? 127)%nat
  then String backslash (String "x" (String (hex_digit (n / 16))
                                       (String (hex_digit (n mod 16)) EmptyString)))
  else String c EmptyString.

(** [repr(s)]: single quotes, unless [s] has a single quote and no double
    quote. *)
Definition repr (s : string) : string :=
  let q := if contains "'" s && negb (contains dquote s) then dquote else "'"%char in
  String q (String.concat "" (map (repr_char q) (list_ascii_of_string s)))
  ++ String q EmptyString.

(** The builtins on ASCII text. *)
Definition ascii_builtins : Builtins :=
  {| str_strip := strip; str_lower := lower; str_repr := repr |}.

End Py.

Import Py.

(* ===================================================================== *)
(** ** s3util.py *)
(* ===================================================================== *)

Module S3util.

(** [split_s3_uri]: the [assert], then [uri.split("s3://", 1)] keeps what
    follows the scheme, then [rest.split("/", 1)] must unpack into two
    names (a [ValueError] otherwise). *)
Definition split_s3_uri (uri : string) : result (string * string) :=
  if startswith uri "s3://" then
    let rest := drop_str 5 uri in
    match split_once "/" rest with
    | Some (bucket, key) => Ok (bucket, key)
    | None => Raise (ValueError "not enough values to unpack (expected 2, got 1)")
    end
  else Raise (AssertionError "").

(** No [/] occurs in [s]. *)
Fixpoint slashless (s : string) : bool :=
  match s with
  | EmptyString => true
  | String c s' => negb (Ascii.eqb "/" c) && slashless s'
  end.

End S3util.

(* ===================================================================== *)
(** ** models.py *)
(* ===================================================================== *)

Module Models.

(** Row of table [file]; the columns the conversion core reads. *)
Record File := mkFile {
  f_id : string;
  owner_id : string;
  user_filename : string;
  storage_uri : string;
  f_status : string
}.

(** Row of table [task_run].  [datetime] columns are points on the
    integer time line; [None] is SQL [NULL]. *)
Record TaskRun := mkTaskRun {
  id : string;
  file_id : string;
  name : string;
  status : string;
  started_at : option Z;
  finished_at : option Z;
  error : option string
}.

End Models.

Import Models.

(* ===================================================================== *)
(** ** The recorded location of a file *)
(* ===================================================================== *)

Module Location.

(** The recorded location of [f] reads [s3://bucket/key], the bucket
    being what precedes the first slash after the scheme. *)
Definition located (f : File) (bucket key : string) : Prop :=
  storage_uri f = "s3://" ++ bucket ++ "/" ++ key /\ S3util.slashless bucket = true.

(** The recorded location of [f] has no bucket and key to read, and [e] is
    what looking for them raises: the scheme is missing, or no slash
    follows it. *)
Definition unlocated (f : File) (e : exn) : Prop :=
  (startswith (storage_uri f) "s3://" = false /\ e = AssertionError "") \/
  (startswith (storage_uri f) "s3://" = true /\
   S3util.slashless (drop_str 5 (storage_uri f)) = true /\
   e = ValueError "not enough values to unpack (expected 2, got 1)").

End Location.

(* ===================================================================== *)
(** ** tasks/manager.py *)
(* ===================================================================== *)

Module Manager.
Section Registry.

(** Everything a handler may read or change outside the [task_run] and
    [file] tables: the object store, the [artifact] table, the
    file system.  The three handlers of the repository create artifacts
    and never write to [task_run] or [file]. *)
Context {Ext : Type} {B : Builtins}.

(** [tasks/base.py]: a handler is a name and a [run] entry point, which
    returns or raises and may change the external state. *)
Record BaseHandler := mkHandler {
  h_name : string;
  h_run : TaskRun -> File -> bytes -> Ext -> result unit * Ext
}.

(** [TaskManager]: the dict [_handlers]. *)
Record TaskManager := mkManager { _handlers : gmap string BaseHandler }.

(** [TaskManager()]. *)
Definition init : TaskManager := mkManager ∅.

(** The dict key of a name: [name.strip().lower()]. *)
Definition key_of (n : string) : string := str_lower (str_strip n).

Definition register (m : TaskManager) (handler : BaseHandler) : result TaskManager :=
  let key := key_of (h_name handler) in
  match _handlers m !! key with
  | Some _ => Raise (ValueError ("handler already registered: " ++ key))
  | None => Ok (mkManager (<[key := handler]> (_handlers m)))
  end.

Definition run (m : TaskManager) (tr : TaskRun) (f : File) (data : bytes)
    (x : Ext) : result unit * Ext :=
  let key := key_of (name tr) in
  match _handlers m !! key with
  | None => (Raise (ValueError ("unknown task: " ++ key)), x)
  | Some h => h_run h tr f data x
  end.

(** [tasks/__init__.py], [register_all]: the three handlers of the
    repository, registered in this order on the module-level singleton. *)
Definition register_all (doc_convert to_pdf vlm_ocr : BaseHandler)
    (m : TaskManager) : result TaskManager :=
  match register m doc_convert with
  | Raise e => Raise e
  | Ok m1 =>
      match register m1 to_pdf with
      | Raise e => Raise e
      | Ok m2 => register m2 vlm_ocr
      end
  end.

(** A registry as [register] builds it: every handler sits under the
    key of its own name. *)
Definition keyed (m : TaskManager) : Prop :=
  forall k h, _handlers m !! k = Some h -> k = key_of (h_name h).

(** [h] is one of the registered handlers. *)
Definition registered (m : TaskManager) (h : BaseHandler) : Prop :=
  exists k, _handlers m !! k = Some h.

End Registry.
Arguments BaseHandler : clear implicits.
Arguments TaskManager : clear implicits.
End Manager.

(* ===================================================================== *)
(** ** worker.py *)
(* ===================================================================== *)

Module Worker.
Section StateMachine.

Context {Ext : Type} {B : Builtins}.

(** [datetime.utcnow()]: the reading of the clock at its n-th call. *)
Variable utcnow : nat -> Z.

(** [s3_client(s3cfg).get_object(Bucket=b, Key=k)["Body"].read()]. *)
Variable get_object : Ext -> string -> string -> result bytes.

(** The module-level singleton [manager], after [register_all]. *)
Variable manager : Manager.TaskManager Ext.

(** The database session together with the rest of the world.
    [commits] is the history of [db.commit()] calls made by [_mark], as
    pairs of run id and committed status; [ticks] counts the clock
    readings taken so far. *)
Record World := mkWorld {
  task_run : gmap string TaskRun;
  file : gmap string File;
  ticks : nat;
  commits : list (string * string);
  ext : Ext
}.

Definition set_ext (w : World) (x : Ext) : World :=
  mkWorld (task_run w) (file w) (ticks w) (commits w) x.

(** Rows are stored under their primary key. *)
Definition wf (w : World) : Prop :=
  forall k tr, task_run w !! k = Some tr -> id tr = k.

(** [_mark(db, tr, status, err)]: [tr] is mutated in place and
    committed; the updated object is returned with the new world. *)
Definition _mark (w : World) (tr : TaskRun) (st : string) (err : option string)
    : TaskRun * World :=
  let now := utcnow (ticks w) in
  let started :=
    if String.eqb st "RUNNING" && negb (bool_decide (is_Some (started_at tr)))
    then Some now else started_at tr in
  let finished :=
    if String.eqb st "SUCCEEDED" || String.eqb st "FAILED"
    then Some now else finished_at tr in
  let tr' := mkTaskRun (id tr) (file_id tr) (name tr) st started finished err in
  (tr', mkWorld (<[id tr' := tr']> (task_run w)) (file w) (S (ticks w))
                (commits w ++ [(id tr', st)])%list (ext w)).

(** [_get_source_bytes(f)]. *)
Definition _get_source_bytes (f : File) (x : Ext) : result bytes :=
  match S3util.split_s3_uri (storage_uri f) with
  | Raise e => Raise e
  | Ok (bucket, key) => get_object x bucket key
  end.

(** The [try] block of [run_task]: fetch, dispatch, mark SUCCEEDED. *)
Definition run_task_body (w : World) (tr : TaskRun) (f : File) : result unit * World :=
  match _get_source_bytes f (ext w) with
  | Raise e => (Raise e, w)
  | Ok data =>
      match Manager.run manager tr f data (ext w) with
      | (Raise e, x) => (Raise e, set_ext w x)
      | (Ok _, x) => (Ok tt, snd (_mark (set_ext w x) tr "SUCCEEDED" None))
      end
  end.

(** [run_task(self, task_run_id)]. *)
Definition run_task (w : World) (task_run_id : string) : result unit * World :=
  match task_run w !! task_run_id with
  | None => (Ok tt, w)
  | Some tr =>
      match file w !! file_id tr with
      | None => (Ok tt, snd (_mark w tr "FAILED" (Some "file not found")))
      | Some f =>
          let '(tr1, w1) := _mark w tr "RUNNING" None in
          match run_task_body w1 tr1 f with
          | (Ok _, w2) => (Ok tt, w2)
          | (Raise e, w2) => (Raise e, snd (_mark w2 tr1 "FAILED" (Some (str e))))
          end
      end
  end.

(** A sequence of trigger deliveries, processed one after the other;
    what each delivery returned or raised is left to the queue. *)
Definition deliver (w : World) (task_run_id : string) : World :=
  snd (run_task w task_run_id).

Definition deliver_all (w : World) (ids : list string) : World :=
  fold_left deliver ids w.

(** The status of a run, if the run exists. *)
Definition status_of (w : World) (i : string) : option string :=
  status <$> task_run w !! i.

Definition terminal (st : string) : Prop := st = "SUCCEEDED" \/ st = "FAILED".

End StateMachine.
Arguments World : clear implicits.
End Worker.

(* ===================================================================== *)
(** ** app.py: the source resolution chain *)
(* ===================================================================== *)

Module App.
Section Resolution.

(** [s3_client(load_s3_config()).get_object(Bucket=b, Key=k)["Body"].read()]
    at the time of the call. *)
Variable get_object : string -> string -> result bytes.

(** [load_s3_config().bucket]. *)
Variable cfg_bucket : string.

Definition missing_code (code : string) : bool :=
  String.eqb code "NoSuchKey" || String.eqb code "NoSuchBucket".

(** [_try_get_object_bytes]: only a [ClientError] is caught, and only
    the two missing-object codes become [None]. *)
Definition _try_get_object_bytes (bucket key : string) : result (option bytes) :=
  match get_object bucket key with
  | Ok data => Ok (Some data)
  | Raise (ClientError code msg) =>
      if missing_code code then Ok None else Raise (ClientError code msg)
  | Raise e => Raise e
  end.

Definition new_key (f : File) : string :=
  owner_id f ++ "/source_files/" ++ f_id f ++ "/" ++ user_filename f.

Definition old_key (f : File) : string :=
  "uploads/" ++ f_id f ++ "/" ++ user_filename f.

Definition not_found (tried : list tried_entry) : exn :=
  HTTPException 404
    (HttpDetail "source object not found in S3" tried
       "確認 file.storage_uri、user_id、實際 S3 目錄一致；或檢查檔名是否含特殊字元/空白").

(** Step 1 of [_resolve_source_bytes_or_404], the [try] ... [except
    Exception: pass] around the recorded location: the entries appended
    to [tried], and the bytes if the step returned them. *)
Definition resolve_step1 (f : File) : list tried_entry * option bytes :=
  match S3util.split_s3_uri (storage_uri f) with
  | Raise _ => ([], None)
  | Ok (bkt, key) =>
      let tried := [Tried bkt key "db.storage_uri"] in
      match _try_get_object_bytes bkt key with
      | Ok (Some data) => (tried, Some data)
      | Ok None => (tried, None)
      | Raise _ => (tried, None)
      end
  end.

(** [_resolve_source_bytes_or_404(f)]. *)
Definition _resolve_source_bytes_or_404 (f : File) : result bytes :=
  let '(tried1, r1) := resolve_step1 f in
  match r1 with
  | Some data => Ok data
  | None =>
      let tried2 := (tried1 ++ [Tried cfg_bucket (new_key f) "new_rule"])%list in
      match _try_get_object_bytes cfg_bucket (new_key f) with
      | Raise e => Raise e
      | Ok (Some data) => Ok data
      | Ok None =>
          let tried3 := (tried2 ++ [Tried cfg_bucket (old_key f) "old_rule"])%list in
          match _try_get_object_bytes cfg_bucket (old_key f) with
          | Raise e => Raise e
          | Ok (Some data) => Ok data
          | Ok None => Raise (not_found tried3)
          end
      end
  end.

(** *** The chain in the words of the specification (§4.7)

    An ordered list of candidates; each is fetched; a missing object
    and any other fetch error both move on to the next candidate;
    exhausting the list raises the not-found error with every attempted
    pair. *)
Definition candidates (f : File) : list tried_entry :=
  (match S3util.split_s3_uri (storage_uri f) with
   | Ok (bkt, key) => [Tried bkt key "db.storage_uri"]
   | Raise _ => []
   end
   ++ [Tried cfg_bucket (new_key f) "new_rule";
       Tried cfg_bucket (old_key f) "old_rule"])%list.

Fixpoint first_hit (cs : list tried_entry) : option bytes :=
  match cs with
  | [] => None
  | c :: cs' =>
      match get_object (t_bucket c) (t_key c) with
      | Ok data => Some data
      | Raise _ => first_hit cs'
      end
  end.

Definition resolve_spec (f : File) : result bytes :=
  match first_hit (candidates f) with
  | Some data => Ok data
  | None => Raise (not_found (candidates f))
  end.

End Resolution.
End App.

(* ===================================================================== *)
(** ** The driving sequence of one trigger, as the specification words it *)
(* ===================================================================== *)

Module TriggerSpec.
Section Spec.

Context {Ext : Type} {B : Builtins}.
Variable utcnow : nat -> Z.
Variable get_object : Ext -> string -> string -> result bytes.
Variable manager : Manager.TaskManager Ext.

Import Worker Location.

(** The run [i] is stored with status [st] and error text [err]. *)
Definition marked (w : World Ext) (i st : string) (err : option string) : Prop :=
  exists tr, task_run w !! i = Some tr /\ status tr = st /\ error tr = err.

(** The statuses committed between [w] and [w'], all for run [i]. *)
Definition committed (w w' : World Ext) (i : string) (sts : list string) : Prop :=
  commits w' = (commits w ++ map (fun st => (i, st)) sts)%list.

(** Nothing but the row of run [i] differs in the two tables. *)
Definition only_run_changed (w w' : World Ext) (i : string) : Prop :=
  file w' = file w /\ forall j, j <> i -> task_run w' !! j = task_run w !! j.

(** The run object as the handler receives it: after the RUNNING mark. *)
Definition as_running (w : World Ext) (tr : TaskRun) : TaskRun :=
  fst (_mark utcnow w tr "RUNNING" None).

(** How a trigger that found its run ends: the statuses it committed in
    order, the status and error text it left in the row, the external
    state it left, and nothing else changed in the two tables. *)
Definition ends (w w' : World Ext) (i : string) (sts : list string) (st : string)
    (err : option string) (x : Ext) : Prop :=
  committed w w' i sts /\ marked w' i st err /\ ext w' = x /\ only_run_changed w w' i.

(** One constructor per branch of §4.6: what the trigger returns or
    raises, and the world it leaves.  The source bytes are the object the
    store holds at the recorded location of the file; the handler is the
    one the registry holds under the key of the run's name, and it is
    invoked on the run as marked RUNNING, the file and these bytes. *)
Inductive driving (w : World Ext) (i : string) : result unit -> World Ext -> Prop :=
| driving_stale :
    task_run w !! i = None ->
    driving w i (Ok tt) w
| driving_no_file tr w' :
    task_run w !! i = Some tr ->
    file w !! file_id tr = None ->
    ends w w' i ["FAILED"] "FAILED" (Some "file not found") (ext w) ->
    driving w i (Ok tt) w'
| driving_no_location tr f e w' :
    task_run w !! i = Some tr ->
    file w !! file_id tr = Some f ->
    unlocated f e ->
    ends w w' i ["RUNNING"; "FAILED"] "FAILED" (Some (str e)) (ext w) ->
    driving w i (Raise e) w'
| driving_fetch_failed tr f bucket key e w' :
    task_run w !! i = Some tr ->
    file w !! file_id tr = Some f ->
    located f bucket key ->
    get_object (ext w) bucket key = Raise e ->
    ends w w' i ["RUNNING"; "FAILED"] "FAILED" (Some (str e)) (ext w) ->
    driving w i (Raise e) w'
| driving_unknown_task tr f bucket key data w' :
    task_run w !! i = Some tr ->
    file w !! file_id tr = Some f ->
    located f bucket key ->
    get_object (ext w) bucket key = Ok data ->
    Manager._handlers manager !! Manager.key_of (name tr) = None ->
    ends w w' i ["RUNNING"; "FAILED"] "FAILED"
      (Some ("unknown task: " ++ Manager.key_of (name tr))) (ext w) ->
    driving w i (Raise (ValueError ("unknown task: " ++ Manager.key_of (name tr)))) w'
| driving_handler_failed tr f bucket key data h e x w' :
    task_run w !! i = Some tr ->
    file w !! file_id tr = Some f ->
    located f bucket key ->
    get_object (ext w) bucket key = Ok data ->
    Manager._handlers manager !! Manager.key_of (name tr) = Some h ->
    Manager.h_run h (as_running w tr) f data (ext w) = (Raise e, x) ->
    ends w w' i ["RUNNING"; "FAILED"] "FAILED" (Some (str e)) x ->
    driving w i (Raise e) w'
| driving_succeeded tr f bucket key data h x w' :
    task_run w !! i = Some tr ->
    file w !! file_id tr = Some f ->
    located f bucket key ->
    get_object (ext w) bucket key = Ok data ->
    Manager._handlers manager !! Manager.key_of (name tr) = Some h ->
    Manager.h_run h (as_running w tr) f data (ext w) = (Ok tt, x) ->
    ends w w' i ["RUNNING"; "SUCCEEDED"] "SUCCEEDED" None x ->
    driving w i (Ok tt) w'.

(** A run as [app.run_files] creates it. *)
Definition created_pending (tr : TaskRun) : Prop :=
  status tr = "PENDING" /\ started_at tr = None /\ finished_at tr = None /\
  error tr = None.

(** A clock that never runs backwards. *)
Definition monotone_clock : Prop :=
  forall m n, (m <= n)%nat -> (utcnow m <= utcnow n)%Z.

End Spec.
End TriggerSpec.

(* ===================================================================== *)
(** ** A concrete deployment, to run the definitions on *)
(* ===================================================================== *)

Module Scenario.

Import Worker.

(** The external state is the number of handler invocations so far. *)
Definition pdf_magic : bytes := [x25; x50; x44; x46].

Definition the_bucket : string := "llmops-bucket".

(** An object store with one object, under the canonical key of file [f1]. *)
Definition store (bucket key : string) : result bytes :=
  if String.eqb bucket the_bucket && String.eqb key "alice/source_files/f1/a.pdf"
  then Ok (pdf_magic ++ [x2d; x31; x2e; x34])%list
  else Raise (ClientError "NoSuchKey" "An error occurred (NoSuchKey) when calling the GetObject operation").

Definition get_object (_ : nat) (bucket key : string) : result bytes := store bucket key.

(** A handler that works the first time it is invoked and fails afterwards
    (its converter is gone). *)
Definition flaky_run (_ : TaskRun) (_ : File) (_ : bytes) (n : nat) : result unit * nat :=
  match n with
  | O => (Ok tt, S n)
  | S _ => (Raise (RuntimeError "LibreOffice 未安裝，無法將 Office 轉為 PDF。請安裝 libreoffice。"), S n)
  end.

Definition to_pdf : Manager.BaseHandler nat := Manager.mkHandler "to_pdf" flaky_run.

Definition manager : Manager.TaskManager nat :=
  Manager.mkManager {[ "to_pdf" := to_pdf ]}.

Definition utcnow (n : nat) : Z := 1700000000 + Z.of_nat n.

Definition file1 : File :=
  mkFile "f1" "alice" "a.pdf" "s3://llmops-bucket/alice/source_files/f1/a.pdf" "READY".

Definition run1 : TaskRun := mkTaskRun "r1" "f1" "to_pdf" "PENDING" None None None.

(** One file, one run created PENDING for it, nothing delivered yet. *)
Definition world0 : World nat :=
  mkWorld {[ "r1" := run1 ]} {[ "f1" := file1 ]} 0 [] 0.

Definition deliver := @Worker.deliver nat ascii_builtins utcnow get_object manager.
Definition deliver_all := @Worker.deliver_all nat ascii_builtins utcnow get_object manager.

End Scenario.

(* ===================================================================== *)
(** ** A second deployment: a stale recorded location *)
(* ===================================================================== *)

Module Stale.

(** File [f1] was recorded under a location that no longer exists. *)
Definition file1 : File :=
  mkFile "f1" "alice" "a.pdf" "s3://llmops-bucket/tmp/a.pdf" "READY".

Definition content : bytes := [x25; x50; x44; x46; x2d; x31; x2e; x34].

(** The object sits under the canonical key. *)
Definition canonical_store (bucket key : string) : result bytes :=
  if String.eqb bucket "llmops-bucket" && String.eqb key "alice/source_files/f1/a.pdf"
  then Ok content
  else Raise (ClientError "NoSuchKey" "An error occurred (NoSuchKey) when calling the GetObject operation").

(** The object sits under the legacy key, and the store refuses access to
    the canonical key. *)
Definition denied_store (bucket key : string) : result bytes :=
  if String.eqb bucket "llmops-bucket" && String.eqb key "uploads/f1/a.pdf"
  then Ok content
  else if String.eqb bucket "llmops-bucket" && String.eqb key "alice/source_files/f1/a.pdf"
  then Raise (ClientError "AccessDenied" "An error occurred (AccessDenied) when calling the GetObject operation")
  else Raise (ClientError "NoSuchKey" "An error occurred (NoSuchKey) when calling the GetObject operation").

(** Nothing anywhere. *)
Definition empty_store (bucket key : string) : result bytes :=
  Raise (ClientError "NoSuchKey" "An error occurred (NoSuchKey) when calling the GetObject operation").

End Stale.

(* ===================================================================== *)
(** ** Fetch outcomes, classified *)
(* ===================================================================== *)

Module Fetch.

(** A fetch that found the object or reported it missing: the two outcomes
    [app._try_get_object_bytes] does not raise on. *)
Definition hit_or_miss (r : result bytes) : Prop :=
  match r with
  | Ok _ => True
  | Raise (ClientError code _) => App.missing_code code = true
  | Raise _ => False
  end.

End Fetch.

(* ===================================================================== *)
(** ** Python floats *)
(* ===================================================================== *)

(** Python's [float] is IEEE 754 binary64 and [/], [*] and [float(n)] are
    correctly rounded, to nearest with ties to even.  A finite value is kept
    as a pair [mant * 2 ^ expo]; every result is the exact rational result
    rounded to 53 significant bits.  Overflow and the subnormal range are
    outside the model: results are meant for magnitudes between [2^-1022]
    and [2^1024], which covers every quotient and product of two integers
    below [2^53]. *)

Module Float64.

Local Open Scope Z_scope.

Record float := mkF { mant : Z; expo : Z }.

(** The integer nearest to [n / d], for [0 < d]; ties go to the even one. *)
Definition rne (n d : Z) : Z :=
  let q := n / d in
  let r := n mod d in
  if 2 * r <? d then q
  else if d <? 2 * r then q + 1
  else if Z.even q then q else q + 1.

(** [n / (d * 2 ^ e)], rounded. *)
Definition rne_scaled (n d e : Z) : Z :=
  if 0 <=? e then rne n (d * 2 ^ e) else rne (n * 2 ^ (- e)) d.

(** The rational [n / d], [0 < d], rounded to 53 significant bits.  The
    exponent is first estimated from the bit lengths and then corrected, so
    that the scaled quotient lies between [2^52] and [2^53]. *)
Definition round53 (n d : Z) : float :=
  if n =? 0 then mkF 0 0
  else
    let e0 := Z.log2 (Z.abs n) - Z.log2 d - 53 in
    let big := if 0 <=? e0 then 2 ^ 53 * d * 2 ^ e0 <=? Z.abs n
               else 2 ^ 53 * d <=? Z.abs n * 2 ^ (- e0) in
    let e := if big then e0 + 1 else e0 in
    mkF (rne_scaled n d e) e.

(** [float(z)]. *)
Definition of_int (z : Z) : float := round53 z 1.

(** [a * b]. *)
Definition fmul (a b : float) : float :=
  let e := expo a + expo b in
  round53 (mant a * mant b * 2 ^ Z.max e 0) (2 ^ Z.max (- e) 0).

(** [a / b]; [ZeroDivisionError] when [b] is zero. *)
Definition fdiv (a b : float) : result float :=
  if mant b =? 0 then Raise (OtherError "ZeroDivisionError" "float division by zero")
  else
    let e := expo a - expo b in
    Ok (round53 (Z.sgn (mant b) * mant a * 2 ^ Z.max e 0)
                (Z.abs (mant b) * 2 ^ Z.max (- e) 0)).

(** [int(a)]: truncation towards zero. *)
Definition trunc (a : float) : Z :=
  if 0 <=? expo a then mant a * 2 ^ expo a
  else Z.quot (mant a) (2 ^ (- expo a)).

End Float64.

(** The same three operations on the primitive binary64 numbers of the
    proof assistant, to compare the model with at given inputs. *)

Module Hardware.

Local Open Scope Z_scope.

Definition of_int (z : Z) : PrimFloat.float :=
  if z <? 0 then PrimFloat.opp (PrimFloat.of_uint63 (Uint63.of_Z (- z)))
  else PrimFloat.of_uint63 (Uint63.of_Z z).

Definition trunc (f : PrimFloat.float) : Z :=
  match Prim2SF f with
  | S754_finite s m e =>
      let v := if 0 <=? e then Zpos m * 2 ^ e else Zpos m / 2 ^ (- e) in
      if s then - v else v
  | _ => 0
  end.

(** [r = s / float(m)] and [(int(w * r), int(h * r))]. *)
Definition scaled_size (w h s : Z) : Z * Z :=
  let m := Z.max w h in
  let r := PrimFloat.div (of_int s) (of_int m) in
  (trunc (PrimFloat.mul (of_int w) r), trunc (PrimFloat.mul (of_int h) r)).

End Hardware.

(* ===================================================================== *)
(** ** os.path and string formatting *)
(* ===================================================================== *)

Module OsPath.

Local Open Scope Z_scope.

(** [p.rfind(c)]: the index of the last [c], or [-1]. *)
Fixpoint rfind_from (c : ascii) (p : string) (i last : Z) : Z :=
  match p with
  | EmptyString => last
  | String d p' => rfind_from c p' (i + 1) (if Ascii.eqb c d then i else last)
  end.

Definition rfind (c : ascii) (p : string) : Z := rfind_from c p 0 (-1).

(** Some character of [s] differs from [c]. *)
Fixpoint has_other (c : ascii) (s : string) : bool :=
  match s with
  | EmptyString => false
  | String d s' => negb (Ascii.eqb c d) || has_other c s'
  end.

(** [posixpath.splitext]: the extension starts at the last dot of the last
    path component, unless only dots precede it in that component. *)
Definition splitext (p : string) : string * string :=
  let sepIndex := rfind "/" p in
  let dotIndex := rfind "." p in
  if sepIndex <? dotIndex then
    let lead := substring (Z.to_nat (sepIndex + 1))
                          (Z.to_nat (dotIndex - (sepIndex + 1))) p in
    if has_other "." lead
    then (substring 0 (Z.to_nat dotIndex) p, drop_str (Z.to_nat dotIndex) p)
    else (p, EmptyString)
  else (p, EmptyString).

Fixpoint endswith_char (c : ascii) (s : string) : bool :=
  match s with
  | EmptyString => false
  | String d EmptyString => Ascii.eqb c d
  | String _ s' => endswith_char c s'
  end.

(** [posixpath.join(a, b)]. *)
Definition join (a b : string) : string :=
  if startswith b "/" then b
  else if String.eqb a "" || endswith_char "/" a then a ++ b
  else a ++ "/" ++ b.

(** [f"{i:04d}"] for [0 <= i]. *)
Definition fmt_04d (i : nat) : string :=
  let s := pretty (N.of_nat i) in
  String.concat "" (repeat "0"%string (4 - String.length s)) ++ s.

(** The number a string of decimal digits denotes, leading zeros included:
    what [int] reads back from a page number. *)
Fixpoint digits_value (s : string) : N :=
  match s with
  | EmptyString => 0
  | String c s' => (N_of_ascii c - 48) * 10 ^ N.of_nat (String.length s') + digits_value s'
  end%N.

End OsPath.

(* ===================================================================== *)
(** ** loader.py *)
(* ===================================================================== *)

Module Loader.

(** [DocInput]: a path or a bytes-like object ([_read_all] turns
    [bytearray], [memoryview] and [BytesIO] into [bytes]). *)
Inductive DocInput :=
| Path (p : string)
| Bytes (b : bytes).

Definition _is_path (x : DocInput) : bool :=
  match x with Path _ => true | Bytes _ => false end.

Definition _ext_lower (path : string) : string := lower (snd (OsPath.splitext path)).

Fixpoint bytes_eqb (a b : bytes) : bool :=
  match a, b with
  | [], [] => true
  | x :: a', y :: b' => Byte.eqb x y && bytes_eqb a' b'
  | _, _ => false
  end.

(** [a.startswith(p)] on bytes. *)
Definition bytes_startswith (a p : bytes) : bool := bytes_eqb (take (length p) a) p.

Definition magic_pdf : bytes := [x25; x50; x44; x46].
Definition magic_png : bytes := [x89; x50; x4e; x47].
Definition magic_jpeg : bytes := [xff; xd8; xff].
Definition magic_tiff_le : bytes := [x49; x49; x2a; x00].
Definition magic_tiff_be : bytes := [x4d; x4d; x00; x2a].
Definition magic_riff : bytes := [x52; x49; x46; x46].
Definition magic_webp : bytes := [x57; x45; x42; x50].

(** The magic sniff of [_detect_type], step 2 of the bytes branch, with the
    slices as written: [data[:4]], [data[:8]], [data[:3]], [data[:12]] and
    [data[8:12]]. *)
Definition sniff (data : bytes) : string :=
  if bytes_eqb (take 4 data) magic_pdf then "application/pdf"
  else if bytes_startswith (take 8 data) magic_png then "image/png"
  else if bytes_eqb (take 3 data) magic_jpeg then "image/jpeg"
  else if bytes_eqb (take 4 data) magic_tiff_le || bytes_eqb (take 4 data) magic_tiff_be
  then "image/tiff"
  else if bytes_eqb (take 12 data) magic_riff && bytes_eqb (drop 8 (take 12 data)) magic_webp
  then "image/webp"
  else "application/octet-stream".

(** A RIFF container whose form type is WEBP: [RIFF], four bytes of
    length, [WEBP]. *)
Definition webp_header (data : bytes) : Prop :=
  take 4 data = magic_riff /\ take 4 (drop 8 data) = magic_webp.

(** [LoadOptions]. *)
Record LoadOptions := mkOptions {
  dpi : Z;
  max_side : option Z;
  background_rgba : option (Z * Z * Z * Z);
  save : bool;
  output_dir : option string;
  filename_prefix : string;
  image_format : string;
  return_mode : string;
  zip_name_in_zip : option string
}.

Definition default_options : LoadOptions :=
  mkOptions 200 None None false None "page" "PNG" "PIL" None.

(** A page of the PDF that [_images_to_pdf_bytes] builds: its size in
    points and the PNG stream placed on it. *)
Record PdfPage := mkPdfPage {
  width_pt : Float64.float;
  height_pt : Float64.float;
  png_stream : bytes
}.

(** What lies outside [loader.py]: the file system, the content classifier,
    the rasteriser, the imaging library, the external converters.  *)
Record Env := mkEnv {
  FS : Type;
  Image : Type;
  (** [_magika.identify_path(path).output.label] *)
  identify_path : FS -> string -> result string;
  (** [_magika.identify_bytes(data).output.label] *)
  identify_bytes : bytes -> result string;
  (** [mimetypes.guess_type(path)[0]] *)
  guess_type : string -> option string;
  abspath : string -> string;
  getcwd : FS -> string;
  (** entering [tempfile.TemporaryDirectory(prefix="doc2img-")] *)
  mkdtemp : FS -> string * FS;
  (** leaving it *)
  rmtree : FS -> string -> FS;
  (** [open(p, "wb").write(data)] *)
  write_file : FS -> string -> bytes -> FS;
  (** [open(p, "rb").read()] *)
  read_file : FS -> string -> result bytes;
  makedirs : FS -> string -> FS;
  (** [_libreoffice_to_pdf(input_path, out_dir)]: the external tool run *)
  libreoffice_to_pdf : FS -> string -> string -> result string * FS;
  (** [_html_to_pdf(input_path, out_pdf)] *)
  html_to_pdf : FS -> string -> string -> result string * FS;
  (** [fitz.open], and for every page [get_pixmap] at [dpi / 72] and
      [Image.frombytes("RGBA", ...)]: the pages in document order *)
  rasterize : FS -> string + bytes -> Z -> result (list Image);
  (** [Image.open(path).convert("RGBA")] *)
  open_rgba : FS -> string -> result Image;
  im_size : Image -> Z * Z;
  im_mode : Image -> string;
  (** [Image.new("RGBA", im.size, bg)], [paste] with the alpha mask,
      [convert("RGB")] *)
  flatten : Image -> Z * Z * Z * Z -> Image;
  (** [im.resize(size, Image.Resampling.LANCZOS)] *)
  resize : Image -> Z * Z -> result Image;
  (** [im.convert("RGB")] *)
  convert_rgb : Image -> Image;
  (** [im.save(bio, format=fmt)] and [bio.getvalue()] *)
  encode : Image -> string -> result bytes;
  (** [im.save(path, format=fmt)] *)
  save_as : FS -> Image -> string -> string -> result unit * FS;
  (** [fitz.open()], a [new_page] and [insert_image] per page, [tobytes()] *)
  pdf_tobytes : list PdfPage -> result bytes
}.

(** The value [load] returns, by return mode.  A ZIP archive is given by
    its members, in the order they are written. *)
Inductive LoadResult (E : Env) :=
| RImages (images : list (Image E))
| RBytes (blocks : list bytes)
| RPaths (paths : list string)
| RZip (members : list (string * bytes))
| RPdf (pdf : bytes).
Arguments RImages {E} images.
Arguments RBytes {E} blocks.
Arguments RPaths {E} paths.
Arguments RZip {E} members.
Arguments RPdf {E} pdf.

Section Load.

Variable E : Env.

(** Python code that may raise and may change the file system. *)
Definition M (A : Type) : Type := FS E -> result A * FS E.

Definition ret {A} (a : A) : M A := fun fs => (Ok a, fs).

Definition raise {A} (e : exn) : M A := fun fs => (Raise e, fs).

Definition bindM {A B} (c : M A) (k : A -> M B) : M B :=
  fun fs =>
    match c fs with
    | (Ok a, fs') => k a fs'
    | (Raise e, fs') => (Raise e, fs')
    end.

Definition lift {A} (r : result A) : M A := fun fs => (r, fs).

(** [with tempfile.TemporaryDirectory(...) as work: body]. *)
Definition with_tempdir {A} (body : string -> M A) : M A :=
  fun fs =>
    let '(work, fs1) := mkdtemp E fs in
    let '(r, fs2) := body work fs1 in
    (r, rmtree E fs2 work).

Fixpoint mapM {A B} (f : A -> M B) (l : list A) : M (list B) :=
  match l with
  | [] => ret []
  | a :: l' => bindM (f a) (fun b => bindM (mapM f l') (fun bs => ret (b :: bs)))
  end.

(** [enumerate(l, start)]. *)
Fixpoint enumerate {A} (start : nat) (l : list A) : list (nat * A) :=
  match l with
  | [] => []
  | a :: l' => (start, a) :: enumerate (S start) l'
  end.

Definition is_in (x : string) (l : list string) : bool := existsb (String.eqb x) l.

Definition opt_in (x : option string) (l : list string) : bool :=
  match x with Some s => is_in s l | None => false end.

Definition opt_eq (x : option string) (s : string) : bool :=
  match x with Some t => String.eqb t s | None => false end.

(** Truth value of an optional string: [None] and [""] are false. *)
Definition truthy (x : option string) : bool :=
  match x with Some s => negb (String.eqb s "") | None => false end.

(** [x or d]. *)
Definition or_else (x : option string) (d : string) : string :=
  match x with Some s => if String.eqb s "" then d else s | None => d end.

(** [_detect_type(doc)]: [(label_or_mime, path_if_any, source)]. *)
Definition _detect_type (doc : DocInput) : M (string * option string * string) :=
  fun fs =>
    match doc with
    | Path path =>
        match identify_path E fs path with
        | Ok label => (Ok (label, Some path, "magika"), fs)
        | Raise _ =>
            (Ok (or_else (guess_type E path) "application/octet-stream",
                 Some path, "mimetypes"), fs)
        end
    | Bytes data =>
        match identify_bytes E data with
        | Ok label => (Ok (label, None, "magika"), fs)
        | Raise _ => (Ok (sniff data, None, "sniff"), fs)
        end
    end.

(** The size asked of [resize] by the max-side step of
    [_open_pdf_as_images]: [None] when the image is left alone. *)
Definition pdf_page_new_size (w h : Z) (max_side : option Z) : result (option (Z * Z)) :=
  match max_side with
  | None => Ok None
  | Some max_side =>
      let m := Z.max w h in
      if (max_side <? m)%Z then
        match Float64.fdiv (Float64.of_int max_side) (Float64.of_int m) with
        | Raise e => Raise e
        | Ok r => Ok (Some (Float64.trunc (Float64.fmul (Float64.of_int w) r),
                            Float64.trunc (Float64.fmul (Float64.of_int h) r)))
        end
      else Ok None
  end.

(** The body of the page loop of [_open_pdf_as_images], after the page is
    rasterised. *)
Definition pdf_page_post (max_side : option Z) (bg : option (Z * Z * Z * Z))
    (im : Image E) : result (Image E) :=
  let im :=
    match bg with
    | Some c => if String.eqb (im_mode E im) "RGBA" then flatten E im c else im
    | None => im
    end in
  let '(w, h) := im_size E im in
  match pdf_page_new_size w h max_side with
  | Raise e => Raise e
  | Ok None => Ok im
  | Ok (Some size) => resize E im size
  end.

Fixpoint map_result {A B} (f : A -> result B) (l : list A) : result (list B) :=
  match l with
  | [] => Ok []
  | a :: l' =>
      match f a with
      | Raise e => Raise e
      | Ok b => match map_result f l' with
                | Raise e => Raise e
                | Ok bs => Ok (b :: bs)
                end
      end
  end.

(** [_open_pdf_as_images(pdf_input, dpi, max_side, bg)]. *)
Definition _open_pdf_as_images (pdf_input : string + bytes) (dpi : Z)
    (max_side : option Z) (bg : option (Z * Z * Z * Z)) : M (list (Image E)) :=
  fun fs =>
    match rasterize E fs pdf_input dpi with
    | Raise e => (Raise e, fs)
    | Ok pages => (map_result (pdf_page_post max_side bg) pages, fs)
    end.

(** The size asked of [resize] by the max-side step of the image branch of
    [load]. *)
Definition image_new_size (w h : Z) (max_side : option Z) : result (option (Z * Z)) :=
  match max_side with
  | None => Ok None
  | Some max_side =>
      let m := Z.max w h in
      if (max_side <? m)%Z then
        match Float64.fdiv (Float64.of_int max_side) (Float64.of_int m) with
        | Raise e => Raise e
        | Ok r => Ok (Some (Float64.trunc (Float64.fmul (Float64.of_int w) r),
                            Float64.trunc (Float64.fmul (Float64.of_int h) r)))
        end
      else Ok None
  end.

(** The image branch of [load]: one page. *)
Definition load_image (src_path : string) (options : LoadOptions) : M (list (Image E)) :=
  fun fs =>
    match open_rgba E fs src_path with
    | Raise e => (Raise e, fs)
    | Ok im =>
        let im :=
          match background_rgba options with
          | Some c => flatten E im c
          | None => im
          end in
        let '(w, h) := im_size E im in
        match image_new_size w h (max_side options) with
        | Raise e => (Raise e, fs)
        | Ok None => (Ok [im], fs)
        | Ok (Some size) =>
            match resize E im size with
            | Raise e => (Raise e, fs)
            | Ok im' => (Ok [im'], fs)
            end
        end
    end.

Definition OFFICE_LABELS : list string :=
  ["doc"; "docx"; "ppt"; "pptx"; "xls"; "xlsx"; "odt"; "odp"; "ods"; "rtf"].
Definition IMAGE_LABELS : list string := ["png"; "jpeg"; "jpg"; "webp"; "tiff"; "bmp"].
Definition HTML_LABELS : list string := ["html"; "htm"].
Definition OFFICE_MIMES : list string :=
  ["application/msword";
   "application/vnd.openxmlformats-officedocument.wordprocessingml.document";
   "application/vnd.ms-powerpoint";
   "application/vnd.openxmlformats-officedocument.presentationml.presentation";
   "application/vnd.ms-excel";
   "application/vnd.openxmlformats-officedocument.spreadsheetml.sheet";
   "application/rtf";
   "application/vnd.oasis.opendocument.text";
   "application/vnd.oasis.opendocument.presentation";
   "application/vnd.oasis.opendocument.spreadsheet"].
Definition IMAGE_EXTS : list string :=
  [".png"; ".jpg"; ".jpeg"; ".tiff"; ".tif"; ".webp"; ".bmp"].
Definition HTML_EXTS : list string := [".html"; ".htm"].

(** The extension given to the temporary copy of a bytes input. *)
Definition guessed_ext (mime : option string) : string :=
  let key := or_else mime "" in
  if String.eqb key "application/pdf" then ".pdf"
  else if String.eqb key "text/html" then ".html"
  else if String.eqb key "image/png" then ".png"
  else if String.eqb key "image/jpeg" then ".jpg"
  else if String.eqb key "image/tiff" then ".tiff"
  else if String.eqb key "image/webp" then ".webp"
  else ".bin".

(** The four routing flags of [load]. *)
Definition is_pdf (label mime ext : option string) : bool :=
  opt_eq label "pdf" || opt_eq mime "application/pdf" || opt_eq ext ".pdf".

Definition is_office (label mime : option string) : bool :=
  opt_in label OFFICE_LABELS || opt_in mime OFFICE_MIMES.

Definition is_html (label mime ext : option string) : bool :=
  opt_in label HTML_LABELS || opt_eq mime "text/html" ||
  (if truthy ext then opt_in ext HTML_EXTS else false).

Definition is_image (label mime ext : option string) : bool :=
  opt_in label IMAGE_LABELS ||
  (truthy mime && match mime with Some s => startswith s "image/" | None => false end) ||
  (if truthy ext then opt_in ext IMAGE_EXTS else false).

(** [fmt.upper() in ("JPG", "JPEG") and im.mode != "RGB"]. *)
Definition to_save (fmt : string) (im : Image E) : Image E :=
  if is_in (upper fmt) ["JPG"; "JPEG"] && negb (String.eqb (im_mode E im) "RGB")
  then convert_rgb E im else im.

(** [_images_to_bytes]. *)
Definition _images_to_bytes (images : list (Image E)) (fmt : string) : result (list bytes) :=
  map_result (fun im => encode E (to_save fmt im) (upper fmt)) images.

Definition zip_entry_name (fmt prefix : string) (name_hint : option string) (i : nat) : string :=
  if truthy name_hint then
    let '(root, ext) := OsPath.splitext (or_else name_hint "") in
    root ++ "_" ++ OsPath.fmt_04d i ++ (if String.eqb ext "" then "." ++ lower fmt else ext)
  else prefix ++ "_" ++ OsPath.fmt_04d i ++ "." ++ lower fmt.

(** [_images_to_zip_bytes]: the members written. *)
Definition _images_to_zip_bytes (images : list (Image E)) (fmt prefix : string)
    (name_hint : option string) : result (list (string * bytes)) :=
  map_result
    (fun '(i, im) =>
       match encode E (to_save fmt im) (upper fmt) with
       | Raise e => Raise e
       | Ok data => Ok (zip_entry_name fmt prefix name_hint i, data)
       end)
    (enumerate 1 images).

(** One page of [_images_to_pdf_bytes]: [points = pixels / dpi * 72]. *)
Definition pdf_page_of (dpi : Z) (im : Image E) : result PdfPage :=
  let im := if is_in (im_mode E im) ["RGB"; "L"] then im else convert_rgb E im in
  let '(w_px, h_px) := im_size E im in
  match Float64.fdiv (Float64.of_int w_px) (Float64.of_int dpi),
        Float64.fdiv (Float64.of_int h_px) (Float64.of_int dpi) with
  | Ok qw, Ok qh =>
      match encode E im "PNG" with
      | Raise e => Raise e
      | Ok png =>
          Ok (mkPdfPage (Float64.fmul qw (Float64.of_int 72))
                        (Float64.fmul qh (Float64.of_int 72)) png)
      end
  | Raise e, _ => Raise e
  | _, Raise e => Raise e
  end.

(** [_images_to_pdf_bytes]. *)
Definition _images_to_pdf_bytes (images : list (Image E)) (dpi : Z) : result bytes :=
  match map_result (pdf_page_of dpi) images with
  | Raise e => Raise e
  | Ok pages => pdf_tobytes E pages
  end.

(** The two loops that write the pages under [out_dir]. *)
Definition save_pages (images : list (Image E)) (options : LoadOptions) : M (list string) :=
  fun fs =>
    let out_dir := or_else (output_dir options) (OsPath.join (getcwd E fs) "doc_images") in
    mapM (fun '(i, im) =>
            let fp := OsPath.join out_dir
                        (filename_prefix options ++ "_" ++ OsPath.fmt_04d i ++ "."
                         ++ lower (image_format options)) in
            bindM (fun fs' => save_as E fs' (to_save (image_format options) im) fp
                                (upper (image_format options)))
                  (fun _ => ret fp))
         (enumerate 1 images) (makedirs E fs out_dir).

(** The last part of [load], "回傳模式": from the pages to the value
    returned. *)
Definition assemble (images : list (Image E)) (saved_paths : list string)
    (options : LoadOptions) : M (LoadResult E) :=
  let mode := return_mode options in
  if String.eqb mode "PIL" then ret (RImages images)
  else if String.eqb mode "BYTES" then
    bindM (lift (_images_to_bytes images (image_format options))) (fun bs => ret (RBytes bs))
  else if String.eqb mode "PATHS" then
    match saved_paths with
    | [] => bindM (save_pages images options) (fun ps => ret (RPaths ps))
    | _ => ret (RPaths saved_paths)
    end
  else if String.eqb mode "ZIP_BYTES" then
    bindM (lift (_images_to_zip_bytes images (image_format options)
                   (filename_prefix options) (zip_name_in_zip options)))
          (fun ms => ret (RZip ms))
  else if String.eqb mode "PDF_BYTES" then
    bindM (lift (_images_to_pdf_bytes images (dpi options))) (fun b => ret (RPdf b))
  else raise (ValueError ("Unknown return_mode: " ++ mode)).

(** The tail of [load] once the pages exist: the optional "存檔" step, then
    the return mode. *)
Definition finish (images : list (Image E)) (options : LoadOptions) : M (LoadResult E) :=
  bindM (if save options then save_pages images options else ret [])
        (fun saved_paths => assemble images saved_paths options).

Definition show_opt (x : option string) : string :=
  match x with Some s => s | None => "None" end.

(** The rasterising routes of [load]. *)
Definition produce_images (label mime ext : option string) (src : string)
    (data_bytes : option bytes) (src_path work : string) (options : LoadOptions)
    : M (list (Image E)) :=
  let open pdf := _open_pdf_as_images pdf (dpi options) (max_side options)
                    (background_rgba options) in
  if is_pdf label mime ext then
    open (match data_bytes with
          | Some d => if negb (bytes_eqb d []) && bytes_eqb (take 4 d) magic_pdf
                      then inr d else inl src_path
          | None => inl src_path
          end)
  else if is_office label mime then
    bindM (fun fs => libreoffice_to_pdf E fs src_path work) (fun pdf_path => open (inl pdf_path))
  else if is_html label mime ext then
    bindM (fun fs => html_to_pdf E fs src_path (OsPath.join work "from_html.pdf"))
          (fun _ => open (inl (OsPath.join work "from_html.pdf")))
  else if is_image label mime ext then load_image src_path options
  else if truthy ext && negb (opt_eq ext ".bin") then
    bindM (fun fs => libreoffice_to_pdf E fs src_path work) (fun pdf_path => open (inl pdf_path))
  else
    raise (ValueError ("Unsupported or unknown document type: label=" ++ show_opt label
                       ++ " mime=" ++ show_opt mime ++ " ext=" ++ show_opt ext
                       ++ " src=" ++ src)).

(** The direct PDF routes of [load], taken when [return_mode] is
    [PDF_BYTES]: [None] when the source is neither PDF, Office nor HTML. *)
Definition direct_pdf (label mime ext : option string) (data_bytes : option bytes)
    (src_path work : string) : M (option bytes) :=
  if is_pdf label mime ext then
    match data_bytes with
    | Some d => ret (Some d)
    | None => bindM (fun fs => (read_file E fs src_path, fs)) (fun b => ret (Some b))
    end
  else if is_office label mime then
    bindM (fun fs => libreoffice_to_pdf E fs src_path work)
          (fun pdf_path => bindM (fun fs => (read_file E fs pdf_path, fs))
                                 (fun b => ret (Some b)))
  else if is_html label mime ext then
    bindM (fun fs => html_to_pdf E fs src_path (OsPath.join work "from_html.pdf"))
          (fun _ => bindM (fun fs => (read_file E fs (OsPath.join work "from_html.pdf"), fs))
                          (fun b => ret (Some b)))
  else ret None.

(** [DocumentToImagesLoader.load(doc, options)]. *)
Definition load (doc : DocInput) (options : option LoadOptions) : M (LoadResult E) :=
  let options := default default_options options in
  bindM (_detect_type doc) (fun '(label_or_mime, path, src) =>
  let ext := if truthy path then _ext_lower <$> path else None in
  let label := if String.eqb src "magika" then Some label_or_mime else None in
  let mime := if String.eqb src "magika" then None else Some label_or_mime in
  with_tempdir (fun work =>
    bindM
      (match doc with
       | Path p => ret (None, abspath E p, ext)
       | Bytes data =>
           let src_path := OsPath.join work ("input" ++ guessed_ext mime) in
           bindM (fun fs => (Ok tt, write_file E fs src_path data))
                 (fun _ => ret (Some data, src_path,
                                if truthy ext then ext else Some (_ext_lower src_path)))
       end)
      (fun '(data_bytes, src_path, ext) =>
    bindM
      (if String.eqb (return_mode options) "PDF_BYTES"
       then direct_pdf label mime ext data_bytes src_path work
       else ret None)
      (fun direct =>
    match direct with
    | Some pdf => ret (RPdf pdf)
    | None =>
        bindM (produce_images label mime ext src data_bytes src_path work options)
              (fun images => finish images options)
    end)))).

End Load.

End Loader.

(* ===================================================================== *)
(** ** The conversion contracts, as the specification words them *)
(* ===================================================================== *)

Module ConvertSpec.

Import Loader.

(** The input is classified into the PDF family: by the classifier's label,
    by the fallback mime type, or by the extension of its path. *)
Definition pdf_family (E : Env) (fs : FS E) (doc : DocInput) : Prop :=
  match fst (_detect_type E doc fs) with
  | Ok (label_or_mime, path, src) =>
      let ext := if truthy path then _ext_lower <$> path else None in
      let label := if String.eqb src "magika" then Some label_or_mime else None in
      let mime := if String.eqb src "magika" then None else Some label_or_mime in
      opt_eq label "pdf" || opt_eq mime "application/pdf" || opt_eq ext ".pdf" = true
  | Raise _ => False
  end.

(** The file name of page [i] under [out_dir]. *)
Definition page_path (out_dir : string) (options : LoadOptions) (i : nat) : string :=
  OsPath.join out_dir
    (filename_prefix options ++ "_" ++ OsPath.fmt_04d i ++ "."
     ++ lower (image_format options)).

(** The directory pages are written to. *)
Definition out_dir_of (E : Env) (fs : FS E) (options : LoadOptions) : string :=
  or_else (output_dir options) (OsPath.join (getcwd E fs) "doc_images").

(** Each return mode's result holds one element per page, in page order:
    the page itself, its encoding, its file, its archive member (numbered
    from 1), or its page in the PDF handed to the PDF library. *)
Definition one_per_page (E : Env) (fs : FS E) (images : list (Image E))
    (options : LoadOptions) (r : LoadResult E) : Prop :=
  let fmt := image_format options in
  match r with
  | RImages out => out = images
  | RBytes blocks =>
      Forall2 (fun im b => encode E (to_save E fmt im) (upper fmt) = Ok b) images blocks
  | RPaths paths =>
      Forall2 (fun '(i, _) p => p = page_path (out_dir_of E fs options) options i)
              (enumerate 1 images) paths
  | RZip members =>
      Forall2 (fun '(i, im) '(entry, data) =>
                 entry = zip_entry_name fmt (filename_prefix options)
                           (zip_name_in_zip options) i /\
                 encode E (to_save E fmt im) (upper fmt) = Ok data)
              (enumerate 1 images) members
  | RPdf pdf =>
      exists pages,
        Forall2 (fun im pg => pdf_page_of E (dpi options) im = Ok pg) images pages /\
        pdf_tobytes E pages = Ok pdf
  end.

(** The nearest integer to [n / d], as [round] computes it. *)
Definition round_div (n d : Z) : Z := Float64.rne n d.

End ConvertSpec.

(* ===================================================================== *)
(** ** A plain environment for the loader *)
(* ===================================================================== *)

Module Plain.

Import Loader.

(** The content classifier is unavailable, an image is its size, every
    document rasterises to [pages], encoders return the size in two bytes'
    worth of text, and the file system is not observed. *)
Definition env (pages : list (Z * Z)) : Env :=
  {| FS := unit;
     Image := Z * Z;
     identify_path := fun _ _ => Raise (OtherError "MagikaError" "model unavailable");
     identify_bytes := fun _ => Raise (OtherError "MagikaError" "model unavailable");
     guess_type := fun _ => None;
     abspath := fun p => p;
     getcwd := fun _ => "/srv";
     mkdtemp := fun fs => ("/tmp/doc2img-0", fs);
     rmtree := fun fs _ => fs;
     write_file := fun fs _ _ => fs;
     read_file := fun _ _ => Raise (OtherError "FileNotFoundError" "No such file or directory");
     makedirs := fun fs _ => fs;
     libreoffice_to_pdf := fun fs _ _ =>
       (Raise (RuntimeError "LibreOffice 未安裝，無法將 Office 轉為 PDF。請安裝 libreoffice。"), fs);
     html_to_pdf := fun fs _ _ =>
       (Raise (RuntimeError "缺少 HTML 渲染器（WeasyPrint 或 Chrome/Chromium）。"), fs);
     rasterize := fun _ _ _ => Ok pages;
     open_rgba := fun _ _ => Ok (1%Z, 1%Z);
     im_size := fun im => im;
     im_mode := fun _ => "RGBA";
     flatten := fun im _ => im;
     resize := fun _ size => Ok size;
     convert_rgb := fun im => im;
     encode := fun im fmt => Ok (magic_png ++ [x0d; x0a])%list;
     save_as := fun fs _ _ _ => (Ok tt, fs);
     pdf_tobytes := fun _ => Ok magic_pdf |}.

(** A WEBP file header: [RIFF], a length, [WEBP], [VP8 ]. *)
Definition webp_sample : bytes :=
  [x52; x49; x46; x46; x1a; x00; x00; x00; x57; x45; x42; x50; x56; x50; x38; x20].

(** A PDF file header. *)
Definition pdf_sample : bytes := [x25; x50; x44; x46; x2d; x31; x2e; x37; x0a].

Definition options (mode : string) : LoadOptions :=
  mkOptions 200 None None false None "page" "PNG" mode None.

End Plain.

(* ===================================================================== *)
(** ** The float model against the primitive floats *)
(* ===================================================================== *)

Module CrossCheck.

Local Open Scope Z_scope.

(** The size the loader asks for equals the size computed with the
    primitive binary64 operations. *)
Definition agrees (w h s : Z) : bool :=
  match Loader.image_new_size w h (Some s) with
  | Ok (Some (a, b)) =>
      let '(c, d) := Hardware.scaled_size w h s in (a =? c) && (b =? d)
  | _ => false
  end.

(** Page sizes and limits to compare on: A4 and Letter at common
    resolutions, squares, thin strips, sizes next to [2^26], and limits
    that are zero or negative. *)
Definition samples : list (Z * Z * Z) :=
  [(1654, 2339, 1024); (2480, 3508, 1600); (1700, 2200, 1024); (3000, 2000, 1024);
   (1122, 1122, 1024); (1138, 1138, 1024); (49, 49, 1); (1, 1000, 100);
   (640, 480, 100); (7, 3, 2); (12345, 54321, 999); (4000, 3000, 1600);
   (67108863, 67108862, 67108861); (67108863, 1, 3); (50000000, 67108863, 12345678);
   (100, 50, 0); (100, 50, -3); (3, 7, -1000)].

End CrossCheck.

(* ===================================================================== *)
(** ** s3util.py on a working object store *)
(* ===================================================================== *)

(** The object store as a finite map from bucket and key to the body and
    the content type of the object: [put_object] overwrites, [get_object]
    answers [NoSuchKey] for an absent key and never fails otherwise. *)

Module Store.

Abbreviation objects := (gmap (string * string) (bytes * string)).

Definition no_such_key : exn :=
  ClientError "NoSuchKey"
    "An error occurred (NoSuchKey) when calling the GetObject operation: The specified key does not exist.".

(** [client.get_object(Bucket=b, Key=k)["Body"].read()]. *)
Definition get_object (s : objects) (bucket key : string) : result bytes :=
  match s !! (bucket, key) with
  | Some (data, _) => Ok data
  | None => Raise no_such_key
  end.

(** [put_bytes(cfg, key, data, content_type)]: the URI returned and the
    store left. *)
Definition put_bytes (cfg_bucket : string) (s : objects) (key : string) (data : bytes)
    (content_type : string) : string * objects :=
  ("s3://" ++ cfg_bucket ++ "/" ++ key, <[(cfg_bucket, key) := (data, content_type)]> s).

(** [get_bytes(cfg, key)]. *)
Definition get_bytes (cfg_bucket : string) (s : objects) (key : string) : result bytes :=
  get_object s cfg_bucket key.

End Store.

(* ===================================================================== *)
(** ** app.py: the endpoints; tasks/to_pdf.py *)
(* ===================================================================== *)

Module Service.

(** Row of table [artifact]; [meta] is a flat JSON object of strings. *)
Record Artifact := mkArtifact {
  a_id : string;
  a_file_id : string;
  a_task_run_id : string;
  a_kind : string;
  a_storage_uri : string;
  a_meta : list (string * string)
}.

(** The columns of table [file] that [Models.File] leaves out. *)
Record FileMeta := mkFileMeta {
  mime_type : option string;
  byte_size : Z;
  sha256 : string
}.

(** One [UploadFile] of a request: its name, its declared content type and
    what [await up.read()] gives. *)
Record UploadFile := mkUpload {
  up_filename : string;
  up_content_type : option string;
  up_content : bytes
}.

Section Endpoints.

Context {B : Builtins}.

(** The loader's surroundings. *)
Variable E : Loader.Env.

(** The JSON values of the [params] column, and [{}]. *)
Variable Json : Type.
Variable empty_params : Json.

(** [str(uuid4())] at its n-th call. *)
Variable uuid4 : nat -> string.

(** [sha256_bytes]. *)
Variable sha256_bytes : bytes -> string.

(** [load_s3_config().bucket]. *)
Variable cfg_bucket : string.

(** Everything outside the [task_run] and [file] tables of [Worker.World]:
    the object store, the [artifact] table in insertion order, the other
    columns of the two tables, the triggers sent to the queue in order, the
    number of identifiers drawn so far, and the loader's file system. *)
Record Ext := mkExt {
  objects : Store.objects;
  artifact : list Artifact;
  file_meta : gmap string FileMeta;
  run_params : gmap string Json;
  queue : list string;
  issued : nat;
  fsys : Loader.FS E
}.

Abbreviation World := (Worker.World Ext).

(** The worker's view of the store. *)
Definition get_object (x : Ext) (bucket key : string) : result bytes :=
  Store.get_object (objects x) bucket key.

(** An [HTTPException] whose detail is a plain string. *)
Definition http_error (status : Z) (detail : string) : exn :=
  HTTPException status (DetailText detail).

Definition integrity_error : exn :=
  OtherError "IntegrityError" "duplicate key value violates unique constraint".

(** Drawing an identifier. *)
Definition draw (x : Ext) : string * Ext :=
  (uuid4 (issued x),
   mkExt (objects x) (artifact x) (file_meta x) (run_params x) (queue x)
         (S (issued x)) (fsys x)).

(** [s3util.put_bytes] on the store. *)
Definition put_bytes (x : Ext) (key : string) (data : bytes) (content_type : string)
    : string * Ext :=
  let '(uri, s) := Store.put_bytes cfg_bucket (objects x) key data content_type in
  (uri, mkExt s (artifact x) (file_meta x) (run_params x) (queue x) (issued x) (fsys x)).

(** [db.add(Artifact(...)); db.commit()]: the identifier is drawn for the
    new row, which goes last. *)
Definition add_artifact (x : Ext) (file_id task_run_id kind uri : string)
    (meta : list (string * string)) : Ext :=
  let '(aid, x1) := draw x in
  mkExt (objects x1)
        (artifact x1 ++ [mkArtifact aid file_id task_run_id kind uri meta])%list
        (file_meta x1) (run_params x1) (queue x1) (issued x1) (fsys x1).

(** [cel.send_task("worker.run_task", kwargs={"task_run_id": i})]. *)
Definition send_task (x : Ext) (i : string) : Ext :=
  mkExt (objects x) (artifact x) (file_meta x) (run_params x)
        (queue x ++ [i])%list (issued x) (fsys x).

(** [db.add(row); db.commit()] for a new [file] row: a primary key that is
    taken makes the commit raise. *)
Definition insert_file (w : World) (row : File) (meta : FileMeta) : result unit * World :=
  match Worker.file w !! f_id row with
  | Some _ => (Raise integrity_error, w)
  | None =>
      let x := Worker.ext w in
      (Ok tt,
       Worker.mkWorld (Worker.task_run w) (<[f_id row := row]> (Worker.file w))
         (Worker.ticks w) (Worker.commits w)
         (mkExt (objects x) (artifact x) (<[f_id row := meta]> (file_meta x))
                (run_params x) (queue x) (issued x) (fsys x)))
  end.

(** The same for a new [task_run] row. *)
Definition insert_task_run (w : World) (tr : TaskRun) (params : Json) : result unit * World :=
  match Worker.task_run w !! id tr with
  | Some _ => (Raise integrity_error, w)
  | None =>
      let x := Worker.ext w in
      (Ok tt,
       Worker.mkWorld (<[id tr := tr]> (Worker.task_run w)) (Worker.file w)
         (Worker.ticks w) (Worker.commits w)
         (mkExt (objects x) (artifact x) (file_meta x)
                (<[id tr := params]> (run_params x)) (queue x) (issued x) (fsys x)))
  end.

(** [db.add(tr); db.commit()] for a row already stored. *)
Definition update_task_run (w : World) (tr : TaskRun) : World :=
  Worker.mkWorld (<[id tr := tr]> (Worker.task_run w)) (Worker.file w)
    (Worker.ticks w) (Worker.commits w) (Worker.ext w).

(** The key [upload_files] stores an upload under. *)
Definition source_key (user_id file_id filename : string) : string :=
  user_id ++ "/source_files/" ++ file_id ++ "/" ++ filename.

(** The body of the loop of [upload_files] for one upload that is not
    empty. *)
Definition upload_one (user_id : string) (up : UploadFile) (w : World)
    : result string * World :=
  let data := up_content up in
  let '(file_id, x1) := draw (Worker.ext w) in
  let key := source_key user_id file_id (up_filename up) in
  let '(uri, x2) :=
    put_bytes x1 key data (Loader.or_else (up_content_type up) "application/octet-stream") in
  let row := mkFile file_id user_id (up_filename up) uri "READY" in
  match insert_file (Worker.set_ext w x2) row
          (mkFileMeta (up_content_type up) (Z.of_nat (length data)) (sha256_bytes data)) with
  | (Raise e, w3) => (Raise e, w3)
  | (Ok _, w3) => (Ok file_id, w3)
  end.

(** The uploads whose content is not empty, in their order. *)
Definition nonempty (files : list UploadFile) : list UploadFile :=
  filter (fun up => up_content up <> []) files.

(** The loop of [upload_files]: the identifiers appended to [out_ids]. *)
Fixpoint upload_loop (user_id : string) (files : list UploadFile) (w : World)
    : result (list string) * World :=
  match files with
  | [] => (Ok [], w)
  | up :: rest =>
      match up_content up with
      | [] => upload_loop user_id rest w
      | _ :: _ =>
          match upload_one user_id up w with
          | (Raise e, w1) => (Raise e, w1)
          | (Ok file_id, w1) =>
              match upload_loop user_id rest w1 with
              | (Raise e, w2) => (Raise e, w2)
              | (Ok ids, w2) => (Ok (file_id :: ids), w2)
              end
          end
      end
  end.

(** [upload_files(files, user_id, db)]: the list under ["file_ids"]. *)
Definition upload_files (files : list UploadFile) (user_id : string) (w : World)
    : result (list string) * World :=
  match files with
  | [] => (Raise (http_error 400 "No files"), w)
  | _ :: _ =>
      match upload_loop user_id files w with
      | (Raise e, w1) => (Raise e, w1)
      | (Ok [], w1) => (Raise (http_error 400 "All files empty"), w1)
      | (Ok out_ids, w1) => (Ok out_ids, w1)
      end
  end.

(** [not row or row.status == "DELETED"]. *)
Definition usable_file (w : World) (fid : string) : option File :=
  match Worker.file w !! fid with
  | Some row => if String.eqb (f_status row) "DELETED" then None else Some row
  | None => None
  end.

(** The loop of [run_files]: the pairs of run and file appended to
    [runs]. *)
Fixpoint run_loop (name : string) (params : Json) (file_ids : list string) (w : World)
    : result (list (string * string)) * World :=
  match file_ids with
  | [] => (Ok [], w)
  | fid :: rest =>
      match usable_file w fid with
      | None => run_loop name params rest w
      | Some _ =>
          let '(run_id, x1) := draw (Worker.ext w) in
          let tr := mkTaskRun run_id fid name "PENDING" None None None in
          match insert_task_run (Worker.set_ext w x1) tr params with
          | (Raise e, w2) => (Raise e, w2)
          | (Ok _, w2) =>
              match run_loop name params rest
                      (Worker.set_ext w2 (send_task (Worker.ext w2) run_id)) with
              | (Raise e, w3) => (Raise e, w3)
              | (Ok runs, w3) => (Ok ((run_id, fid) :: runs), w3)
              end
          end
      end
  end.

(** [run_files(payload, db)], with [payload.params or {}] already taken:
    the list under ["runs"]. *)
Definition run_files (file_ids : list string) (name : string) (params : Json) (w : World)
    : result (list (string * string)) * World :=
  match file_ids with
  | [] => (Raise (http_error 400 "file_ids empty"), w)
  | _ :: _ =>
      match run_loop name params file_ids w with
      | (Raise e, w1) => (Raise e, w1)
      | (Ok [], w1) => (Raise (http_error 400 "No valid files to run"), w1)
      | (Ok runs, w1) => (Ok runs, w1)
      end
  end.

(** [run_status(task_run_id, db)]: the row behind the answer. *)
Definition run_status (task_run_id : string) (w : World) : result TaskRun :=
  match Worker.task_run w !! task_run_id with
  | None => Raise (http_error 404 "task_run not found")
  | Some tr => Ok tr
  end.

(** [LoadOptions(return_mode="PDF_BYTES")]. *)
Definition pdf_options : Loader.LoadOptions :=
  Loader.mkOptions 200 None None false None "page" "PNG" "PDF_BYTES" None.

(** [loader.load(data, LoadOptions(return_mode="PDF_BYTES"))] on the
    file system of [x].  In this mode [load] returns bytes; any other value
    would be refused as an object body. *)
Definition load_pdf (data : bytes) (x : Ext) : result bytes * Ext :=
  let '(r, fs') := Loader.load E (Loader.Bytes data) (Some pdf_options) (fsys x) in
  let x' := mkExt (objects x) (artifact x) (file_meta x) (run_params x)
                  (queue x) (issued x) fs' in
  match r with
  | Raise e => (Raise e, x')
  | Ok (Loader.RPdf pdf) => (Ok pdf, x')
  | Ok _ => (Raise (TypeError "a bytes-like object is required"), x')
  end.

(** The [try] block of [file_to_pdf], up to the artifact row. *)
Definition file_to_pdf_body (tr : TaskRun) (f : File) (data : bytes) (x : Ext)
    : result bytes * Ext :=
  match load_pdf data x with
  | (Raise e, x1) => (Raise e, x1)
  | (Ok pdf_bytes, x1) =>
      let stem := fst (OsPath.splitext (user_filename f)) in
      let pdf_key := owner_id f ++ "/artifacts/" ++ f_id f ++ "/" ++ id tr
                     ++ "/to-pdf/" ++ stem ++ ".pdf" in
      let '(pdf_uri, x2) := put_bytes x1 pdf_key pdf_bytes "application/pdf" in
      (Ok pdf_bytes, add_artifact x2 (f_id f) (id tr) "pdf" pdf_uri [("source", "to_pdf")])
  end.

(** [file_to_pdf(file_id, db)]: the body of the response. *)
Definition file_to_pdf (file_id : string) (w : World) : result bytes * World :=
  match usable_file w file_id with
  | None => (Raise (http_error 404 "file not found"), w)
  | Some f =>
      match App._resolve_source_bytes_or_404 (get_object (Worker.ext w)) cfg_bucket f with
      | Raise e => (Raise e, w)
      | Ok data =>
          let '(run_id, x1) := draw (Worker.ext w) in
          let tr := mkTaskRun run_id (f_id f) "to_pdf" "RUNNING" None None None in
          match insert_task_run (Worker.set_ext w x1) tr empty_params with
          | (Raise e, w2) => (Raise e, w2)
          | (Ok _, w2) =>
              match file_to_pdf_body tr f data (Worker.ext w2) with
              | (Ok pdf_bytes, x3) =>
                  (Ok pdf_bytes,
                   update_task_run (Worker.set_ext w2 x3)
                     (mkTaskRun run_id (f_id f) "to_pdf" "SUCCEEDED" None None None))
              | (Raise e, x3) =>
                  (Raise e,
                   update_task_run (Worker.set_ext w2 x3)
                     (mkTaskRun run_id (f_id f) "to_pdf" "FAILED" None None (Some (str e))))
              end
          end
      end
  end.

(** [tasks/to_pdf.py]: [_stem] and [_artifact_key]. *)
Definition _stem (filename : string) : string := fst (OsPath.splitext filename).

Definition _artifact_key (user_id file_id task_run_id subpath : string) : string :=
  user_id ++ "/artifacts/" ++ file_id ++ "/" ++ task_run_id ++ "/" ++ subpath.

(** [ToPdfHandler.run(tr, f, data)]. *)
Definition to_pdf_run (tr : TaskRun) (f : File) (data : bytes) (x : Ext)
    : result unit * Ext :=
  match load_pdf data x with
  | (Raise e, x1) => (Raise e, x1)
  | (Ok pdf_bytes, x1) =>
      let stem := _stem (user_filename f) in
      let pdf_key := _artifact_key (owner_id f) (f_id f) (id tr)
                       ("to-pdf/" ++ stem ++ ".pdf") in
      let '(pdf_uri, x2) := put_bytes x1 pdf_key pdf_bytes "application/pdf" in
      (Ok tt, add_artifact x2 (f_id f) (id tr) "pdf" pdf_uri [("source", "to_pdf")])
  end.

(** [ToPdfHandler], with its class attribute [name]. *)
Definition ToPdfHandler : Manager.BaseHandler Ext := Manager.mkHandler "to_pdf" to_pdf_run.

End Endpoints.

Arguments objects {E Json} e.
Arguments artifact {E Json} e.
Arguments file_meta {E Json} e.
Arguments run_params {E Json} e.
Arguments queue {E Json} e.
Arguments issued {E Json} e.
Arguments fsys {E Json} e.

End Service.

(* ===================================================================== *)
(** ** Outcomes of one candidate of the resolution chain *)
(* ===================================================================== *)

Module Outcome.

(** The fetch reported the object missing: a [ClientError] with code
    [NoSuchKey] or [NoSuchBucket]. *)
Definition missing (r : result bytes) : Prop :=
  match r with
  | Raise (ClientError code _) => App.missing_code code = true
  | _ => False
  end.

(** The recorded location gives no object: it has no bucket and key, or
    the fetch there raises. *)
Definition recorded_gives_nothing (get_object : string -> string -> result bytes)
    (f : File) : Prop :=
  forall bkt key, Location.located f bkt key -> raises (get_object bkt key).

End Outcome.

(* ===================================================================== *)
(** ** The shape of a run record *)
(* ===================================================================== *)

Module RunRecord.

(** A run that has been driven to its end: SUCCEEDED or FAILED, with a
    finish time that no start time it has exceeds, and an error text
    exactly when it is FAILED. *)
Definition settled (tr : TaskRun) : Prop :=
  Worker.terminal (status tr) /\
  (exists fin, finished_at tr = Some fin /\
               forall s, started_at tr = Some s -> (s <= fin)%Z) /\
  (is_Some (error tr) <-> status tr = "FAILED").

(** The three columns [_mark] never writes. *)
Definition same_identity (tr tr' : TaskRun) : Prop :=
  id tr' = id tr /\ file_id tr' = file_id tr /\ name tr' = name tr.

(** The statuses [_mark] is called with. *)
Definition marks : list string := ["RUNNING"; "SUCCEEDED"; "FAILED"].

(** The start time of [tr], if any, was read from the clock before now. *)
Definition started_before {Ext : Type} (utcnow : nat -> Z) (w : Worker.World Ext)
    (tr : TaskRun) : Prop :=
  forall s, started_at tr = Some s ->
    exists t, (t < Worker.ticks w)%nat /\ s = utcnow t.

End RunRecord.

(* ===================================================================== *)
(** ** A third deployment: the endpoints on an empty service *)
(* ===================================================================== *)

Module Desk.

(** The plain loader environment; the [params] column holds nothing. *)
Definition E : Loader.Env := Plain.env [].

Definition Json : Type := unit.

(** Identifiers [id-], [id-i], [id-ii], ... *)
Fixpoint tally (n : nat) : string :=
  match n with
  | O => EmptyString
  | S n' => String "i" (tally n')
  end.

Definition uuid4 (n : nat) : string := "id-" ++ tally n.

(** A stand-in for the digest: the length of the data. *)
Definition sha256_bytes (data : bytes) : string := pretty (N.of_nat (length data)).

Definition ext0 : Service.Ext E Json := Service.mkExt E Json ∅ [] ∅ ∅ [] 0 tt.

(** Nothing uploaded, nothing run. *)
Definition world0 : Worker.World (Service.Ext E Json) := Worker.mkWorld ∅ ∅ 0 [] ext0.

(** A request with a PDF and an empty upload. *)
Definition request : list Service.UploadFile :=
  [Service.mkUpload "a.pdf" (Some "application/pdf") Plain.pdf_sample;
   Service.mkUpload "empty.txt" None []].

(** After [POST /files]. *)
Definition world1 : Worker.World (Service.Ext E Json) :=
  (Service.upload_files E Json uuid4 sha256_bytes Scenario.the_bucket request "alice" world0).2.

(** After [POST /files:run] for the uploaded file and one that does not
    exist. *)
Definition world2 : Worker.World (Service.Ext E Json) :=
  (Service.run_files E Json uuid4 ["id-"; "nowhere"] "to_pdf" tt world1).2.

(** The registry with [ToPdfHandler] alone. *)
Definition manager : Manager.TaskManager (Service.Ext E Json) :=
  Manager.mkManager {[ "to_pdf" := Service.ToPdfHandler E Json uuid4 Scenario.the_bucket ]}.

End Desk.

(* ===================================================================== *)
(** ** A clock that is set back *)
(* ===================================================================== *)

Module Skew.

(** [datetime.utcnow()] is the wall clock: here it is set back by one
    second between any two readings. *)
Definition utcnow (n : nat) : Z := 1700000000 - Z.of_nat n.

Definition deliver :=
  @Worker.deliver nat ascii_builtins utcnow Scenario.get_object Scenario.manager.

End Skew.

(* ===================================================================== *)
(** ** Documents with a PDF rendering of their own *)
(* ===================================================================== *)

Module DirectSpec.

Import Loader.

(** The input is classified as a document that has a PDF rendering of its
    own: PDF, Office or HTML, by the classifier's label, by the fallback
    mime type, or by the extension of its path. *)
Definition document_family (E : Env) (fs : FS E) (doc : DocInput) : Prop :=
  match fst (_detect_type E doc fs) with
  | Ok (label_or_mime, path, src) =>
      let ext := if truthy path then _ext_lower <$> path else None in
      let label := if String.eqb src "magika" then Some label_or_mime else None in
      let mime := if String.eqb src "magika" then None else Some label_or_mime in
      is_pdf label mime ext || is_office label mime || is_html label mime ext = true
  | Raise _ => False
  end.

End DirectSpec.

(* ===================================================================== *)
(** * Theorems *)
(* ===================================================================== *)

(** The concrete deployments name their handlers and runs in ASCII. *)
#[local] Existing Instance Py.ascii_builtins.

(* --------------------------------------------------------------------- *)
(** ** Storage URIs *)
(* --------------------------------------------------------------------- *)

Section UriFacts.

Import S3util.

Local Arguments Ascii.eqb : simpl never.

Lemma split_once_sound (rest a b : string) :
  split_once "/" rest = Some (a, b) ->
  rest = a ++ "/" ++ b /\ S3util.slashless a = true.
Proof.
  revert a. induction rest as [|c rest IH]; intros a; simpl; [intros [=]|].
  destruct (Ascii.eqb "/" c) eqn:Hc.
  - intros ?; simplify_eq. apply Ascii.eqb_eq in Hc as <-. done.
  - destruct (split_once "/" rest) as [[a' b']|]; [|intros [=]].
    intros ?; simplify_eq. destruct (IH a' eq_refl) as [-> Ha'].
    simpl. rewrite Hc. done.
Qed.

Lemma split_once_complete (a b : string) :
  S3util.slashless a = true -> split_once "/" (a ++ "/" ++ b) = Some (a, b).
Proof.
  induction a as [|c a IH]; simpl; [done|].
  destruct (Ascii.eqb "/" c); simpl; [intros [=]|].
  intros Ha. by rewrite IH.
Qed.

Lemma split_once_Some (rest a b : string) :
  split_once "/" rest = Some (a, b) <->
  rest = a ++ "/" ++ b /\ S3util.slashless a = true.
Proof.
  split; [apply split_once_sound|]. intros [-> Ha]. by apply split_once_complete.
Qed.

Lemma split_once_None (rest : string) :
  split_once "/" rest = None <-> S3util.slashless rest = true.
Proof.
  induction rest as [|c rest IH]; simpl; [done|].
  destruct (Ascii.eqb "/" c); simpl; [done|].
  destruct (split_once "/" rest) as [[a b]|]; [|tauto].
  split; [intros [=]|]. intros H. apply IH in H. discriminate H.
Qed.

Lemma substring_drop_str (n : nat) (s : string) :
  substring 0 n s ++ drop_str n s = s.
Proof.
  revert s. induction n as [|n IH]; intros [|c s]; try reflexivity.
  change (String c (substring 0 n s ++ drop_str n s) = String c s).
  f_equal. apply IH.
Qed.

Lemma startswith_s3 (uri : string) :
  startswith uri "s3://" = true <-> uri = "s3://" ++ drop_str 5 uri.
Proof.
  unfold startswith. split.
  - intros H. apply String.prefix_correct in H.
    rewrite <- H at 1. symmetry. apply (substring_drop_str 5).
  - intros ->. apply String.prefix_correct.
    destruct (drop_str 5 uri); reflexivity.
Qed.

Lemma split_s3_uri_cases (uri : string) :
  (forall bucket key,
     split_s3_uri uri = Ok (bucket, key) <->
     uri = "s3://" ++ bucket ++ "/" ++ key /\ S3util.slashless bucket = true) /\
  (split_s3_uri uri = Raise (AssertionError "") <-> startswith uri "s3://" = false) /\
  (split_s3_uri uri = Raise (ValueError "not enough values to unpack (expected 2, got 1)") <->
   startswith uri "s3://" = true /\ S3util.slashless (drop_str 5 uri) = true).
Proof.
  unfold split_s3_uri. split; [|split].
  - intros bucket key. split.
    + destruct (startswith uri "s3://") eqn:Hs; [|intros [=]].
      apply startswith_s3 in Hs.
      destruct (split_once "/" (drop_str 5 uri)) as [[a b]|] eqn:Hsp; [|intros [=]].
      intros ?; simplify_eq. apply split_once_sound in Hsp as [Hrest Ha].
      split; [|done]. by rewrite Hs, Hrest.
    + intros [-> Hb].
      change (drop_str 5 ("s3://" ++ bucket ++ "/" ++ key)) with (bucket ++ "/" ++ key).
      replace (startswith ("s3://" ++ bucket ++ "/" ++ key) "s3://") with true.
      * by rewrite split_once_complete.
      * symmetry. apply startswith_s3. reflexivity.
  - destruct (startswith uri "s3://"); [|done].
    destruct (split_once "/" (drop_str 5 uri)) as [[a b]|]; split; intros [=].
  - destruct (startswith uri "s3://"); [|split; [intros [=]|intros [[=] _]]].
    destruct (split_once "/" (drop_str 5 uri)) as [[a b]|] eqn:Hsp.
    + split; [intros [=]|]. intros [_ H]. apply split_once_None in H. congruence.
    + split; [|done]. intros _. split; [done|]. by apply split_once_None.
Qed.

(** [split_s3_uri] on the recorded location of a file. *)
Lemma split_located (f : File) bucket key :
  split_s3_uri (storage_uri f) = Ok (bucket, key) <-> Location.located f bucket key.
Proof. apply (proj1 (split_s3_uri_cases (storage_uri f))). Qed.

Lemma split_unlocated (f : File) e :
  split_s3_uri (storage_uri f) = Raise e <-> Location.unlocated f e.
Proof.
  destruct (split_s3_uri_cases (storage_uri f)) as (_ & Hassert & Hvalue).
  unfold Location.unlocated. split.
  - unfold split_s3_uri.
    destruct (startswith (storage_uri f) "s3://") eqn:Hs.
    + destruct (split_once "/" (drop_str 5 (storage_uri f))) as [[a b]|] eqn:Hsp;
        [intros [=]|].
      intros [= <-]. right. split; [done|]. split; [|done]. by apply split_once_None.
    + intros [= <-]. by left.
  - intros [[Hs ->]|(Hs & Hsl & ->)]; [by apply Hassert|by apply Hvalue].
Qed.

(** [split_s3_uri] answers exactly on [s3://bucket/key] with no slash in
    the bucket, and gives these two names back; without the scheme it
    raises [AssertionError], with the scheme and no slash after it
    [ValueError]. *)
Theorem split_s3_uri_inverts_the_uri_format (uri : string) :
  (forall bucket key,
     split_s3_uri uri = Ok (bucket, key) <->
     uri = "s3://" ++ bucket ++ "/" ++ key /\ S3util.slashless bucket = true) /\
  (split_s3_uri uri = Raise (AssertionError "") <-> startswith uri "s3://" = false) /\
  (split_s3_uri uri = Raise (ValueError "not enough values to unpack (expected 2, got 1)") <->
   startswith uri "s3://" = true /\ S3util.slashless (drop_str 5 uri) = true).
Proof. exact (split_s3_uri_cases uri). Qed.

(** What [put_bytes] returns splits back into the bucket and the key it
    wrote to, when the bucket name has no slash; the object is then read
    back, and no other object has changed. *)
Theorem put_bytes_uri_round_trip (bucket key ct : string) (data : bytes)
    (s : Store.objects) :
  S3util.slashless bucket = true ->
  split_s3_uri (fst (Store.put_bytes bucket s key data ct)) = Ok (bucket, key) /\
  Store.get_bytes bucket (snd (Store.put_bytes bucket s key data ct)) key = Ok data /\
  (forall b k, (b, k) <> (bucket, key) ->
     Store.get_object (snd (Store.put_bytes bucket s key data ct)) b k
     = Store.get_object s b k).
Proof.
  intros Hb. split; [|split].
  - apply (proj1 (split_s3_uri_cases _)). done.
  - unfold Store.get_bytes, Store.get_object, Store.put_bytes. cbn.
    by rewrite lookup_insert_eq.
  - intros b k Hne. unfold Store.get_object, Store.put_bytes. cbn.
    by rewrite lookup_insert_ne.
Qed.

End UriFacts.

Section WorkerFacts.

Context {Ext : Type} {B : Builtins}.
Variable utcnow : nat -> Z.
Variable get_object : Ext -> string -> string -> result bytes.
Variable manager : Manager.TaskManager Ext.

Import Worker TriggerSpec Location.

Local Abbreviation mark := (@_mark Ext utcnow).
Local Abbreviation run_task := (@Worker.run_task Ext B utcnow get_object manager).
Local Abbreviation deliver := (@Worker.deliver Ext B utcnow get_object manager).
Local Abbreviation deliver_all := (@Worker.deliver_all Ext B utcnow get_object manager).

Lemma mark_id (w : World Ext) tr st err : id (fst (mark w tr st err)) = id tr.
Proof. reflexivity. Qed.

Lemma mark_status (w : World Ext) tr st err : status (fst (mark w tr st err)) = st.
Proof. reflexivity. Qed.

Lemma mark_error (w : World Ext) tr st err : error (fst (mark w tr st err)) = err.
Proof. reflexivity. Qed.

Lemma mark_lookup (w : World Ext) tr st err :
  task_run (snd (mark w tr st err)) !! id tr = Some (fst (mark w tr st err)).
Proof. cbn. apply lookup_insert_eq. Qed.

Lemma mark_lookup_ne (w : World Ext) tr st err j :
  j <> id tr -> task_run (snd (mark w tr st err)) !! j = task_run w !! j.
Proof. intros Hj. cbn. by rewrite lookup_insert_ne. Qed.

Lemma mark_file (w : World Ext) tr st err : file (snd (mark w tr st err)) = file w.
Proof. reflexivity. Qed.

Lemma mark_ext (w : World Ext) tr st err : ext (snd (mark w tr st err)) = ext w.
Proof. reflexivity. Qed.

Lemma mark_commits (w : World Ext) tr st err :
  commits (snd (mark w tr st err)) = (commits w ++ [(id tr, st)])%list.
Proof. reflexivity. Qed.

Lemma mark_ticks (w : World Ext) tr st err : ticks (snd (mark w tr st err)) = S (ticks w).
Proof. reflexivity. Qed.

Lemma mark_wf (w : World Ext) tr st err :
  wf w -> wf (snd (mark w tr st err)).
Proof.
  intros Hwf k tr'. cbn.
  destruct (decide (k = id tr)) as [->|Hne].
  - rewrite lookup_insert_eq. by intros [= <-].
  - rewrite lookup_insert_ne by done. apply Hwf.
Qed.

Lemma mark_marked (w : World Ext) tr st err :
  marked (snd (mark w tr st err)) (id tr) st err.
Proof. eexists. split; [apply mark_lookup|done]. Qed.

Lemma mark_only_run_changed (w : World Ext) tr st err :
  only_run_changed w (snd (mark w tr st err)) (id tr).
Proof. split; [done|]. intros j Hj. by apply mark_lookup_ne. Qed.

Lemma only_run_changed_trans (w1 w2 w3 : World Ext) i :
  only_run_changed w1 w2 i -> only_run_changed w2 w3 i -> only_run_changed w1 w3 i.
Proof.
  intros [Hf1 H1] [Hf2 H2]. split; [congruence|].
  intros j Hj. rewrite H2, H1; done.
Qed.

(** The RUNNING mark and a second mark, with the external state [x] in
    between. *)
Lemma marks_end (w : World Ext) tr x st err i :
  id tr = i ->
  ends w (mark (set_ext (mark w tr "RUNNING" None).2 x) (mark w tr "RUNNING" None).1 st err).2
       i ["RUNNING"; st] st err x.
Proof.
  intros <-. unfold ends, committed, marked, only_run_changed. cbn.
  split; [by rewrite <- app_assoc|]. split; [|split; [done|split; [done|]]].
  - eexists. split; [apply lookup_insert_eq|done].
  - intros j Hj. rewrite lookup_insert_ne by done. by rewrite lookup_insert_ne.
Qed.

Lemma mark_end (w : World Ext) tr st err i :
  id tr = i -> ends w (mark w tr st err).2 i [st] st err (ext w).
Proof.
  intros <-. unfold ends, committed, marked, only_run_changed. cbn.
  split; [done|]. split; [|split; [done|split; [done|]]].
  - eexists. split; [apply lookup_insert_eq|done].
  - intros j Hj. by rewrite lookup_insert_ne.
Qed.

(** [run_task] against the driving sequence, branch by branch. *)
Lemma run_task_driving (w : World Ext) (i : string) :
  wf w ->
  driving utcnow get_object manager w i (run_task w i).1 (run_task w i).2.
Proof.
  intros Hwf. unfold Worker.run_task.
  destruct (task_run w !! i) as [tr|] eqn:Htr; [|by constructor].
  assert (Hid : id tr = i) by by apply Hwf.
  destruct (file w !! file_id tr) as [f|] eqn:Hf.
  2:{ cbn [fst snd]. eapply driving_no_file; eauto. by apply mark_end. }
  change (mark w tr "RUNNING" None)
    with ((mark w tr "RUNNING" None).1, (mark w tr "RUNNING" None).2).
  cbv iota. unfold run_task_body.
  change (ext (mark w tr "RUNNING" None).2) with (ext w).
  unfold _get_source_bytes.
  destruct (S3util.split_s3_uri (storage_uri f)) as [[bucket key]|e] eqn:Hsplit.
  2:{ cbn [fst snd]. eapply driving_no_location; eauto.
      - by apply split_unlocated.
      - by apply (marks_end w tr (ext w)). }
  assert (Hloc : located f bucket key) by (by apply split_located).
  destruct (get_object (ext w) bucket key) as [data|e] eqn:Hget.
  2:{ cbn [fst snd]. eapply driving_fetch_failed; eauto.
      by apply (marks_end w tr (ext w)). }
  unfold Manager.run.
  change (name (mark w tr "RUNNING" None).1) with (name tr).
  destruct (Manager._handlers manager !! Manager.key_of (name tr)) as [h|] eqn:Hh.
  2:{ cbn [fst snd]. eapply driving_unknown_task; eauto.
      by apply (marks_end w tr (ext w)). }
  destruct (Manager.h_run h (mark w tr "RUNNING" None).1 f data (ext w)) as [[[]|e] x] eqn:Hrun;
    cbn [fst snd].
  - eapply driving_succeeded; eauto. by apply marks_end.
  - eapply driving_handler_failed; eauto. by apply marks_end.
Qed.


Lemma run_task_wf (w : World Ext) i : wf w -> wf (run_task w i).2.
Proof.
  intros Hwf. unfold Worker.run_task.
  destruct (task_run w !! i) as [tr|]; [|done].
  destruct (file w !! file_id tr) as [f|]; [|by apply mark_wf].
  destruct (mark w tr "RUNNING" None) as [tr1 w1] eqn:Hm1.
  assert (Hwf1 : wf w1).
  { replace w1 with (mark w tr "RUNNING" None).2 by by rewrite Hm1. by apply mark_wf. }
  unfold run_task_body.
  destruct (_get_source_bytes get_object f (ext w1)) as [data|e].
  - destruct (Manager.run manager tr1 f data (ext w1)) as [[[]|e] x]; cbn [fst snd].
    + by apply mark_wf.
    + by apply mark_wf.
  - cbn [fst snd]. by apply mark_wf.
Qed.

Lemma deliver_wf (w : World Ext) i : wf w -> wf (deliver w i).
Proof. apply run_task_wf. Qed.

Lemma deliver_all_wf ids : forall w : World Ext, wf w -> wf (deliver_all w ids).
Proof.
  induction ids as [|i ids IH]; intros w Hwf; [done|].
  cbn. apply IH. by apply deliver_wf.
Qed.

(** What one delivery leaves in the row of the run it drives. *)
Lemma driving_ends (w w' : World Ext) i r :
  driving utcnow get_object manager w i r w' ->
  is_Some (task_run w !! i) ->
  exists sts st err x, terminal st /\ ends w w' i sts st err x.
Proof.
  destruct 1; intros [tr0 Htr0]; [congruence|..];
    do 4 eexists; (split; [|eassumption]); unfold terminal; auto.
Qed.

Lemma driving_terminal (w w' : World Ext) i r :
  driving utcnow get_object manager w i r w' ->
  is_Some (task_run w !! i) ->
  exists tr', task_run w' !! i = Some tr' /\ terminal (status tr').
Proof.
  intros Hd Hsome.
  destruct (driving_ends _ _ _ _ Hd Hsome) as (sts & st & err & x & Hst & _ & Hm & _).
  destruct Hm as (tr' & Htr' & <- & _). eauto.
Qed.

Lemma driving_frame (w w' : World Ext) i r j :
  driving utcnow get_object manager w i r w' ->
  j <> i -> task_run w' !! j = task_run w !! j.
Proof.
  destruct 1; intros Hj; [done|..];
    match goal with H : ends _ _ _ _ _ _ _ |- _ => destruct H as (_ & _ & _ & _ & Hfr) end;
    auto.
Qed.

Lemma deliver_other (w : World Ext) i j :
  wf w -> j <> i -> task_run (deliver w j) !! i = task_run w !! i.
Proof.
  intros Hwf Hj. eapply driving_frame; [by apply run_task_driving|done].
Qed.

Lemma deliver_same (w : World Ext) i :
  wf w -> is_Some (task_run w !! i) ->
  exists st', status_of (deliver w i) i = Some st' /\ terminal st'.
Proof.
  intros Hwf Hsome.
  destruct (driving_terminal _ _ _ _ (run_task_driving w i Hwf) Hsome)
    as (tr' & Htr' & Hterm).
  exists (status tr'). split; [|done].
  unfold status_of, Worker.deliver. by rewrite Htr'.
Qed.

Lemma deliver_keeps_terminal (w : World Ext) i j st :
  wf w -> status_of w i = Some st -> terminal st ->
  exists st', status_of (deliver w j) i = Some st' /\ terminal st'.
Proof.
  intros Hwf Hst Hterm.
  destruct (decide (j = i)) as [->|Hne].
  - apply deliver_same; [done|].
    unfold status_of in Hst. destruct (task_run w !! i); [eauto|done].
  - exists st. split; [|done]. unfold status_of. by rewrite deliver_other.
Qed.



(** The row a delivery leaves for the run it drives: one terminal mark,
    applied to the run itself when the file record is missing and to the
    run marked RUNNING otherwise, one clock reading later. *)
Lemma deliver_row (w : World Ext) i tr :
  wf w -> task_run w !! i = Some tr ->
  (file w !! file_id tr = None /\
   task_run (deliver w i) !! i = Some (mark w tr "FAILED" (Some "file not found")).1)
  \/
  (is_Some (file w !! file_id tr) /\
   exists (w2 : World Ext) st err,
     ticks w2 = S (ticks w) /\
     ((st = "SUCCEEDED" /\ err = None) \/ (st = "FAILED" /\ is_Some err)) /\
     task_run (deliver w i) !! i = Some (mark w2 (mark w tr "RUNNING" None).1 st err).1).
Proof.
  intros Hwf Htr. assert (Hid : id tr = i) by by apply Hwf.
  unfold Worker.deliver, Worker.run_task. rewrite Htr.
  destruct (file w !! file_id tr) as [f|] eqn:Hf.
  - right. split; [eauto|].
    destruct (mark w tr "RUNNING" None) as [tr1 w1] eqn:Hm1.
    assert (Hw1 : ticks w1 = S (ticks w)).
    { replace w1 with (mark w tr "RUNNING" None).2 by by rewrite Hm1. done. }
    assert (Hid1 : id tr1 = i).
    { replace tr1 with (mark w tr "RUNNING" None).1 by by rewrite Hm1. done. }
    unfold run_task_body.
    destruct (_get_source_bytes get_object f (ext w1)) as [data|e].
    + destruct (Manager.run manager tr1 f data (ext w1)) as [[[]|e] x]; cbn [fst snd].
      * exists (set_ext w1 x), "SUCCEEDED", None. split; [done|]. split; [by left|].
        rewrite <- Hid1 at 1. apply mark_lookup.
      * exists (set_ext w1 x), "FAILED", (Some (str e)). split; [done|]. split; [right; eauto|].
        rewrite <- Hid1 at 1. apply mark_lookup.
    + cbn [fst snd]. exists w1, "FAILED", (Some (str e)). split; [done|]. split; [right; eauto|].
      rewrite <- Hid1 at 1. apply mark_lookup.
  - left. split; [done|]. cbn [fst snd]. rewrite <- Hid at 1. apply mark_lookup.
Qed.

Lemma mark_started_kept (w : World Ext) tr st err s :
  started_at tr = Some s -> started_at (mark w tr st err).1 = Some s.
Proof.
  intros Hs. cbn. rewrite Hs.
  rewrite bool_decide_eq_true_2 by eauto. by rewrite andb_false_r.
Qed.

Lemma deliver_started_kept (w : World Ext) i j tr s :
  wf w -> task_run w !! i = Some tr -> started_at tr = Some s ->
  exists tr', task_run (deliver w j) !! i = Some tr' /\ started_at tr' = Some s.
Proof.
  intros Hwf Htr Hs. destruct (decide (j = i)) as [->|Hne].
  - destruct (deliver_row w i tr Hwf Htr) as [[_ Hrow]|[_ (w2 & st & err & _ & _ & Hrow)]];
      eexists; (split; [exact Hrow|]); repeat apply mark_started_kept; done.
  - exists tr. split; [|done]. by rewrite deliver_other.
Qed.

Lemma deliver_all_started_kept ids : forall (w : World Ext) i tr s,
  wf w -> task_run w !! i = Some tr -> started_at tr = Some s ->
  exists tr', task_run (deliver_all w ids) !! i = Some tr' /\ started_at tr' = Some s.
Proof.
  induction ids as [|j ids IH]; intros w i tr s Hwf Htr Hs; [eauto|].
  destruct (deliver_started_kept w i j tr s Hwf Htr Hs) as (tr1 & Htr1 & Hs1).
  cbn. eapply IH; eauto. by apply deliver_wf.
Qed.


End WorkerFacts.

(* --------------------------------------------------------------------- *)
(** ** The worker on the concrete deployment *)
(* --------------------------------------------------------------------- *)

Lemma wf_world0 : Worker.wf Scenario.world0.
Proof.
  intros k tr H. cbn in H. apply lookup_singleton_Some in H as [<- <-]. reflexivity.
Qed.

Lemma scenario_clock_monotone : TriggerSpec.monotone_clock Scenario.utcnow.
Proof. intros m n Hmn. unfold Scenario.utcnow. lia. Qed.






(* --------------------------------------------------------------------- *)
(** ** The handler registry *)
(* --------------------------------------------------------------------- *)

Section RegistryFacts.

Context {Ext : Type} {B : Builtins}.
Import Manager.

Lemma init_keyed : keyed (@init Ext).
Proof. intros k h. cbn. by rewrite lookup_empty. Qed.

Lemma register_keyed (m m' : TaskManager Ext) h :
  keyed m -> register m h = Ok m' -> keyed m'.
Proof.
  unfold register. intros Hk.
  destruct (_handlers m !! key_of (h_name h)) eqn:Hl; [done|].
  intros [= <-] k h'. cbn.
  destruct (decide (k = key_of (h_name h))) as [->|Hne].
  - rewrite lookup_insert_eq. by intros [= <-].
  - rewrite lookup_insert_ne by done. apply Hk.
Qed.

Lemma registered_lookup (m : TaskManager Ext) h :
  keyed m -> registered m h -> _handlers m !! key_of (h_name h) = Some h.
Proof. intros Hk [k Hl]. by rewrite <- (Hk k h Hl). Qed.

(** C10, as amended.  Names are compared by their keys, the name with
    surrounding blanks stripped and then lowercased, [name.strip().lower()],
    whatever Python's two methods make of the name.  Registration raises
    exactly when a registered handler has the same key, and otherwise adds
    the handler and keeps the others; dispatch raises "unknown task" without
    touching anything when no registered handler has the key of the run's
    name, and otherwise is one invocation of that handler's [run], whose
    result and whose exception are returned as they are. *)
Theorem registry_compares_stripped_lowercased_names (m : TaskManager Ext) :
  keyed m ->
  (forall h, raises (register m h) <->
     exists h', registered m h' /\ key_of (h_name h') = key_of (h_name h)) /\
  (forall h m', register m h = Ok m' ->
     keyed m' /\ registered m' h /\ forall h', registered m h' -> registered m' h') /\
  (forall tr f data x,
     (~ exists h, registered m h /\ key_of (h_name h) = key_of (name tr)) ->
     run m tr f data x = (Raise (ValueError ("unknown task: " ++ key_of (name tr))), x)) /\
  (forall tr f data x h,
     registered m h -> key_of (h_name h) = key_of (name tr) ->
     run m tr f data x = h_run h tr f data x).
Proof.
  intros Hk. repeat split.
  - unfold register.
    destruct (_handlers m !! key_of (h_name h)) as [h'|] eqn:Hl; [|done].
    intros _. exists h'. split; [by exists (key_of (h_name h))|].
    symmetry. by apply Hk.
  - intros (h' & Hreg & Hkey). unfold register.
    rewrite <- Hkey, (registered_lookup m h' Hk Hreg). exact I.
  - by eapply register_keyed.
  - revert H. unfold register.
    destruct (_handlers m !! key_of (h_name h)) eqn:Hl; [done|].
    intros [= <-]. exists (key_of (h_name h)). cbn. apply lookup_insert_eq.
  - revert H. unfold register.
    destruct (_handlers m !! key_of (h_name h)) eqn:Hl; [done|].
    intros [= <-] h' [k Hl']. exists k. cbn.
    rewrite lookup_insert_ne; [done|]. congruence.
  - intros tr f data x Hnone. unfold run.
    destruct (_handlers m !! key_of (name tr)) as [h|] eqn:Hl; [|done].
    exfalso. apply Hnone. exists h. split; [by eexists|]. symmetry. by apply Hk.
  - intros tr f data x h Hreg Hkey. unfold run.
    by rewrite <- Hkey, (registered_lookup m h Hk Hreg).
Qed.

End RegistryFacts.

Lemma scenario_manager_keyed : Manager.keyed Scenario.manager.
Proof.
  intros k h H. cbn in H. apply lookup_singleton_Some in H as [<- <-]. reflexivity.
Qed.

Lemma registry_compares_stripped_lowercased_names_witness :
  Manager.keyed Scenario.manager /\
  forall tr f data x,
    name tr = " To_PDF " ->
    Manager.run Scenario.manager tr f data x = Scenario.flaky_run tr f data x.
Proof.
  split; [exact scenario_manager_keyed|].
  intros tr f data x Hname.
  apply (proj2 (proj2 (proj2 (registry_compares_stripped_lowercased_names
           Scenario.manager scenario_manager_keyed))) tr f data x Scenario.to_pdf).
  - exists "to_pdf". reflexivity.
  - rewrite Hname. reflexivity.
Defined.

(** C10 as stated fails: no registered handler has a name equal to
    [" to_pdf"] when case is ignored, and yet registering a handler of that
    name raises, and a run of that name is dispatched. *)
Lemma padded_name_collides :
  (forall h, Manager.registered Scenario.manager h ->
             lower (Manager.h_name h) <> lower " to_pdf") /\
  Manager.register Scenario.manager (Manager.mkHandler " to_pdf" Scenario.flaky_run)
    = Raise (ValueError "handler already registered: to_pdf") /\
  Manager.run Scenario.manager
    (mkTaskRun "r2" "f1" " to_pdf" "PENDING" None None None) Scenario.file1 [] 0%nat
    = (Ok tt, 1%nat).
Proof.
  split; [|split; reflexivity].
  intros h [k H]. cbn in H. apply lookup_singleton_Some in H as [<- <-]. discriminate.
Qed.

(* --------------------------------------------------------------------- *)
(** ** Source resolution *)
(* --------------------------------------------------------------------- *)

Section ResolutionFacts.

Context {Ext : Type}.
Variable get_object : Ext -> string -> string -> result bytes.
Variable cfg_bucket : string.

Lemma try_get_hit (g : string -> string -> result bytes) b k data :
  g b k = Ok data -> App._try_get_object_bytes g b k = Ok (Some data).
Proof. unfold App._try_get_object_bytes. by intros ->. Qed.

(** C4, as amended.  The task path fetches the location recorded on the
    file record and nothing else: a recorded location that cannot be split
    raises, any other outcome is the outcome of that single fetch; whenever
    this fetch yields the object, the fallback chain yields the same bytes. *)
Theorem task_path_reads_recorded_location_only (f : File) (x : Ext) :
  (forall bkt key, S3util.split_s3_uri (storage_uri f) = Ok (bkt, key) ->
     Worker._get_source_bytes get_object f x = get_object x bkt key) /\
  (forall e, S3util.split_s3_uri (storage_uri f) = Raise e ->
     Worker._get_source_bytes get_object f x = Raise e) /\
  (forall data, Worker._get_source_bytes get_object f x = Ok data ->
     App._resolve_source_bytes_or_404 (get_object x) cfg_bucket f = Ok data).
Proof.
  unfold Worker._get_source_bytes. repeat split.
  - by intros bkt key ->.
  - by intros e ->.
  - intros data. unfold App._resolve_source_bytes_or_404, App.resolve_step1.
    destruct (S3util.split_s3_uri (storage_uri f)) as [[bkt key]|e]; [|done].
    intros Hget. by rewrite (try_get_hit _ _ _ _ Hget).
Qed.

End ResolutionFacts.

Lemma task_path_reads_recorded_location_only_witness :
  Worker._get_source_bytes Scenario.get_object Scenario.file1 0%nat
    = Ok (Scenario.pdf_magic ++ [x2d; x31; x2e; x34])%list /\
  App._resolve_source_bytes_or_404 (Scenario.get_object 0%nat) Scenario.the_bucket
    Scenario.file1 = Ok (Scenario.pdf_magic ++ [x2d; x31; x2e; x34])%list.
Proof.
  split; [reflexivity|].
  apply (proj2 (proj2 (task_path_reads_recorded_location_only Scenario.get_object
           Scenario.the_bucket Scenario.file1 0%nat))).
  reflexivity.
Defined.

(** C4 as stated fails: with a stale recorded location and the object under
    the canonical key, the task path raises where the fallback chain returns
    the bytes. *)
Lemma task_path_misses_canonical_key :
  @Worker._get_source_bytes unit (fun _ => Stale.canonical_store) Stale.file1 tt
    = Raise (ClientError "NoSuchKey"
        "An error occurred (NoSuchKey) when calling the GetObject operation") /\
  App._resolve_source_bytes_or_404 Stale.canonical_store "llmops-bucket" Stale.file1
    = Ok Stale.content.
Proof. split; reflexivity. Qed.

Section ChainFacts.

Variable get_object : string -> string -> result bytes.
Variable cfg_bucket : string.

Lemma try_get_soft b k :
  Fetch.hit_or_miss (get_object b k) ->
  App._try_get_object_bytes get_object b k
  = match get_object b k with Ok data => Ok (Some data) | Raise _ => Ok None end.
Proof.
  unfold App._try_get_object_bytes, Fetch.hit_or_miss.
  destruct (get_object b k) as [data|[]]; try done. by intros ->.
Qed.

(** Where the canonical and the legacy key are found or reported missing,
    the chain does what §4.7 says, whatever the recorded location does. *)
Lemma resolve_refines_spec (f : File) :
  Fetch.hit_or_miss (get_object cfg_bucket (App.new_key f)) ->
  Fetch.hit_or_miss (get_object cfg_bucket (App.old_key f)) ->
  App._resolve_source_bytes_or_404 get_object cfg_bucket f
  = App.resolve_spec get_object cfg_bucket f.
Proof.
  intros H2 H3.
  unfold App._resolve_source_bytes_or_404, App.resolve_spec, App.candidates,
    App.resolve_step1.
  rewrite (try_get_soft _ _ H2), (try_get_soft _ _ H3).
  destruct (S3util.split_s3_uri (storage_uri f)) as [[bkt key]|e]; cbn.
  - unfold App._try_get_object_bytes.
    destruct (get_object bkt key) as [d1|e1]; [done|].
    destruct e1 as [| | | |code msg| |]; try (destruct (App.missing_code code));
      destruct (get_object cfg_bucket (App.new_key f)); try done;
      destruct (get_object cfg_bucket (App.old_key f)); done.
  - destruct (get_object cfg_bucket (App.new_key f)); [done|].
    destruct (get_object cfg_bucket (App.old_key f)); done.
Qed.

End ChainFacts.

(** C5 fails on the code: the recorded location is missing, the canonical
    key answers with an error that is not a missing object, and the legacy
    key holds the bytes.  The chain of §4.7 goes on to the legacy key; the
    code raises the canonical key's error. *)
Theorem hard_failure_on_canonical_key_aborts :
  App._resolve_source_bytes_or_404 Stale.denied_store "llmops-bucket" Stale.file1
    = Raise (ClientError "AccessDenied"
        "An error occurred (AccessDenied) when calling the GetObject operation") /\
  App.resolve_spec Stale.denied_store "llmops-bucket" Stale.file1 = Ok Stale.content.
Proof. split; reflexivity. Qed.

(* --------------------------------------------------------------------- *)
(** ** Type detection *)
(* --------------------------------------------------------------------- *)

Section DetectFacts.

Import Loader.
Variable E : Env.

(** [_detect_type] returns on every input and leaves the file system as
    it is. *)
Lemma detect_type_returns (doc : DocInput) (fs : FS E) :
  exists v, _detect_type E doc fs = (Ok v, fs).
Proof.
  unfold _detect_type. destruct doc as [p|data].
  - destruct (identify_path E fs p); eauto.
  - destruct (identify_bytes E data); eauto.
Qed.

Lemma bytes_eqb_eq (a b : bytes) : bytes_eqb a b = true <-> a = b.
Proof.
  revert b. induction a as [|x a IH]; intros [|y b]; cbn; try done.
  rewrite andb_true_iff, IH. split.
  - intros [Hxy ->]. by rewrite (Byte.byte_dec_bl _ _ Hxy).
  - intros [= -> ->]. split; [|done]. by apply Byte.byte_dec_lb.
Qed.

(** [data[:12] == b"RIFF"] forces [data] to be these four bytes, and then
    [data[8:12]] is empty. *)
Lemma webp_test_fails (data : bytes) :
  bytes_eqb (take 12 data) magic_riff && bytes_eqb (drop 8 (take 12 data)) magic_webp
  = false.
Proof.
  destruct (bytes_eqb (take 12 data) magic_riff) eqn:H1; [|done].
  apply bytes_eqb_eq in H1. rewrite H1. reflexivity.
Qed.

(** The sniff never answers [image/webp]. *)
Lemma sniff_never_webp (data : bytes) : sniff data <> "image/webp".
Proof.
  unfold sniff. rewrite webp_test_fails.
  repeat match goal with |- context [if ?b then _ else _] => destruct b end; discriminate.
Qed.

(** With the classifier failing, the label of a bytes input is one of the
    six the sniff can give, with source [sniff]. *)
Lemma detect_type_sniffs (data : bytes) (fs : FS E) e :
  identify_bytes E data = Raise e ->
  _detect_type E (Bytes data) fs = (Ok (sniff data, None, "sniff"), fs).
Proof. unfold _detect_type. by intros ->. Qed.

End DetectFacts.

(** C6 fails on the code: with the content classifier failing, a buffer
    that starts with a WEBP header is labelled [application/octet-stream],
    not [image/webp]. *)
Theorem webp_header_sniffed_as_octet_stream :
  Loader.webp_header Plain.webp_sample /\
  Loader._detect_type (Plain.env []) (Loader.Bytes Plain.webp_sample) tt
  = (Ok ("application/octet-stream", None, "sniff"), tt).
Proof. split; [split|]; reflexivity. Qed.

(* --------------------------------------------------------------------- *)
(** ** Direct PDF route *)
(* --------------------------------------------------------------------- *)

Section PassThroughFacts.

Import Loader ConvertSpec.
Variable E : Env.

(** C7. When the return mode is PDF and the input is classified into the
    PDF family, [load] returns the input bytes as they are: the buffer
    itself for a bytes input, the contents of the file for a path. *)
Theorem pdf_input_passes_through (doc : DocInput) (options : LoadOptions) (fs : FS E) :
  return_mode options = "PDF_BYTES" ->
  pdf_family E fs doc ->
  match doc with
  | Bytes data => fst (load E doc (Some options) fs) = Ok (RPdf data)
  | Path p =>
      fst (load E doc (Some options) fs)
      = match read_file E (snd (mkdtemp E fs)) (abspath E p) with
        | Ok data => Ok (RPdf data)
        | Raise e => Raise e
        end
  end.
Proof.
  intros Hmode Hpdf. unfold pdf_family in Hpdf.
  unfold load, bindM. cbn [default].
  destruct (detect_type_returns E doc fs) as [[[lm path] src] Hdet].
  rewrite Hdet in *. cbn [fst] in Hpdf.
  unfold with_tempdir. destruct (mkdtemp E fs) as [work fs1] eqn:Hwork.
  destruct doc as [p|data]; unfold ret at 1; unfold Datatypes.id; rewrite Hmode;
    change ("PDF_BYTES" =? "PDF_BYTES") with true; cbv iota.
  - unfold direct_pdf, is_pdf. rewrite Hpdf. unfold bindM, ret. cbn [snd].
    destruct (read_file E fs1 (abspath E p)); reflexivity.
  - assert (Hpath : path = None).
    { revert Hdet. unfold _detect_type.
      destruct (identify_bytes E data); by intros [= _ <- _]. }
    subst path. cbn [truthy] in *.
    unfold direct_pdf, is_pdf.
    apply orb_true_iff in Hpdf as [Hpdf|Hpdf]; [|done].
    rewrite Hpdf. reflexivity.
Qed.

End PassThroughFacts.

Lemma pdf_input_passes_through_witness :
  Loader.return_mode (Plain.options "PDF_BYTES") = "PDF_BYTES" /\
  ConvertSpec.pdf_family (Plain.env []) tt (Loader.Bytes Plain.pdf_sample) /\
  fst (Loader.load (Plain.env []) (Loader.Bytes Plain.pdf_sample)
         (Some (Plain.options "PDF_BYTES")) tt) = Ok (Loader.RPdf Plain.pdf_sample).
Proof.
  split; [reflexivity|]. split; [reflexivity|].
  apply (pdf_input_passes_through (Plain.env []) (Loader.Bytes Plain.pdf_sample)
           (Plain.options "PDF_BYTES") tt); reflexivity.
Defined.

(* --------------------------------------------------------------------- *)
(** ** Output assembly *)
(* --------------------------------------------------------------------- *)

Section AssemblerFacts.

Import Loader ConvertSpec.
Variable E : Env.

Lemma map_result_Forall2 {A B} (f : A -> result B) (l : list A) (bs : list B) :
  map_result f l = Ok bs -> Forall2 (fun a b => f a = Ok b) l bs.
Proof.
  revert bs. induction l as [|a l IH]; intros bs; cbn.
  - intros [= <-]. constructor.
  - destruct (f a) as [b|e] eqn:Hfa; [|done].
    destruct (map_result f l) as [bs'|e]; [|done].
    intros [= <-]. constructor; [done|]. by apply IH.
Qed.

Lemma map_result_returns {A B} (f : A -> result B) (l : list A) :
  Forall (fun a => returns (f a)) l -> exists bs, map_result f l = Ok bs.
Proof.
  induction 1 as [|a l Ha _ [bs IH]]; cbn; [eauto|].
  destruct (f a); [|done]. rewrite IH. eauto.
Qed.

(** The paths [save_pages] returns, and the directory it made. *)
Lemma save_loop_paths (out_dir : string) (options : LoadOptions)
    (l : list (nat * Image E)) (fs fs' : FS E) (ps : list string) :
  mapM E (fun '(i, im) =>
            bindM E (fun fs0 => save_as E fs0 (to_save E (image_format options) im)
                                  (page_path out_dir options i)
                                  (upper (image_format options)))
                    (fun _ => ret E (page_path out_dir options i))) l fs
  = (Ok ps, fs') ->
  Forall2 (fun '(i, _) p => p = page_path out_dir options i) l ps.
Proof.
  revert fs fs' ps. induction l as [|[i im] l IH]; intros fs fs' ps; cbn.
  - intros [= <- _]. constructor.
  - unfold bindM at 1 2. 
    destruct (save_as E fs _ _ _) as [[[]|e] fs1]. 2: done.
    unfold ret at 1. unfold bindM at 1.
    destruct (mapM E _ l fs1) as [[ps'|e] fs2] eqn:Hrest; [|done].
    unfold ret. intros [= <- _]. constructor; [done|]. by eapply IH.
Qed.

Lemma save_pages_paths (images : list (Image E)) (options : LoadOptions)
    (fs fs' : FS E) (ps : list string) :
  save_pages E images options fs = (Ok ps, fs') ->
  Forall2 (fun '(i, _) p => p = page_path (out_dir_of E fs options) options i)
          (enumerate 1 images) ps.
Proof. unfold save_pages. apply save_loop_paths. Qed.

Lemma Forall2_nil_enumerate (images : list (Image E)) (P : nat * Image E -> string -> Prop) :
  Forall2 P (enumerate 1 images) [] -> images = [].
Proof. destruct images; [done|]. cbn. inversion 1. Qed.

(** The return-mode part, given what the save step left in [saved_paths]. *)
Lemma assemble_one_per_page (images : list (Image E)) (saved_paths : list string)
    (options : LoadOptions) (fs0 fs fs' : FS E) (r : LoadResult E) :
  Forall2 (fun '(i, _) p => p = page_path (out_dir_of E fs0 options) options i)
          (enumerate 1 images) saved_paths \/
  (saved_paths = [] /\ fs = fs0) ->
  assemble E images saved_paths options fs = (Ok r, fs') ->
  one_per_page E fs0 images options r.
Proof.
  intros Hsaved. unfold assemble, one_per_page.
  destruct (return_mode options =? "PIL"); [by intros [= <- _]|].
  destruct (return_mode options =? "BYTES").
  { unfold bindM, lift, ret.
    destruct (_images_to_bytes E images (image_format options)) as [bs|e] eqn:Hb; [|done].
    intros [= <- _]. by apply map_result_Forall2. }
  destruct (return_mode options =? "PATHS").
  { destruct saved_paths as [|p ps].
    - unfold bindM, ret.
      destruct (save_pages E images options fs) as [[ps|e] fs1] eqn:Hs; [|done].
      intros [= <- _].
      destruct Hsaved as [Hemp|[_ ->]].
      + apply Forall2_nil_enumerate in Hemp. subst images.
        revert Hs. unfold save_pages. cbn. intros [= <- _]. constructor.
      + by eapply save_pages_paths.
    - unfold ret. intros [= <- _]. by destruct Hsaved as [?|[? _]]. }
  destruct (return_mode options =? "ZIP_BYTES").
  { unfold bindM, lift, ret.
    destruct (_images_to_zip_bytes E images _ _ _) as [ms|e] eqn:Hz; [|done].
    intros [= <- _]. apply map_result_Forall2 in Hz.
    eapply Forall2_impl; [exact Hz|].
    intros [i im] [entry data]. cbn.
    destruct (encode E _ _); [|done]. by intros [= <- <-]. }
  destruct (return_mode options =? "PDF_BYTES"); [|done].
  unfold bindM, lift, ret, _images_to_pdf_bytes.
  destruct (map_result (pdf_page_of E (dpi options)) images) as [pages|e] eqn:Hp; [|done].
  destruct (pdf_tobytes E pages) as [b|e] eqn:Hb; [|done].
  intros [= <- _]. exists pages. split; [by apply map_result_Forall2|done].
Qed.

Lemma finish_one_per_page (images : list (Image E)) (options : LoadOptions)
    (fs fs' : FS E) (r : LoadResult E) :
  finish E images options fs = (Ok r, fs') -> one_per_page E fs images options r.
Proof.
  unfold finish, bindM.
  destruct (save options).
  - destruct (save_pages E images options fs) as [[saved|e] fs1] eqn:Hs; [|done].
    apply assemble_one_per_page. left. by eapply save_pages_paths.
  - unfold ret at 1. apply assemble_one_per_page. by right.
Qed.

(** C9, as amended.  Whenever the assembler returns, its result holds one
    element per page, in page order, in every return mode.  It returns
    whenever the encoder does: the page list itself always, the encoded
    blocks when every page encodes.  An empty page sequence is not an
    error: the list, the byte blocks, the paths and the archive come back
    empty. *)
Theorem assembler_keeps_pages_and_accepts_none (images : list (Image E))
    (options : LoadOptions) (fs : FS E) :
  (forall r fs', finish E images options fs = (Ok r, fs') ->
     one_per_page E fs images options r) /\
  (save options = false -> return_mode options = "PIL" ->
     finish E images options fs = (Ok (RImages images), fs)) /\
  (save options = false -> return_mode options = "BYTES" ->
     Forall (fun im => returns (encode E (to_save E (image_format options) im)
                                  (upper (image_format options)))) images ->
     exists blocks, finish E images options fs = (Ok (RBytes blocks), fs)) /\
  (save options = false -> return_mode options = "PIL" ->
     finish E [] options fs = (Ok (RImages []), fs)) /\
  (save options = false -> return_mode options = "BYTES" ->
     finish E [] options fs = (Ok (RBytes []), fs)) /\
  (save options = false -> return_mode options = "PATHS" ->
     finish E [] options fs
     = (Ok (RPaths []), makedirs E fs (out_dir_of E fs options))) /\
  (save options = false -> return_mode options = "ZIP_BYTES" ->
     finish E [] options fs = (Ok (RZip []), fs)).
Proof.
  split; [intros r fs'; apply finish_one_per_page|].
  unfold finish, assemble, bindM, ret, lift.
  repeat split; intros -> ->; cbn; try reflexivity.
  intros Hall. apply map_result_returns in Hall as [bs Hbs].
  exists bs. unfold _images_to_bytes. by rewrite Hbs.
Qed.

End AssemblerFacts.

Lemma assembler_keeps_pages_and_accepts_none_witness :
  Loader.finish (Plain.env []) [(1654, 2339); (1654, 2339)]%Z (Plain.options "ZIP_BYTES") tt
  = (Ok (Loader.RZip [("page_0001.png", [x89; x50; x4e; x47; x0d; x0a]);
                      ("page_0002.png", [x89; x50; x4e; x47; x0d; x0a])]), tt) /\
  ConvertSpec.one_per_page (Plain.env []) tt [(1654, 2339); (1654, 2339)]%Z
    (Plain.options "ZIP_BYTES")
    (Loader.RZip [("page_0001.png", [x89; x50; x4e; x47; x0d; x0a]);
                  ("page_0002.png", [x89; x50; x4e; x47; x0d; x0a])]).
Proof.
  split; [reflexivity|].
  apply (proj1 (assembler_keeps_pages_and_accepts_none (Plain.env [])
           [(1654, 2339); (1654, 2339)]%Z (Plain.options "ZIP_BYTES") tt) _ tt).
  reflexivity.
Defined.

(** C9 as stated fails: a document without pages is converted to an empty
    list of byte blocks and to an archive without members, and no error is
    raised. *)
Lemma no_pages_is_not_an_error :
  Loader.load (Plain.env []) (Loader.Bytes Plain.pdf_sample)
    (Some (Plain.options "BYTES")) tt = (Ok (Loader.RBytes []), tt) /\
  Loader.load (Plain.env []) (Loader.Bytes Plain.pdf_sample)
    (Some (Plain.options "ZIP_BYTES")) tt = (Ok (Loader.RZip []), tt) /\
  Loader.finish (Plain.env []) [] (Plain.options "BYTES") tt = (Ok (Loader.RBytes []), tt).
Proof. repeat split. Qed.

(* --------------------------------------------------------------------- *)
(** ** Max-side downscaling *)
(* --------------------------------------------------------------------- *)

(** On every sample the model and the primitive floats agree. *)
Example float_model_agrees_with_primitive_floats :
  forallb (fun '(w, h, s) => CrossCheck.agrees w h s) CrossCheck.samples = true.
Proof. vm_compute. reflexivity. Qed.

Local Open Scope Z_scope.

Module Float64Facts.
Section FloatFacts.

Import Float64.

(** Rounding to the nearest integer errs by at most one half. *)
Lemma rne_error (n d : Z) : 0 < d -> - d <= 2 * rne n d * d - 2 * n <= d.
Proof.
  intros Hd. unfold rne.
  pose proof (Z.div_mod n d ltac:(lia)) as Hdm.
  pose proof (Z.mod_pos_bound n d Hd) as Hr.
  set (q := n / d) in *. set (r := n mod d) in *.
  destruct (Z.ltb_spec (2 * r) d); [nia|].
  destruct (Z.ltb_spec d (2 * r)); [nia|].
  destruct (Z.even q); nia.
Qed.

(** Rounding a positive rational below [2^52]: the exponent is negative,
    the scaled quotient is at least [2^52], and the mantissa is within one
    half of it. *)
Lemma round53_small (n d : Z) :
  0 < n -> 0 < d -> n < 2 ^ 52 * d ->
  exists M E, round53 n d = mkF M (- E) /\ 0 < E /\
              2 ^ 52 * d <= n * 2 ^ E /\
              - d <= 2 * M * d - 2 * (n * 2 ^ E) <= d.
Proof.
  intros Hn Hd Hlt. unfold round53.
  destruct (Z.eqb_spec n 0) as [|_]; [lia|].
  rewrite (Z.abs_eq n) by lia.
  pose proof (Z.log2_spec n Hn) as [Ha1 Ha2].
  pose proof (Z.log2_spec d Hd) as [Hb1 Hb2].
  pose proof (Z.log2_nonneg n) as Ha0. pose proof (Z.log2_nonneg d) as Hb0.
  set (a := Z.log2 n) in *. set (b := Z.log2 d) in *.
  rewrite Z.pow_succ_r in Ha2, Hb2 by lia.
  assert (Hab : a < b + 53).
  { destruct (Z.le_gt_cases (b + 53) a) as [Hge|]; [|lia].
    assert (2 ^ (b + 53) <= 2 ^ a) by (apply Z.pow_le_mono_r; lia).
    rewrite Z.pow_add_r in H by lia. change (2 ^ 53) with (2 * 2 ^ 52) in H. nia. }
  destruct (Z.leb_spec 0 (a - b - 53)) as [|_]; [lia|].
  replace (- (a - b - 53)) with (b + 53 - a) by lia.
  assert (HP : 2 ^ a * 2 ^ (b + 53 - a) = 2 ^ 53 * 2 ^ b).
  { rewrite <- !Z.pow_add_r by lia. f_equal. lia. }
  assert (HPpos : 0 < 2 ^ (b + 53 - a)) by (apply Z.pow_pos_nonneg; lia).
  assert (Hapos : 0 < 2 ^ a) by (apply Z.pow_pos_nonneg; lia).
  assert (Hbpos : 0 < 2 ^ b) by (apply Z.pow_pos_nonneg; lia).
  set (P := 2 ^ (b + 53 - a)) in *.
  change (2 ^ 53) with 9007199254740992 in *. change (2 ^ 52) with 4503599627370496 in *.
  destruct (Z.leb_spec (9007199254740992 * d) (n * P)) as [Hbig|Hsmall].
  - (* the estimate was one too low *)
    assert (Hge2 : 2 <= b + 53 - a).
    { destruct (Z.eq_dec (b + 53 - a) 1) as [H1|]; [|lia].
      unfold P in Hbig. rewrite H1 in Hbig. change (2 ^ 1) with 2 in Hbig. lia. }
    exists (rne_scaled n d (a - b - 53 + 1)), (b + 53 - a - 1).
    split; [f_equal; lia|]. split; [lia|].
    assert (HPE : P = 2 * 2 ^ (b + 53 - a - 1)).
    { unfold P. rewrite <- Z.pow_succ_r by lia. f_equal. lia. }
    set (Q := 2 ^ (b + 53 - a - 1)) in *.
    split; [nia|].
    unfold rne_scaled.
    destruct (Z.leb_spec 0 (a - b - 53 + 1)) as [|_]; [lia|].
    replace (- (a - b - 53 + 1)) with (b + 53 - a - 1) by lia. fold Q.
    apply rne_error. lia.
  - exists (rne_scaled n d (a - b - 53)), (b + 53 - a).
    split; [f_equal; lia|]. split; [lia|]. fold P.
    split; [nia|].
    unfold rne_scaled.
    destruct (Z.leb_spec 0 (a - b - 53)) as [|_]; [lia|].
    replace (- (a - b - 53)) with (b + 53 - a) by lia. fold P.
    apply rne_error. lia.
Qed.


(** [float(z)] is exact below [2^52]. *)
Lemma of_int_small (z : Z) :
  0 < z < 2 ^ 52 -> exists E, of_int z = mkF (z * 2 ^ E) (- E) /\ 0 < E.
Proof.
  intros Hz. unfold of_int.
  destruct (round53_small z 1) as (M & E & Heq & HE & _ & Herr); [lia..|].
  exists E. split; [|done]. rewrite Heq. f_equal. lia.
Qed.

(** [r = s / float(m)] for [0 < s < m]: a mantissa over a power of two,
    within half a unit of the scaled quotient. *)
Lemma ratio_small (s m : Z) :
  0 < s < m -> m < 2 ^ 52 ->
  exists M E, fdiv (of_int s) (of_int m) = Ok (mkF M (- E)) /\ 0 < E /\
              2 ^ 52 * m <= s * 2 ^ E /\
              - m <= 2 * M * m - 2 * (s * 2 ^ E) <= m.
Proof.
  intros Hs Hm.
  destruct (of_int_small s) as (Es & -> & HEs); [lia|].
  destruct (of_int_small m) as (Em & -> & HEm); [lia|].
  unfold fdiv. cbn [mant expo].
  assert (Hps : 0 < 2 ^ Es) by (apply Z.pow_pos_nonneg; lia).
  assert (Hpm : 0 < 2 ^ Em) by (apply Z.pow_pos_nonneg; lia).
  destruct (Z.eqb_spec (m * 2 ^ Em) 0) as [|_]; [nia|].
  rewrite Z.sgn_pos, Z.abs_eq by nia.
  set (K := Z.max Es Em).
  assert (HK : 0 < 2 ^ K) by (apply Z.pow_pos_nonneg; lia).
  assert (Hn : 1 * (s * 2 ^ Es) * 2 ^ Z.max (- Es - - Em) 0 = s * 2 ^ K).
  { rewrite Z.mul_1_l, <- Z.mul_assoc, <- Z.pow_add_r by lia. do 2 f_equal. lia. }
  assert (Hd : m * 2 ^ Em * 2 ^ Z.max (- (- Es - - Em)) 0 = m * 2 ^ K).
  { rewrite <- Z.mul_assoc, <- Z.pow_add_r by lia. do 2 f_equal. lia. }
  rewrite Hn, Hd.
  destruct (round53_small (s * 2 ^ K) (m * 2 ^ K)) as (M & E & -> & HE & Hlow & Herr);
    [nia | nia | nia |].
  exists M, E. split; [done|]. split; [done|].
  assert (HpE : 0 < 2 ^ E) by (apply Z.pow_pos_nonneg; lia).
  set (A := 2 ^ E) in *. set (k := 2 ^ K) in *.
  split; nia.
Qed.

(** [w * r] for a ratio [r] of at most one. *)
Lemma product_small (w M E : Z) :
  0 < w < 2 ^ 52 -> 0 < E -> 0 < M <= 2 ^ E ->
  exists M2 E2, fmul (of_int w) (mkF M (- E)) = mkF M2 (- E2) /\ 0 < E2 /\
                2 ^ 52 * 2 ^ E <= w * M * 2 ^ E2 /\
                - 2 ^ E <= 2 * M2 * 2 ^ E - 2 * (w * M * 2 ^ E2) <= 2 ^ E.
Proof.
  intros Hw HE HM.
  destruct (of_int_small w) as (Ew & -> & HEw); [lia|].
  unfold fmul. cbn [mant expo].
  rewrite Z.max_r, Z.max_l by lia. change (2 ^ 0) with 1. rewrite Z.mul_1_r.
  replace (- (- Ew + - E)) with (Ew + E) by lia. rewrite Z.pow_add_r by lia.
  assert (Hpw : 0 < 2 ^ Ew) by (apply Z.pow_pos_nonneg; lia).
  assert (HpE : 0 < 2 ^ E) by (apply Z.pow_pos_nonneg; lia).
  set (A := 2 ^ E) in *. set (k := 2 ^ Ew) in *.
  change (2 ^ 52) with 4503599627370496 in *.
  assert (HwM : w * M < 4503599627370496 * A) by nia.
  assert (Hlt : w * k * M < 4503599627370496 * (k * A)).
  { replace (w * k * M) with (k * (w * M)) by ring.
    replace (4503599627370496 * (k * A)) with (k * (4503599627370496 * A)) by ring.
    by apply Z.mul_lt_mono_pos_l. }
  destruct (round53_small (w * k * M) (k * A)) as (M2 & E2 & -> & HE2 & Hlow & Herr);
    [nia | nia | exact Hlt |].
  exists M2, E2. split; [done|]. split; [done|].
  assert (HpE2 : 0 < 2 ^ E2) by (apply Z.pow_pos_nonneg; lia).
  set (B := 2 ^ E2) in *.
  split; nia.
Qed.

Lemma trunc_small (M E : Z) : 0 <= M -> 0 < E -> trunc (mkF M (- E)) = M / 2 ^ E.
Proof.
  intros HM HE. unfold trunc. cbn [mant expo].
  destruct (Z.leb_spec 0 (- E)) as [|_]; [lia|].
  rewrite Z.opp_involutive. apply Z.quot_div_nonneg; [done|].
  apply Z.pow_pos_nonneg; lia.
Qed.


(** One dimension of the resized image, [int(w * r)] with
    [r = s / float(m)]: the exact quotient [w * s / m] rounded down, or one
    less than that when [m] divides [w * s]. *)
Lemma scaled_dim (w s m : Z) :
  0 < s < m -> m < 2 ^ 26 -> 0 < w <= m ->
  exists r, fdiv (of_int s) (of_int m) = Ok r /\
    w * s / m - 1 <= trunc (fmul (of_int w) r) <= w * s / m /\
    (trunc (fmul (of_int w) r) = w * s / m - 1 -> (w * s) mod m = 0).
Proof.
  intros Hs Hm Hw.
  change (2 ^ 26) with 67108864 in Hm.
  destruct (ratio_small s m) as (M & E & Hr & HE & HD & HC);
    [lia | change (2 ^ 52) with 4503599627370496; lia |].
  assert (HpE : 0 < 2 ^ E) by (apply Z.pow_pos_nonneg; lia).
  set (A := 2 ^ E) in *.
  change (2 ^ 52) with 4503599627370496 in *.
  assert (HM : 0 < M <= A) by nia.
  destruct (product_small w M E) as (M2 & E2 & Hp & HE2 & HB & HA);
    [change (2 ^ 52) with 4503599627370496; lia | lia | fold A; lia |].
  fold A in HB, HA.
  assert (HpE2 : 0 < 2 ^ E2) by (apply Z.pow_pos_nonneg; lia).
  set (B := 2 ^ E2) in *.
  change (2 ^ 52) with 4503599627370496 in *.
  exists (mkF M (- E)). split; [done|]. rewrite Hp.
  assert (HM2 : 0 <= M2) by nia.
  rewrite trunc_small by done. fold B.
  (* the product is within [1 / m] of the exact quotient *)
  assert (Hws : w * s < 4503599627370496) by (clear - Hs Hm Hw; nia).
  assert (HwmA : w * m < A).
  { clear - HD Hws Hs Hw HpE.
    destruct (Z.le_gt_cases A (w * m)) as [Hle|]; [|done].
    assert (s * A <= s * (w * m)) by (apply Z.mul_le_mono_nonneg_l; lia).
    assert (s * (w * m) = w * s * m) by ring.
    assert (w * s * m < 4503599627370496 * m) by (apply Z.mul_lt_mono_pos_r; lia).
    lia. }
  assert (HmB : m < B).
  { clear - HB HM Hw Hm HpE HpE2.
    assert (w * M * B <= w * B * A).
    { replace (w * M * B) with (w * B * M) by ring.
      apply Z.mul_le_mono_nonneg_l; [|lia]. apply Z.mul_nonneg_nonneg; lia. }
    assert (H52 : 4503599627370496 <= w * B).
    { apply (Z.mul_le_mono_pos_r _ _ A); lia. }
    destruct (Z.le_gt_cases B m) as [Hle|]; [|done].
    assert (w * B <= 67108863 * 67108863) by (apply Z.mul_le_mono_nonneg; lia).
    lia. }
  assert (H1 : - (A * m) <= 2 * M2 * A * m - 2 * w * M * B * m <= A * m).
  { clear - HA Hs. 
    replace (2 * M2 * A * m - 2 * w * M * B * m)
      with ((2 * M2 * A - 2 * (w * M * B)) * m) by ring.
    split; [rewrite <- Z.mul_opp_l|]; apply Z.mul_le_mono_nonneg_r; lia. }
  assert (H2 : - (w * B * m) <= 2 * w * M * B * m - 2 * w * s * A * B <= w * B * m).
  { clear - HC Hw HpE2.
    replace (2 * w * M * B * m - 2 * w * s * A * B)
      with ((w * B) * (2 * M * m - 2 * (s * A))) by ring.
    replace (w * B * m) with ((w * B) * m) by ring.
    assert (0 <= w * B) by (apply Z.mul_nonneg_nonneg; lia).
    split; [rewrite <- Z.mul_opp_r|]; apply Z.mul_le_mono_nonneg_l; lia. }
  assert (H3 : A * m + w * B * m < 2 * A * B).
  { clear - HmB HwmA HpE HpE2.
    assert (A * m < A * B) by (apply Z.mul_lt_mono_pos_l; lia).
    assert (w * m * B < A * B) by (apply Z.mul_lt_mono_pos_r; lia).
    replace (w * B * m) with (w * m * B) by ring. lia. }
  assert (Hclose : - B < M2 * m - w * s * B < B).
  { clear - H1 H2 H3 HpE.
    assert (Hsum : - (2 * A * B) < 2 * A * (M2 * m - w * s * B) < 2 * A * B).
    { replace (2 * A * (M2 * m - w * s * B))
        with ((2 * M2 * A * m - 2 * w * M * B * m)
              + (2 * w * M * B * m - 2 * w * s * A * B)) by ring.
      lia. }
    replace (- (2 * A * B)) with (2 * A * (- B)) in Hsum by ring.
    replace (2 * A * B) with (2 * A * B) in Hsum by ring.
    split; apply (Z.mul_lt_mono_pos_l (2 * A)); lia. }
  clear H1 H2 H3 HA HB HC HD HwmA.
  pose proof (Z.div_mod (w * s) m ltac:(lia)) as Hdm.
  pose proof (Z.mod_pos_bound (w * s) m ltac:(lia)) as Hrho.
  set (q := w * s / m) in *. set (rho := (w * s) mod m) in *.
  assert (Hup : M2 / B <= q).
  { apply Z.lt_succ_r. apply Z.div_lt_upper_bound; [lia|]. nia. }
  assert (Hlo : q - 1 <= M2 / B).
  { apply Z.div_le_lower_bound; [lia|]. nia. }
  split; [lia|].
  intros Heq. destruct (Z.eq_dec rho 0) as [|Hne]; [done|]. exfalso.
  assert (q <= M2 / B); [|lia].
  apply Z.div_le_lower_bound; [lia|]. nia.
Qed.


Lemma rne_floor (n d : Z) :
  0 < d ->
  (rne n d = n / d \/ rne n d = n / d + 1) /\ (n mod d = 0 -> rne n d = n / d).
Proof.
  intros Hd. unfold rne.
  destruct (Z.ltb_spec (2 * (n mod d)) d); [auto|].
  split; [|lia].
  destruct (Z.ltb_spec d (2 * (n mod d))); [auto|].
  destruct (Z.even (n / d)); auto.
Qed.

(** Both dimensions at once, for an image larger than [s]. *)
Lemma scaled_size_bounds (w h s : Z) :
  0 < w < 2 ^ 26 -> 0 < h < 2 ^ 26 -> 0 < s < Z.max w h ->
  exists w' h',
    Loader.image_new_size w h (Some s) = Ok (Some (w', h')) /\
    Z.max w' h' <= s /\
    (w * s / Z.max w h - 1 <= w' <= w * s / Z.max w h) /\
    (w' = w * s / Z.max w h - 1 -> (w * s) mod Z.max w h = 0) /\
    (h * s / Z.max w h - 1 <= h' <= h * s / Z.max w h) /\
    (h' = h * s / Z.max w h - 1 -> (h * s) mod Z.max w h = 0).
Proof.
  intros Hw Hh Hs. unfold Loader.image_new_size.
  set (m := Z.max w h) in *.
  assert (Hm : m < 2 ^ 26) by (unfold m; lia).
  destruct (Z.ltb_spec s m) as [_|]; [|lia].
  destruct (scaled_dim w s m) as (r & Hr & Hbw & Hzw); [lia | lia | unfold m; lia |].
  destruct (scaled_dim h s m) as (r' & Hr' & Hbh & Hzh); [lia | lia | unfold m; lia |].
  rewrite Hr in Hr'. injection Hr' as <-. rewrite Hr.
  eexists _, _. split; [reflexivity|].
  assert (w * s / m <= s).
  { apply Z.div_le_upper_bound; [lia|]. unfold m. nia. }
  assert (h * s / m <= s).
  { apply Z.div_le_upper_bound; [lia|]. unfold m. nia. }
  repeat split; try lia; assumption.
Qed.

End FloatFacts.
End Float64Facts.

(** C8, as amended.  For a page image of [w] by [h] pixels, both below
    [2^26], and [0 < max_side]: the PDF path and the single-image path ask
    for the same size; an image whose longest side is at most [max_side] is
    left alone; otherwise both sides are multiplied by the one binary64 ratio
    [max_side / max(w, h)] and truncated, which gives the exact product
    rounded down, or one pixel less than that when the exact product is a
    whole number; the longest side of the result is at most [max_side], and
    each side is within one pixel of the rounded exact product. *)
Theorem max_side_step_truncates_binary64_product (w h s : Z) :
  0 < w < 2 ^ 26 -> 0 < h < 2 ^ 26 -> 0 < s ->
  Loader.pdf_page_new_size w h (Some s) = Loader.image_new_size w h (Some s) /\
  (Z.max w h <= s -> Loader.image_new_size w h (Some s) = Ok None) /\
  (s < Z.max w h ->
   exists w' h',
     Loader.image_new_size w h (Some s) = Ok (Some (w', h')) /\
     Z.max w' h' <= s /\
     (w * s / Z.max w h - 1 <= w' <= w * s / Z.max w h) /\
     (w' = w * s / Z.max w h - 1 -> (w * s) mod Z.max w h = 0) /\
     (h * s / Z.max w h - 1 <= h' <= h * s / Z.max w h) /\
     (h' = h * s / Z.max w h - 1 -> (h * s) mod Z.max w h = 0) /\
     Z.abs (w' - ConvertSpec.round_div (w * s) (Z.max w h)) <= 1 /\
     Z.abs (h' - ConvertSpec.round_div (h * s) (Z.max w h)) <= 1).
Proof.
  intros Hw Hh Hs. split; [reflexivity|]. split.
  - intros Hle. unfold Loader.image_new_size.
    destruct (Z.ltb_spec s (Z.max w h)); [lia|done].
  - intros Hlt.
    destruct (Float64Facts.scaled_size_bounds w h s Hw Hh ltac:(lia))
      as (w' & h' & Heq & Hmax & Hbw & Hzw & Hbh & Hzh).
    exists w', h'. do 6 (split; [assumption|]).
    unfold ConvertSpec.round_div.
    destruct (Float64Facts.rne_floor (w * s) (Z.max w h) ltac:(lia)) as [Hrw Hrw0].
    destruct (Float64Facts.rne_floor (h * s) (Z.max w h) ltac:(lia)) as [Hrh Hrh0].
    split.
    + destruct (Z.eq_dec w' (w * s / Z.max w h - 1)) as [Heq1|]; [rewrite Hrw0 by auto|]; lia.
    + destruct (Z.eq_dec h' (h * s / Z.max w h - 1)) as [Heq1|]; [rewrite Hrh0 by auto|]; lia.
Qed.

Lemma max_side_step_truncates_binary64_product_witness :
  0 < 3000 < 2 ^ 26 /\ 0 < 2000 < 2 ^ 26 /\ 0 < 1024 /\
  exists w' h',
    Loader.image_new_size 3000 2000 (Some 1024) = Ok (Some (w', h')) /\
    Z.max w' h' <= 1024.
Proof.
  assert (H1 : 0 < 3000 < 2 ^ 26) by (split; reflexivity).
  assert (H2 : 0 < 2000 < 2 ^ 26) by (split; reflexivity).
  assert (H3 : 0 < 1024) by reflexivity.
  split; [exact H1|]. split; [exact H2|]. split; [exact H3|].
  destruct (proj2 (proj2 (max_side_step_truncates_binary64_product 3000 2000 1024 H1 H2 H3)))
    as (w' & h' & Heq & Hmax & _); [reflexivity|].
  exists w', h'. split; assumption.
Defined.

(** C8 as stated fails: a square page of 1122 pixels scaled to a longest
    side of 1024 comes out 1023 pixels wide, where the exact product rounded
    down is 1024; the primitive binary64 numbers give the same. *)
Lemma square_1122_to_1024_loses_a_pixel :
  Loader.image_new_size 1122 1122 (Some 1024) = Ok (Some (1023, 1023)) /\
  1122 * 1024 / Z.max 1122 1122 = 1024 /\
  Hardware.scaled_size 1122 1122 1024 = (1023, 1023).
Proof. repeat split; vm_compute; reflexivity. Qed.

Local Close Scope Z_scope.

(* --------------------------------------------------------------------- *)
(** ** The max-side step on images *)
(* --------------------------------------------------------------------- *)

Section ImageFacts.

Import Loader.
Variable E : Env.

(** On the PDF path a page no longer than [max_side] comes back as it was
    rasterised. *)
Lemma pdf_page_within_max_side_is_kept (im : Image E) (s : Z) :
  (Z.max (fst (im_size E im)) (snd (im_size E im)) <= s)%Z ->
  pdf_page_post E (Some s) None im = Ok im.
Proof.
  intros Hle. unfold pdf_page_post, pdf_page_new_size.
  destruct (im_size E im) as [w h]. cbn [fst snd] in Hle.
  destruct (Z.ltb_spec s (Z.max w h)); [lia|reflexivity].
Qed.

(** On both paths a longer image goes through one [resize], to the size
    the max-side step computes. *)
Lemma pdf_page_beyond_max_side_is_resized (im : Image E) (s : Z) (size : Z * Z) :
  pdf_page_new_size (fst (im_size E im)) (snd (im_size E im)) (Some s) = Ok (Some size) ->
  pdf_page_post E (Some s) None im = resize E im size.
Proof.
  unfold pdf_page_post. destruct (im_size E im) as [w h]. cbn [fst snd].
  by intros ->.
Qed.

Lemma image_within_max_side_is_kept (src_path : string) (options : LoadOptions)
    (fs : FS E) (im : Image E) (s : Z) :
  open_rgba E fs src_path = Ok im ->
  background_rgba options = None -> max_side options = Some s ->
  (Z.max (fst (im_size E im)) (snd (im_size E im)) <= s)%Z ->
  load_image E src_path options fs = (Ok [im], fs).
Proof.
  intros Hopen Hbg Hms Hle. unfold load_image, image_new_size.
  rewrite Hopen, Hbg, Hms.
  destruct (im_size E im) as [w h]. cbn [fst snd] in Hle.
  destruct (Z.ltb_spec s (Z.max w h)); [lia|reflexivity].
Qed.

End ImageFacts.


(* --------------------------------------------------------------------- *)
(** ** The resolution chain, candidate by candidate *)
(* --------------------------------------------------------------------- *)

Section ChainOrder.

Variable get_object : string -> string -> result bytes.
Variable cfg_bucket : string.

Local Abbreviation resolve := (App._resolve_source_bytes_or_404 get_object cfg_bucket).

Lemma try_get_missing b k :
  Outcome.missing (get_object b k) -> App._try_get_object_bytes get_object b k = Ok None.
Proof.
  unfold App._try_get_object_bytes, Outcome.missing.
  destruct (get_object b k) as [data|[]]; try done. by intros ->.
Qed.

Lemma try_get_hard b k e :
  get_object b k = Raise e -> ~ Outcome.missing (get_object b k) ->
  App._try_get_object_bytes get_object b k = Raise e.
Proof.
  unfold App._try_get_object_bytes, Outcome.missing. intros ->.
  destruct e; try done. destruct (App.missing_code code); [by intros []|done].
Qed.

Lemma recorded_nothing_split (f : File) :
  Outcome.recorded_gives_nothing get_object f <->
  match S3util.split_s3_uri (storage_uri f) with
  | Ok (bkt, key) => raises (get_object bkt key)
  | Raise _ => True
  end.
Proof.
  unfold Outcome.recorded_gives_nothing. split.
  - intros H. destruct (S3util.split_s3_uri (storage_uri f)) as [[bkt key]|e] eqn:Hs; [|done].
    apply H. by apply split_located.
  - intros H bkt key Hloc. apply split_located in Hloc. by rewrite Hloc in H.
Qed.

Lemma step1_nothing (f : File) :
  Outcome.recorded_gives_nothing get_object f ->
  snd (App.resolve_step1 get_object f) = None /\
  fst (App.resolve_step1 get_object f)
  = match S3util.split_s3_uri (storage_uri f) with
    | Ok (bkt, key) => [Tried bkt key "db.storage_uri"]
    | Raise _ => []
    end.
Proof.
  rewrite recorded_nothing_split. unfold App.resolve_step1.
  destruct (S3util.split_s3_uri (storage_uri f)) as [[bkt key]|e]; [|done].
  unfold App._try_get_object_bytes.
  destruct (get_object bkt key) as [d|e]; [done|]. intros _.
  destruct e; try done. by destruct (App.missing_code code).
Qed.

Lemma resolve_after_step1 (f : File) :
  Outcome.recorded_gives_nothing get_object f ->
  resolve f
  = match App._try_get_object_bytes get_object cfg_bucket (App.new_key f) with
    | Raise e => Raise e
    | Ok (Some data) => Ok data
    | Ok None =>
        match App._try_get_object_bytes get_object cfg_bucket (App.old_key f) with
        | Raise e => Raise e
        | Ok (Some data) => Ok data
        | Ok None => Raise (App.not_found (App.candidates cfg_bucket f))
        end
    end.
Proof.
  intros H. destruct (step1_nothing f H) as [H2 H1].
  unfold App._resolve_source_bytes_or_404, App.candidates.
  destruct (App.resolve_step1 get_object f) as [tried1 r1]. cbn in H1, H2. subst.
  destruct (S3util.split_s3_uri (storage_uri f)) as [[bkt key]|e]; reflexivity.
Qed.

Lemma resolve_recorded_hit (f : File) bkt key data :
  S3util.split_s3_uri (storage_uri f) = Ok (bkt, key) ->
  get_object bkt key = Ok data -> resolve f = Ok data.
Proof.
  intros Hs Hg. unfold App._resolve_source_bytes_or_404, App.resolve_step1.
  rewrite Hs. unfold App._try_get_object_bytes at 1. by rewrite Hg.
Qed.

(** The candidates are tried in their order and the first object found is
    returned: the recorded location's, whatever the other two keys hold;
    else the canonical key's, whatever the recorded location did and the
    legacy key holds; else, the canonical key being reported missing, the
    legacy key's. *)
Theorem resolve_returns_first_object (f : File) :
  (forall bkt key data,
     Location.located f bkt key ->
     get_object bkt key = Ok data -> resolve f = Ok data) /\
  (forall data,
     Outcome.recorded_gives_nothing get_object f ->
     get_object cfg_bucket (App.new_key f) = Ok data -> resolve f = Ok data) /\
  (forall data,
     Outcome.recorded_gives_nothing get_object f ->
     Outcome.missing (get_object cfg_bucket (App.new_key f)) ->
     get_object cfg_bucket (App.old_key f) = Ok data -> resolve f = Ok data).
Proof.
  split; [|split].
  - intros bkt key data Hloc. apply resolve_recorded_hit. by apply split_located.
  - intros data H1 H2. rewrite (resolve_after_step1 f H1).
    unfold App._try_get_object_bytes at 1. by rewrite H2.
  - intros data H1 H2 H3. rewrite (resolve_after_step1 f H1).
    rewrite (try_get_missing _ _ H2).
    unfold App._try_get_object_bytes. by rewrite H3.
Qed.

(** Every way [_resolve_source_bytes_or_404] can raise.  With no object at
    the recorded location and both other keys reported missing it raises
    the 404 whose payload lists the attempted locations in order (three, or
    two when the recorded location cannot be split).  Whatever it raises is
    that 404, or the error of the canonical key, or the error of the legacy
    key: never an error of the recorded location. *)
Theorem resolve_raises_404_or_a_later_fetch_error (f : File) :
  (Outcome.recorded_gives_nothing get_object f ->
   Outcome.missing (get_object cfg_bucket (App.new_key f)) ->
   Outcome.missing (get_object cfg_bucket (App.old_key f)) ->
   resolve f = Raise (App.not_found (App.candidates cfg_bucket f))) /\
  (forall e, resolve f = Raise e ->
     Outcome.recorded_gives_nothing get_object f /\
     ((e = App.not_found (App.candidates cfg_bucket f) /\
       Outcome.missing (get_object cfg_bucket (App.new_key f)) /\
       Outcome.missing (get_object cfg_bucket (App.old_key f))) \/
      get_object cfg_bucket (App.new_key f) = Raise e \/
      (Outcome.missing (get_object cfg_bucket (App.new_key f)) /\
       get_object cfg_bucket (App.old_key f) = Raise e))) /\
  (forall bkt key, Location.located f bkt key ->
     App.candidates cfg_bucket f
     = [Tried bkt key "db.storage_uri";
        Tried cfg_bucket (App.new_key f) "new_rule";
        Tried cfg_bucket (App.old_key f) "old_rule"]) /\
  (forall e, Location.unlocated f e ->
     App.candidates cfg_bucket f
     = [Tried cfg_bucket (App.new_key f) "new_rule";
        Tried cfg_bucket (App.old_key f) "old_rule"]).
Proof.
  split; [|split; [|split]].
  - intros H1 H2 H3. rewrite (resolve_after_step1 f H1).
    by rewrite (try_get_missing _ _ H2), (try_get_missing _ _ H3).
  - intros e He.
    assert (H1 : Outcome.recorded_gives_nothing get_object f).
    { apply recorded_nothing_split.
      destruct (S3util.split_s3_uri (storage_uri f)) as [[bkt key]|e0] eqn:Hs; [|done].
      destruct (get_object bkt key) as [d|e1] eqn:Hg; [|done].
      rewrite (resolve_recorded_hit f bkt key d Hs Hg) in He. done. }
    split; [done|]. rewrite (resolve_after_step1 f H1) in He.
    revert He. unfold App._try_get_object_bytes, Outcome.missing.
    destruct (get_object cfg_bucket (App.new_key f)) as [d2|e2]; [done|].
    assert (Hold : forall P : Prop,
      (match
         match get_object cfg_bucket (App.old_key f) with
         | Ok data => Ok (Some data)
         | Raise (ClientError code msg) =>
             if App.missing_code code then Ok None else Raise (ClientError code msg)
         | Raise e0 => Raise e0
         end
       with
       | Ok (Some data) => Ok data
       | Ok None => Raise (App.not_found (App.candidates cfg_bucket f))
       | Raise e0 => Raise e0
       end = Raise e) ->
      ((e = App.not_found (App.candidates cfg_bucket f) /\
        match get_object cfg_bucket (App.old_key f) with
        | Raise (ClientError code _) => App.missing_code code = true
        | _ => False
        end) \/ get_object cfg_bucket (App.old_key f) = Raise e)).
    { intros _. destruct (get_object cfg_bucket (App.old_key f)) as [d3|e3]; [done|].
      destruct e3; try (intros [= <-]; by right).
      destruct (App.missing_code code) eqn:Hc; intros [= <-]; [left|right]; done. }
    destruct e2; try (intros [= <-]; right; by left).
    destruct (App.missing_code code) eqn:Hc; [|intros [= <-]; right; by left].
    intros He. destruct (Hold True He) as [[-> Hm]|Hr].
    + left. done.
    + right. right. done.
  - intros bkt key Hloc. apply split_located in Hloc.
    unfold App.candidates. by rewrite Hloc.
  - intros e Hun. apply split_unlocated in Hun.
    unfold App.candidates. by rewrite Hun.
Qed.

End ChainOrder.

Lemma put_bytes_uri_round_trip_witness :
  S3util.slashless "llmops-bucket" = true /\
  S3util.split_s3_uri
    (fst (Store.put_bytes "llmops-bucket" ∅ "alice/source_files/f1/a.pdf" Stale.content
            "application/pdf"))
  = Ok ("llmops-bucket", "alice/source_files/f1/a.pdf").
Proof.
  split; [reflexivity|].
  exact (proj1 (put_bytes_uri_round_trip "llmops-bucket" "alice/source_files/f1/a.pdf"
                  "application/pdf" Stale.content ∅ eq_refl)).
Defined.

(** A stale recorded location: the object is found under the canonical
    key. *)
Lemma resolve_returns_first_object_witness :
  Outcome.recorded_gives_nothing Stale.canonical_store Stale.file1 /\
  App._resolve_source_bytes_or_404 Stale.canonical_store "llmops-bucket" Stale.file1
  = Ok Stale.content.
Proof.
  assert (H : Outcome.recorded_gives_nothing Stale.canonical_store Stale.file1)
    by (apply recorded_nothing_split; exact I).
  split; [exact H|].
  exact (proj1 (proj2 (resolve_returns_first_object Stale.canonical_store "llmops-bucket"
                         Stale.file1)) Stale.content H eq_refl).
Defined.

(** Nothing anywhere: the 404 lists the three locations. *)
Lemma resolve_raises_404_or_a_later_fetch_error_witness :
  App._resolve_source_bytes_or_404 Stale.empty_store "llmops-bucket" Stale.file1
  = Raise (App.not_found
             [Tried "llmops-bucket" "tmp/a.pdf" "db.storage_uri";
              Tried "llmops-bucket" "alice/source_files/f1/a.pdf" "new_rule";
              Tried "llmops-bucket" "uploads/f1/a.pdf" "old_rule"]).
Proof.
  refine (proj1 (resolve_raises_404_or_a_later_fetch_error Stale.empty_store
                   "llmops-bucket" Stale.file1) _ _ _);
    [apply recorded_nothing_split; exact I|reflexivity..].
Defined.

(* --------------------------------------------------------------------- *)
(** ** The worker over any sequence of deliveries *)
(* --------------------------------------------------------------------- *)

Section WorkerInvariants.

Context {Ext : Type} {B : Builtins}.
Variable utcnow : nat -> Z.
Variable get_object : Ext -> string -> string -> result bytes.
Variable manager : Manager.TaskManager Ext.

Import Worker TriggerSpec RunRecord.

Local Abbreviation mark := (@_mark Ext utcnow).
Local Abbreviation run_task := (@Worker.run_task Ext B utcnow get_object manager).
Local Abbreviation deliver := (@Worker.deliver Ext B utcnow get_object manager).
Local Abbreviation deliver_all := (@Worker.deliver_all Ext B utcnow get_object manager).

Lemma mark_identity (w : World Ext) tr st err : same_identity tr (mark w tr st err).1.
Proof. done. Qed.

(** One delivery: what it appends to the commit log and how often it reads
    the clock. *)
Lemma run_task_log (w : World Ext) (i : string) :
  wf w ->
  exists sts,
    commits (run_task w i).2 = (commits w ++ map (fun st => (i, st)) sts)%list /\
    ticks (run_task w i).2 = (ticks w + length sts)%nat /\
    Forall (fun st => st ∈ marks) sts /\
    file (run_task w i).2 = file w.
Proof.
  intros Hwf. unfold Worker.run_task.
  destruct (task_run w !! i) as [tr|] eqn:Htr.
  2:{ exists []. cbn. rewrite app_nil_r. split; [done|]. split; [lia|done]. }
  apply Hwf in Htr as Hid.
  destruct (file w !! file_id tr) as [f|].
  2:{ exists ["FAILED"]. cbn. rewrite Hid. split; [done|]. split; [lia|].
      split; [|done]. repeat constructor. }
  cbn. unfold run_task_body. cbn.
  destruct (_get_source_bytes get_object f (ext w)) as [data|e].
  2:{ exists ["RUNNING"; "FAILED"]. cbn. rewrite Hid, <- app_assoc.
      split; [done|]. split; [lia|]. split; [|done].
      unfold marks. repeat constructor; set_solver. }
  destruct (Manager.run manager _ f data (ext w)) as [[[]|e] x].
  - exists ["RUNNING"; "SUCCEEDED"]. cbn. rewrite Hid, <- app_assoc.
    split; [done|]. split; [lia|]. split; [|done].
    unfold marks. repeat constructor; set_solver.
  - exists ["RUNNING"; "FAILED"]. cbn. rewrite Hid, <- app_assoc.
    split; [done|]. split; [lia|]. split; [|done].
    unfold marks. repeat constructor; set_solver.
Qed.

(** One delivery keeps the identity of the row it drives. *)
Lemma deliver_identity (w : World Ext) i j tr :
  wf w -> task_run w !! i = Some tr ->
  exists tr', task_run (deliver w j) !! i = Some tr' /\ same_identity tr tr'.
Proof.
  intros Hwf Htr. destruct (decide (j = i)) as [->|Hne].
  - destruct (deliver_row utcnow get_object manager w i tr Hwf Htr)
      as [[_ Hrow]|[_ (w2 & st & err & _ & _ & Hrow)]]; rewrite Hrow;
      (eexists; split; [reflexivity|done]).
  - exists tr. split; [|done].
    rewrite (deliver_other utcnow get_object manager w i j Hwf Hne). done.
Qed.

Lemma deliver_absent (w : World Ext) i j :
  wf w -> task_run w !! i = None -> task_run (deliver w j) !! i = None.
Proof.
  intros Hwf Htr. destruct (decide (j = i)) as [->|Hne].
  - unfold Worker.deliver, Worker.run_task. by rewrite Htr.
  - by rewrite (deliver_other utcnow get_object manager w i j Hwf Hne).
Qed.

Lemma deliver_all_snoc (w : World Ext) ids j :
  deliver_all w (ids ++ [j]) = deliver (deliver_all w ids) j.
Proof. unfold Worker.deliver_all. by rewrite fold_left_app. Qed.

Lemma deliveries_frame (w : World Ext) :
  wf w ->
  forall ids,
    file (deliver_all w ids) = file w /\
    (forall i, task_run w !! i = None -> task_run (deliver_all w ids) !! i = None) /\
    (forall i tr, task_run w !! i = Some tr ->
       exists tr', task_run (deliver_all w ids) !! i = Some tr' /\ same_identity tr tr') /\
    (exists more,
       commits (deliver_all w ids) = (commits w ++ more)%list /\
       ticks (deliver_all w ids) = (ticks w + length more)%nat /\
       Forall (fun c => c.1 ∈ ids /\ c.2 ∈ marks) more).
Proof.
  intros Hwf ids. induction ids as [|j ids IH] using rev_ind.
  { cbn. split; [done|]. split; [done|]. split; [eauto|].
    - intros i tr ->. exists tr. done.
    - exists []. rewrite app_nil_r. split; [done|]. split; [cbn; lia|done]. }
  destruct IH as (Hf & Hnone & Hsome & more & Hc & Ht & Hall).
  rewrite deliver_all_snoc.
  pose proof (deliver_all_wf utcnow get_object manager ids w Hwf) as Hwf'.
  destruct (run_task_log (deliver_all w ids) j Hwf') as (sts & Hc' & Ht' & Hsts & Hf').
  split; [|split; [|split]].
  - unfold Worker.deliver. by rewrite Hf'.
  - intros i Hi. apply deliver_absent; auto.
  - intros i tr Hi. destruct (Hsome i tr Hi) as (tr1 & H1 & Hid1).
    destruct (deliver_identity (deliver_all w ids) i j tr1 Hwf' H1) as (tr2 & H2 & Hid2).
    exists tr2. split; [done|].
    destruct Hid1 as (? & ? & ?), Hid2 as (? & ? & ?). repeat split; congruence.
  - exists (more ++ map (fun st => (j, st)) sts)%list.
    unfold Worker.deliver. rewrite Hc', Hc, Ht', Ht, app_assoc, length_app, length_map.
    split; [done|]. split; [lia|].
    apply Forall_app. split.
    + eapply Forall_impl; [exact Hall|]. intros c [? ?].
      split; [apply elem_of_app; by left|done].
    + apply Forall_map. eapply Forall_impl; [exact Hsts|]. intros st ?. cbn.
      split; [apply elem_of_app; right; apply list_elem_of_singleton; done|done].
Qed.

(** Deliveries neither create nor delete a row and never touch the [file]
    table; a run keeps its id, its file and its name; every commit made is
    one of RUNNING, SUCCEEDED, FAILED for a delivered id, and the clock is
    read once per commit. *)
Theorem deliveries_only_rewrite_delivered_runs (w : World Ext) (ids : list string) :
  wf w ->
  file (deliver_all w ids) = file w /\
  (forall i, task_run w !! i = None -> task_run (deliver_all w ids) !! i = None) /\
  (forall i tr, task_run w !! i = Some tr ->
     exists tr', task_run (deliver_all w ids) !! i = Some tr' /\ same_identity tr tr') /\
  (exists more,
     commits (deliver_all w ids) = (commits w ++ more)%list /\
     ticks (deliver_all w ids) = (ticks w + length more)%nat /\
     Forall (fun c => c.1 ∈ ids /\ c.2 ∈ marks) more).
Proof. intros Hwf. exact (deliveries_frame w Hwf ids). Qed.

(** *** Pending until delivered, settled ever after *)

Local Abbreviation started_before := (@RunRecord.started_before Ext utcnow).

Lemma deliver_ticks (w : World Ext) j : wf w -> (ticks w <= ticks (deliver w j))%nat.
Proof.
  intros Hwf. destruct (run_task_log w j Hwf) as (sts & _ & Ht & _).
  unfold Worker.deliver. lia.
Qed.

Lemma deliver_settles (w : World Ext) i tr :
  wf w -> monotone_clock utcnow ->
  task_run w !! i = Some tr -> started_before w tr ->
  exists tr', task_run (deliver w i) !! i = Some tr' /\ settled tr' /\
              started_before (deliver w i) tr'.
Proof.
  intros Hwf Hmono Htr Hsb.
  pose proof (deliver_ticks w i Hwf) as Hticks.
  destruct (run_task_log w i Hwf) as (sts & Hc & Ht & _).
  destruct (deliver_row utcnow get_object manager w i tr Hwf Htr)
    as [[Hnf Hrow]|[Hf (w2 & st & err & Hw2 & Hst & Hrow)]];
    rewrite Hrow; eexists; (split; [reflexivity|]).
  - split.
    + split; [by right|]. split; [|done]. cbn. eexists. split; [done|].
      intros s Hs. destruct (Hsb s Hs) as (t & Hlt & ->). apply Hmono. lia.
    + intros s Hs. cbn in Hs. destruct (Hsb s Hs) as (t & Hlt & ->).
      exists t. split; [|done]. lia.
  - assert (Hstart : forall s,
      started_at (mark w2 (mark w tr "RUNNING" None).1 st err).1 = Some s ->
      exists t, (t <= ticks w)%nat /\ s = utcnow t).
    { intros s. cbn.
      assert (Hst' : (String.eqb st "RUNNING") = false).
      { destruct Hst as [[-> _]|[-> _]]; reflexivity. }
      rewrite Hst'. cbn.
      destruct (started_at tr) as [s0|] eqn:Hs0; cbn.
      - intros [= <-]. destruct (Hsb s0 Hs0) as (t & Hlt & ->). exists t. split; [lia|done].
      - intros [= <-]. exists (ticks w). done. }
    assert (Hfin : finished_at (mark w2 (mark w tr "RUNNING" None).1 st err).1
                   = Some (utcnow (S (ticks w)))).
    { cbn. rewrite Hw2. destruct Hst as [[-> _]|[-> _]]; reflexivity. }
    split.
    + split; [|split].
      * cbn. destruct Hst as [[-> _]|[-> _]]; [by left|by right].
      * eexists. split; [exact Hfin|]. intros s Hs.
        destruct (Hstart s Hs) as (t & Hle & ->). apply Hmono. lia.
      * cbn. destruct Hst as [[-> ->]|[-> Herr]]; split; done.
    + intros s Hs. destruct (Hstart s Hs) as (t & Hle & ->). exists t. split; [|done].
      assert (ticks (deliver w i) = (ticks w + length sts)%nat) by exact Ht.
      assert (Hlen : (2 <= length sts)%nat \/ (ticks w < ticks (deliver w i))%nat).
      { right. unfold Worker.deliver, Worker.run_task. rewrite Htr.
        destruct Hf as [f ->]. cbn. unfold run_task_body. cbn.
        destruct (_get_source_bytes get_object f (ext w)); [|cbn; lia].
        destruct (Manager.run manager _ f _ (ext w)) as [[[]|e] x]; cbn; lia. }
      lia.
Qed.

Lemma deliveries_settle (w : World Ext) :
  wf w -> monotone_clock utcnow ->
  (forall i tr, task_run w !! i = Some tr -> created_pending tr) ->
  forall ids i tr',
    task_run (deliver_all w ids) !! i = Some tr' ->
    (((i ∉ ids) /\ created_pending tr') \/ (i ∈ ids /\ settled tr')) /\
    started_before (deliver_all w ids) tr'.
Proof.
  intros Hwf Hmono Hpend ids. induction ids as [|j ids IH] using rev_ind.
  { cbn. intros i tr' Hi. split.
    - left. split; [by intros ?%elem_of_nil|eauto].
    - intros s Hs. destruct (Hpend i tr' Hi) as (_ & Hstart & _). congruence. }
  intros i tr'. rewrite deliver_all_snoc.
  pose proof (deliver_all_wf utcnow get_object manager ids w Hwf) as Hwf'.
  destruct (decide (j = i)) as [->|Hne].
  - destruct (task_run (deliver_all w ids) !! i) as [tr1|] eqn:H1.
    + destruct (IH i tr1 H1) as [_ Hsb].
      destruct (deliver_settles _ i tr1 Hwf' Hmono H1 Hsb) as (tr2 & H2 & Hset & Hsb2).
      rewrite H2. intros [= <-]. split; [|done]. right.
      split; [apply elem_of_app; right; by apply list_elem_of_singleton|done].
    + by rewrite (deliver_absent _ i i Hwf' H1).
  - rewrite (deliver_other utcnow get_object manager _ i j Hwf' Hne).
    intros Hi. destruct (IH i tr' Hi) as [Hcase Hsb]. split.
    + destruct Hcase as [[Hni ?]|[Hin ?]]; [left|right]; (split; [|done]).
      * rewrite elem_of_app, list_elem_of_singleton. intros [?|?]; [by apply Hni|by apply Hne].
      * apply elem_of_app. by left.
    + intros s Hs. destruct (Hsb s Hs) as (t & Hlt & ->). exists t. split; [|done].
      pose proof (deliver_ticks _ j Hwf'). lia.
Qed.

(** From a world whose runs are all as [run_files] creates them, after
    any sequence of deliveries (repeated ones included): a run whose
    trigger was never delivered is still as created, and every other run is
    SUCCEEDED or FAILED with a finish time not before its start time and an
    error text exactly when FAILED.  The clock is taken not to run
    backwards. *)
Theorem runs_are_pending_until_delivered_then_settled (w : World Ext) (ids : list string) :
  wf w -> monotone_clock utcnow ->
  (forall i tr, task_run w !! i = Some tr -> created_pending tr) ->
  forall i tr', task_run (deliver_all w ids) !! i = Some tr' ->
    ((i ∉ ids) /\ created_pending tr') \/ (i ∈ ids /\ settled tr').
Proof.
  intros Hwf Hmono Hpend i tr' Hi.
  exact (proj1 (deliveries_settle w Hwf Hmono Hpend ids i tr' Hi)).
Qed.

End WorkerInvariants.

(** *** On the concrete deployments *)

Lemma world0_all_pending i tr :
  Worker.task_run Scenario.world0 !! i = Some tr -> TriggerSpec.created_pending tr.
Proof.
  intros H. cbn in H. apply lookup_singleton_Some in H as [_ <-]. done.
Qed.

Lemma deliveries_only_rewrite_delivered_runs_witness :
  Worker.wf Scenario.world0 /\
  Worker.file (Scenario.deliver_all Scenario.world0 ["r1"; "r1"])
  = Worker.file Scenario.world0.
Proof.
  split; [exact wf_world0|].
  exact (proj1 (deliveries_only_rewrite_delivered_runs Scenario.utcnow Scenario.get_object
                  Scenario.manager Scenario.world0 ["r1"; "r1"] wf_world0)).
Defined.

Lemma runs_are_pending_until_delivered_then_settled_witness :
  Worker.wf Scenario.world0 /\ TriggerSpec.monotone_clock Scenario.utcnow /\
  forall tr',
    Worker.task_run (Scenario.deliver_all Scenario.world0 ["r1"; "r1"]) !! "r1" = Some tr' ->
    (("r1" ∉ ["r1"; "r1"]) /\ TriggerSpec.created_pending tr') \/
    ("r1" ∈ ["r1"; "r1"] /\ RunRecord.settled tr').
Proof.
  split; [exact wf_world0|]. split; [exact scenario_clock_monotone|].
  exact (runs_are_pending_until_delivered_then_settled Scenario.utcnow Scenario.get_object
           Scenario.manager Scenario.world0 ["r1"; "r1"] wf_world0 scenario_clock_monotone
           world0_all_pending "r1").
Defined.

(* --------------------------------------------------------------------- *)
(** ** Registering the repository's handlers *)
(* --------------------------------------------------------------------- *)

Section RegisterAllFacts.

Context {Ext : Type} {B : Builtins}.
Import Manager.

Variables doc_convert to_pdf vlm_ocr : BaseHandler Ext.

Local Abbreviation ka := (key_of (h_name doc_convert)).
Local Abbreviation kb := (key_of (h_name to_pdf)).
Local Abbreviation kc := (key_of (h_name vlm_ocr)).

Lemma register_fresh (m : TaskManager Ext) h :
  _handlers m !! key_of (h_name h) = None ->
  register m h = Ok (mkManager (<[key_of (h_name h) := h]> (_handlers m))).
Proof. unfold register. by intros ->. Qed.

Lemma register_taken (m : TaskManager Ext) h h' :
  _handlers m !! key_of (h_name h) = Some h' ->
  register m h = Raise (ValueError ("handler already registered: " ++ key_of (h_name h))).
Proof. unfold register. by intros ->. Qed.

Lemma register_all_cases :
  (ka = kb ->
   register_all doc_convert to_pdf vlm_ocr init
   = Raise (ValueError ("handler already registered: " ++ kb))) /\
  (ka <> kb -> (ka = kc \/ kb = kc) ->
   register_all doc_convert to_pdf vlm_ocr init
   = Raise (ValueError ("handler already registered: " ++ kc))) /\
  (ka <> kb -> ka <> kc -> kb <> kc ->
   register_all doc_convert to_pdf vlm_ocr init
   = Ok (mkManager (<[kc := vlm_ocr]> (<[kb := to_pdf]> (<[ka := doc_convert]> ∅))))).
Proof.
  unfold register_all.
  rewrite (register_fresh init doc_convert) by apply lookup_empty.
  split; [|split].
  - intros Hab. erewrite register_taken; [done|].
    cbn. rewrite <- Hab. apply lookup_insert_eq.
  - intros Hab Hc. rewrite (register_fresh _ to_pdf).
    2:{ cbn. rewrite lookup_insert_ne by done. apply lookup_empty. }
    destruct (decide (kb = kc)) as [Hbc|Hbc].
    + erewrite register_taken; [done|]. cbn. rewrite <- Hbc. apply lookup_insert_eq.
    + destruct Hc as [Hac|]; [|done].
      erewrite register_taken; [done|]. cbn.
      rewrite lookup_insert_ne by done. rewrite <- Hac. apply lookup_insert_eq.
  - intros Hab Hac Hbc. rewrite (register_fresh _ to_pdf).
    2:{ cbn. rewrite lookup_insert_ne by done. apply lookup_empty. }
    rewrite (register_fresh _ vlm_ocr); [done|].
    cbn. rewrite !lookup_insert_ne by done. apply lookup_empty.
Qed.

(** [register_all] on the empty registry succeeds exactly when the three
    names have three different keys, and otherwise raises for the first
    handler whose key is taken.  After it, a run is dispatched to the
    handler with the key of its name, a run with another key raises
    "unknown task", and calling [register_all] again raises for the first
    handler. *)
Theorem register_all_needs_three_distinct_keys :
  (returns (register_all doc_convert to_pdf vlm_ocr init) <->
   ka <> kb /\ ka <> kc /\ kb <> kc) /\
  (forall m, register_all doc_convert to_pdf vlm_ocr init = Ok m ->
     (forall tr f data x,
        run m tr f data x
        = if decide (key_of (name tr) = ka) then h_run doc_convert tr f data x
          else if decide (key_of (name tr) = kb) then h_run to_pdf tr f data x
          else if decide (key_of (name tr) = kc) then h_run vlm_ocr tr f data x
          else (Raise (ValueError ("unknown task: " ++ key_of (name tr))), x)) /\
     register_all doc_convert to_pdf vlm_ocr m
     = Raise (ValueError ("handler already registered: " ++ ka))) /\
  (forall e, register_all doc_convert to_pdf vlm_ocr init = Raise e ->
     e = ValueError ("handler already registered: " ++ (if decide (ka = kb) then kb else kc))).
Proof.
  destruct register_all_cases as (H1 & H2 & H3).
  destruct (decide (ka = kb)) as [Hab|Hab].
  { rewrite (H1 Hab). split; [|split]; [|done|by intros e [= <-]].
    split; [done|]. by intros (? & _). }
  destruct (decide (ka = kc)) as [Hac|Hac].
  { rewrite (H2 Hab (or_introl Hac)). split; [|split]; [|done|by intros e [= <-]].
    split; [done|]. by intros (_ & ? & _). }
  destruct (decide (kb = kc)) as [Hbc|Hbc].
  { rewrite (H2 Hab (or_intror Hbc)). split; [|split]; [|done|by intros e [= <-]].
    split; [done|]. by intros (_ & _ & ?). }
  rewrite (H3 Hab Hac Hbc). split; [|split]; [done| |done].
  intros m [= <-]. split.
  - intros tr f data x. unfold run. cbn.
    destruct (decide (key_of (name tr) = ka)) as [->|Ha].
    { rewrite !lookup_insert_ne by done. by rewrite lookup_insert_eq. }
    destruct (decide (key_of (name tr) = kb)) as [->|Hb].
    { rewrite lookup_insert_ne by done. by rewrite lookup_insert_eq. }
    destruct (decide (key_of (name tr) = kc)) as [->|Hc].
    { by rewrite lookup_insert_eq. }
    rewrite !lookup_insert_ne by done. by rewrite lookup_empty.
  - unfold register_all. erewrite register_taken; [done|].
    cbn. rewrite !lookup_insert_ne by done. apply lookup_insert_eq.
Qed.

End RegisterAllFacts.

(** The names of the repository, [doc_convert], [to_pdf] and [vlm_ocr]:
    registration succeeds whatever the handlers do. *)
Lemma register_all_needs_three_distinct_keys_witness :
  returns (Manager.register_all
             (Manager.mkHandler "doc_convert" Scenario.flaky_run)
             (Manager.mkHandler "to_pdf" Scenario.flaky_run)
             (Manager.mkHandler "vlm_ocr" Scenario.flaky_run) Manager.init).
Proof.
  apply (proj1 (register_all_needs_three_distinct_keys
                  (Manager.mkHandler "doc_convert" Scenario.flaky_run)
                  (Manager.mkHandler "to_pdf" Scenario.flaky_run)
                  (Manager.mkHandler "vlm_ocr" Scenario.flaky_run))).
  repeat split; discriminate.
Defined.

(* --------------------------------------------------------------------- *)
(** ** Deliveries of distinct triggers *)
(* --------------------------------------------------------------------- *)

Section DeliveryOrder.

Context {Ext : Type} {B : Builtins}.
Variable utcnow : nat -> Z.
Variable get_object : Ext -> string -> string -> result bytes.
Variable manager : Manager.TaskManager Ext.

Import Worker TriggerSpec RunRecord.

Local Abbreviation deliver := (@Worker.deliver Ext B utcnow get_object manager).
Local Abbreviation deliver_all := (@Worker.deliver_all Ext B utcnow get_object manager).

Lemma deliver_all_other ids : forall (w : World Ext) i,
  wf w -> i ∉ ids -> task_run (deliver_all w ids) !! i = task_run w !! i.
Proof.
  induction ids as [|j ids IH]; intros w i Hwf Hi; [done|].
  apply not_elem_of_cons in Hi as [Hij Hi].
  change (deliver_all w (j :: ids)) with (deliver_all (deliver w j) ids).
  rewrite IH; [|by apply deliver_wf|done].
  by apply deliver_other.
Qed.

Lemma deliver_all_app (w : World Ext) l1 l2 :
  deliver_all w (l1 ++ l2) = deliver_all (deliver_all w l1) l2.
Proof. unfold Worker.deliver_all. apply fold_left_app. Qed.

(** A run with no start time whose trigger occurs once among the
    deliveries is settled by them. *)
Lemma deliver_all_settles (w : World Ext) ids i tr :
  wf w -> monotone_clock utcnow -> NoDup ids -> i ∈ ids ->
  task_run w !! i = Some tr -> started_at tr = None ->
  exists tr', task_run (deliver_all w ids) !! i = Some tr' /\ settled tr' /\
              same_identity tr tr'.
Proof.
  intros Hwf Hmono Hnd Hin Htr Hstart.
  apply list_elem_of_split in Hin as (l1 & l2 & ->).
  apply NoDup_app in Hnd as (_ & Hl1 & Hnd2). apply NoDup_cons in Hnd2 as [Hl2 _].
  assert (Hi1 : i ∉ l1). { intros Hin. apply (Hl1 i Hin). by left. }
  rewrite deliver_all_app.
  change (deliver_all (deliver_all w l1) (i :: l2))
    with (deliver_all (deliver (deliver_all w l1) i) l2).
  pose proof (deliver_all_wf utcnow get_object manager l1 w Hwf) as Hwf1.
  rewrite deliver_all_other; [|by apply deliver_wf|done].
  assert (H1 : task_run (deliver_all w l1) !! i = Some tr).
  { by rewrite deliver_all_other. }
  destruct (deliver_settles utcnow get_object manager _ i tr Hwf1 Hmono H1)
    as (tr' & H2 & Hset & _).
  { intros s Hs. congruence. }
  destruct (deliver_identity utcnow get_object manager _ i i tr Hwf1 H1) as (tr2 & H3 & Hid).
  exists tr'. split; [done|]. split; [done|]. congruence.
Qed.

End DeliveryOrder.

(* --------------------------------------------------------------------- *)
(** ** The endpoints *)
(* --------------------------------------------------------------------- *)

Section ServiceFacts.

Context {B : Builtins}.
Variable E : Loader.Env.
Variable Json : Type.
Variable empty_params : Json.
Variable uuid4 : nat -> string.
Variable sha256_bytes : bytes -> string.
Variable cfg_bucket : string.

Import Service.

Local Abbreviation World := (Worker.World (Ext E Json)).
Local Abbreviation upload_one := (upload_one E Json uuid4 sha256_bytes cfg_bucket).
Local Abbreviation upload_loop := (upload_loop E Json uuid4 sha256_bytes cfg_bucket).
Local Abbreviation upload_files := (upload_files E Json uuid4 sha256_bytes cfg_bucket).

Lemma string_app_inv_head (p a b : string) : p ++ a = p ++ b -> a = b.
Proof. induction p as [|c p IH]; cbn; [done|]. intros [= H]. auto. Qed.

Lemma source_key_inj (user fid fid' fn fn' : string) :
  S3util.slashless fid = true -> S3util.slashless fid' = true ->
  source_key user fid fn = source_key user fid' fn' -> fid = fid' /\ fn = fn'.
Proof.
  intros Hs Hs' Heq. unfold source_key in Heq.
  apply string_app_inv_head in Heq.
  apply (string_app_inv_head "/source_files/") in Heq.
  pose proof (split_once_complete fid fn Hs) as H1.
  pose proof (split_once_complete fid' fn' Hs') as H2.
  rewrite Heq in H1. rewrite H1 in H2. by injection H2.
Qed.

(** The row [upload_files] stores for an upload. *)
Local Abbreviation row_of user up fid :=
  (mkFile fid user (up_filename up)
     ("s3://" ++ cfg_bucket ++ "/" ++ source_key user fid (up_filename up)) "READY").

Lemma upload_one_ok user up (w : World) fid w' :
  upload_one user up w = (Ok fid, w') ->
  fid = uuid4 (issued (Worker.ext w)) /\
  Worker.file w !! fid = None /\
  Worker.file w' = <[fid := row_of user up fid]> (Worker.file w) /\
  objects (Worker.ext w')
  = <[(cfg_bucket, source_key user fid (up_filename up))
      := (up_content up, Loader.or_else (up_content_type up) "application/octet-stream")]>
      (objects (Worker.ext w)) /\
  file_meta (Worker.ext w')
  = <[fid := mkFileMeta (up_content_type up) (Z.of_nat (length (up_content up)))
               (sha256_bytes (up_content up))]> (file_meta (Worker.ext w)) /\
  Worker.task_run w' = Worker.task_run w /\
  queue (Worker.ext w') = queue (Worker.ext w) /\
  artifact (Worker.ext w') = artifact (Worker.ext w).
Proof.
  unfold Service.upload_one, insert_file. cbn.
  destruct (Worker.file w !! uuid4 (issued (Worker.ext w))) eqn:Hf; [done|].
  intros [= <- <-]. cbn. done.
Qed.

Lemma upload_one_raise user up (w : World) e w' :
  upload_one user up w = (Raise e, w') -> e = integrity_error.
Proof.
  unfold Service.upload_one, insert_file. cbn.
  destruct (Worker.file w !! uuid4 (issued (Worker.ext w))) eqn:Hf; [|done].
  by intros [= <- <-].
Qed.

Lemma upload_loop_cons user up files (w : World) :
  upload_loop user (up :: files) w
  = match up_content up with
    | [] => upload_loop user files w
    | _ :: _ =>
        match upload_one user up w with
        | (Raise e, w1) => (Raise e, w1)
        | (Ok file_id, w1) =>
            match upload_loop user files w1 with
            | (Raise e, w2) => (Raise e, w2)
            | (Ok ids, w2) => (Ok (file_id :: ids), w2)
            end
        end
    end.
Proof. reflexivity. Qed.

Lemma upload_loop_all_empty user files (w : World) :
  Forall (fun up => up_content up = []) files ->
  upload_loop user files w = (Ok [], w).
Proof.
  induction 1 as [|up files Hup _ IH]; [done|]. rewrite upload_loop_cons. by rewrite Hup.
Qed.

Lemma upload_loop_length user files : forall (w : World) ids w',
  upload_loop user files w = (Ok ids, w') ->
  length ids = length (nonempty files).
Proof.
  induction files as [|up files IH]; intros w ids w'.
  { intros [= <- <-]. reflexivity. }
  unfold nonempty in *. rewrite filter_cons, upload_loop_cons.
  destruct (up_content up) as [|b bs] eqn:Hc.
  { rewrite decide_False by (by intros ?). apply IH. }
  rewrite decide_True by done.
  destruct (upload_one user up w) as [[fid|e] w1]; [|intros [=]].
  destruct (upload_loop user files w1) as [[ids1|e] w2] eqn:Hrest; [|intros [=]].
  intros [= <- <-]. cbn. f_equal. by apply (IH w1 ids1 w2).
Qed.


(** *** Uploads can be fetched back *)

Local Abbreviation meta_of up :=
  (mkFileMeta (up_content_type up) (Z.of_nat (length (up_content up)))
     (sha256_bytes (up_content up))).

Lemma upload_loop_stored user :
  (forall n, S3util.slashless (uuid4 n) = true) ->
  forall files (w : World) ids w',
    upload_loop user files w = (Ok ids, w') ->
    Worker.task_run w' = Worker.task_run w /\
    (forall k row, Worker.file w !! k = Some row -> Worker.file w' !! k = Some row) /\
    (forall fid fn, S3util.slashless fid = true -> is_Some (Worker.file w !! fid) ->
       objects (Worker.ext w') !! (cfg_bucket, source_key user fid fn)
       = objects (Worker.ext w) !! (cfg_bucket, source_key user fid fn)) /\
    (forall k, is_Some (Worker.file w !! k) ->
       file_meta (Worker.ext w') !! k = file_meta (Worker.ext w) !! k) /\
    Forall (fun fid => Worker.file w !! fid = None) ids /\
    NoDup ids /\
    Forall2 (fun up fid =>
               Worker.file w' !! fid = Some (row_of user up fid) /\
               (exists ct, objects (Worker.ext w')
                           !! (cfg_bucket, source_key user fid (up_filename up))
                           = Some (up_content up, ct)) /\
               file_meta (Worker.ext w') !! fid = Some (meta_of up))
            (nonempty files) ids.
Proof.
  intros Hu files. induction files as [|up files IH]; intros w ids w'.
  { intros [= <- <-]. repeat split; try done; constructor. }
  unfold nonempty in *. rewrite filter_cons, upload_loop_cons.
  destruct (up_content up) as [|b bs] eqn:Hc.
  { rewrite decide_False by (by intros ?). apply IH. }
  rewrite decide_True by done.
  destruct (upload_one user up w) as [[fid|e] w1] eqn:Hone; [|intros [=]].
  destruct (upload_loop user files w1) as [[ids1|e] w2] eqn:Hrest; [|intros [=]].
  intros [= <- <-].
  destruct (upload_one_ok _ _ _ _ _ Hone) as (Hfid & Hfresh & Hfile & Hobj & Hmeta & Htr & _).
  destruct (IH w1 ids1 w2 Hrest) as (Htr2 & Hkeep & Hobjs & Hmetas & Hnone & Hnd & Hall).
  assert (Hsl : S3util.slashless fid = true) by (rewrite Hfid; apply Hu).
  assert (Hin1 : Worker.file w1 !! fid = Some (row_of user up fid)).
  { rewrite Hfile. apply lookup_insert_eq. }
  assert (Hne : forall k, is_Some (Worker.file w !! k) -> k <> fid).
  { intros k [r Hr] ->. congruence. }
  split; [congruence|]. split; [|split; [|split; [|split; [|split]]]].
  - intros k row Hk. apply Hkeep. rewrite Hfile.
    rewrite lookup_insert_ne; [done|]. intros <-. congruence.
  - intros fid0 fn Hs0 Hk. rewrite Hobjs.
    + rewrite Hobj. apply lookup_insert_ne. intros [= Heq].
      apply source_key_inj in Heq as [-> _]; [|done..]. by apply (Hne fid0).
    + done.
    + rewrite Hfile. destruct Hk as [r Hr]. exists r.
      rewrite lookup_insert_ne; [done|]. intros <-. congruence.
  - intros k Hk. rewrite Hmetas.
    + rewrite Hmeta. apply lookup_insert_ne. intros <-. by apply (Hne fid).
    + rewrite Hfile. destruct Hk as [r Hr]. exists r.
      rewrite lookup_insert_ne; [done|]. intros <-. congruence.
  - constructor; [done|]. eapply Forall_impl; [exact Hnone|].
    intros k Hk. cbn in Hk. rewrite Hfile in Hk.
    apply lookup_insert_None in Hk. tauto.
  - constructor; [|done]. intros Hin.
    rewrite Forall_forall in Hnone. specialize (Hnone fid Hin). congruence.
  - constructor; [|done]. split; [by apply Hkeep|]. split.
    + eexists. rewrite Hobjs; [|done|by eexists]. rewrite Hobj. apply lookup_insert_eq.
    + rewrite Hmetas by (by eexists). rewrite Hmeta. apply lookup_insert_eq.
Qed.

(** What [upload_files] answers with can be fetched back: each identifier
    names a READY row of the user, not there before, whose recorded
    location the worker splits and reads the uploaded bytes from, as does
    the resolution chain of the endpoints; the identifiers differ from one
    another, rows that existed are kept and no run is created.  Bucket
    name and identifiers are taken to contain no slash. *)
Theorem uploads_are_stored_where_recorded (files : list UploadFile) (user : string)
    (w w' : World) (ids : list string) :
  S3util.slashless cfg_bucket = true ->
  (forall n, S3util.slashless (uuid4 n) = true) ->
  upload_files files user w = (Ok ids, w') ->
  NoDup ids /\
  Forall2 (fun up fid =>
             exists row,
               Worker.file w' !! fid = Some row /\ Worker.file w !! fid = None /\
               f_id row = fid /\ owner_id row = user /\
               user_filename row = up_filename up /\ f_status row = "READY" /\
               file_meta (Worker.ext w') !! fid = Some (meta_of up) /\
               Worker._get_source_bytes (get_object E Json) row (Worker.ext w')
               = Ok (up_content up) /\
               App._resolve_source_bytes_or_404 (get_object E Json (Worker.ext w'))
                 cfg_bucket row = Ok (up_content up))
          (nonempty files) ids /\
  (forall k row, Worker.file w !! k = Some row -> Worker.file w' !! k = Some row) /\
  Worker.task_run w' = Worker.task_run w.
Proof.
  intros Hb Hu. destruct files as [|up0 files0]; [intros [=]|].
  unfold Service.upload_files.
  destruct (upload_loop user (up0 :: files0) w) as [[[|fid ids1]|e] w1] eqn:Hloop;
    try (intros [=]; fail).
  intros [= <- <-].
  destruct (upload_loop_stored user Hu _ _ _ _ Hloop)
    as (Htr & Hkeep & _ & _ & Hnone & Hnd & Hall).
  split; [done|]. split; [|done].
  apply Forall2_same_length_lookup. apply Forall2_same_length_lookup in Hall as [Hlen Hall].
  split; [done|]. intros i up fid1 Hup Hid.
  destruct (Hall i up fid1 Hup Hid) as (Hrow & [ct Hobj] & Hmeta).
  rewrite Forall_forall in Hnone.
  assert (Hsplit : S3util.split_s3_uri (storage_uri (row_of user up fid1))
                   = Ok (cfg_bucket, source_key user fid1 (up_filename up))).
  { apply (proj1 (split_s3_uri_cases _)). done. }
  assert (Hget : get_object E Json (Worker.ext w1) cfg_bucket
                   (source_key user fid1 (up_filename up)) = Ok (up_content up)).
  { unfold Service.get_object, Store.get_object. by rewrite Hobj. }
  eexists. split; [exact Hrow|]. split.
  { apply Hnone. by eapply list_elem_of_lookup_2. }
  do 5 (split; [done|]). split.
  - unfold Worker._get_source_bytes. by rewrite Hsplit.
  - by eapply resolve_recorded_hit.
Qed.

(** *** Starting runs *)

Local Abbreviation run_loop := (run_loop E Json uuid4).
Local Abbreviation run_files := (run_files E Json uuid4).

(** The row [run_files] stores for a run. *)
Local Abbreviation pending rid fid name := (mkTaskRun rid fid name "PENDING" None None None).

Lemma run_loop_cons name params fid rest (w : World) :
  run_loop name params (fid :: rest) w
  = match usable_file E Json w fid with
    | None => run_loop name params rest w
    | Some _ =>
        let rid := uuid4 (issued (Worker.ext w)) in
        match Worker.task_run w !! rid with
        | Some _ => (Raise integrity_error, Worker.set_ext w (draw E Json uuid4 (Worker.ext w)).2)
        | None =>
            let w2 :=
              Worker.mkWorld (<[rid := pending rid fid name]> (Worker.task_run w))
                (Worker.file w) (Worker.ticks w) (Worker.commits w)
                (mkExt E Json (objects (Worker.ext w)) (artifact (Worker.ext w))
                   (file_meta (Worker.ext w))
                   (<[rid := params]> (run_params (Worker.ext w)))
                   (queue (Worker.ext w) ++ [rid])%list
                   (S (issued (Worker.ext w))) (fsys (Worker.ext w))) in
            match run_loop name params rest w2 with
            | (Raise e, w3) => (Raise e, w3)
            | (Ok runs, w3) => (Ok ((rid, fid) :: runs), w3)
            end
        end
    end.
Proof.
  cbn. destruct (usable_file E Json w fid); [|done].
  unfold insert_task_run. cbn.
  destruct (Worker.task_run w !! uuid4 (issued (Worker.ext w))); done.
Qed.

Lemma filter_usable_ext (w1 w : World) (l : list string) :
  Worker.file w1 = Worker.file w ->
  filter (fun fid => is_Some (usable_file E Json w1 fid)) l
  = filter (fun fid => is_Some (usable_file E Json w fid)) l.
Proof.
  intros H. apply list_filter_iff. intros fid. unfold usable_file. by rewrite H.
Qed.

Lemma run_loop_created name params : forall file_ids (w : World) runs w',
  Worker.wf w ->
  run_loop name params file_ids w = (Ok runs, w') ->
  Worker.wf w' /\
  Worker.file w' = Worker.file w /\
  Worker.commits w' = Worker.commits w /\ Worker.ticks w' = Worker.ticks w /\
  objects (Worker.ext w') = objects (Worker.ext w) /\
  artifact (Worker.ext w') = artifact (Worker.ext w) /\
  map snd runs = filter (fun fid => is_Some (usable_file E Json w fid)) file_ids /\
  queue (Worker.ext w') = (queue (Worker.ext w) ++ map fst runs)%list /\
  NoDup (map fst runs) /\
  Forall (fun r => Worker.task_run w !! r.1 = None /\
                   Worker.task_run w' !! r.1 = Some (pending r.1 r.2 name) /\
                   run_params (Worker.ext w') !! r.1 = Some params) runs /\
  (forall j, j ∉ map fst runs -> Worker.task_run w' !! j = Worker.task_run w !! j).
Proof.
  induction file_ids as [|fid rest IH]; intros w runs w' Hwf.
  { intros [= <- <-]. rewrite app_nil_r. repeat split; try done; constructor. }
  rewrite run_loop_cons, filter_cons.
  destruct (usable_file E Json w fid) as [row|] eqn:Hus.
  2:{ rewrite decide_False by (by intros [? ?]). by apply IH. }
  rewrite decide_True by done. cbn zeta.
  set (rid := uuid4 (issued (Worker.ext w))).
  destruct (Worker.task_run w !! rid) eqn:Hfresh; [intros [=]|].
  match goal with |- context [run_loop name params rest ?w0] => set (w2 := w0) end.
  destruct (run_loop name params rest w2) as [[runs1|e] w3] eqn:Hrest; [|intros [=]].
  intros [= <- <-].
  assert (Hwf2 : Worker.wf w2).
  { intros k tr Hk. cbn in Hk. apply lookup_insert_Some in Hk as [[<- <-]|[_ Hk]]; [done|].
    by apply Hwf. }
  destruct (IH w2 runs1 w3 Hwf2 Hrest)
    as (Hwf3 & Hfile & Hcom & Htick & Hobj & Hart & Hmap & Hq & Hnd & Hall & Hframe).
  assert (Hnin : rid ∉ map fst runs1).
  { intros Hin. apply list_elem_of_fmap in Hin as (r & Hr1 & Hr).
    rewrite Forall_forall in Hall. destruct (Hall r Hr) as (Hn & _).
    rewrite <- Hr1 in Hn. cbn in Hn. by rewrite lookup_insert_eq in Hn. }
  split; [done|]. do 5 (split; [done|]).
  split; [|split; [|split; [|split]]].
  - cbn. f_equal. rewrite Hmap. by apply filter_usable_ext.
  - rewrite Hq. cbn. by rewrite <- app_assoc.
  - cbn. by constructor.
  - constructor.
    + cbn. split; [done|]. rewrite (Hframe rid Hnin). cbn. split; [apply lookup_insert_eq|].
      assert (Hp : forall (w0 : World) l rs w1,
        run_loop name params l w0 = (Ok rs, w1) ->
        rid ∉ map fst rs -> run_params (Worker.ext w1) !! rid = run_params (Worker.ext w0) !! rid).
      { clear. intros w0 l. revert w0. induction l as [|f l IHl]; intros w0 rs w1.
        { by intros [= <- <-]. }
        rewrite run_loop_cons. destruct (usable_file E Json w0 f); [|apply IHl].
        cbn zeta. destruct (Worker.task_run w0 !! uuid4 (issued (Worker.ext w0))); [intros [=]|].
        match goal with |- context [run_loop name params l ?w5] => set (w4 := w5) end.
        destruct (run_loop name params l w4) as [[rs1|e] w6] eqn:Hr; [|intros [=]].
        intros [= <- <-] Hn. cbn in Hn. apply not_elem_of_cons in Hn as [Hn1 Hn2].
        rewrite (IHl w4 rs1 w6 Hr Hn2). cbn. by rewrite lookup_insert_ne. }
      rewrite (Hp _ _ _ _ Hrest Hnin). cbn. apply lookup_insert_eq.
    + eapply Forall_impl; [exact Hall|]. intros r (Hn & Hs & Hp). cbn in Hn.
      apply lookup_insert_None in Hn as [Hn _]. done.
  - intros j Hj. cbn in Hj. apply not_elem_of_cons in Hj as [Hj1 Hj2].
    rewrite (Hframe j Hj2). cbn. by rewrite lookup_insert_ne.
Qed.

Lemma run_loop_none name params : forall file_ids (w : World),
  Forall (fun fid => usable_file E Json w fid = None) file_ids ->
  run_loop name params file_ids w = (Ok [], w).
Proof.
  induction 1 as [|fid rest Hfid _ IH]; [done|]. by rewrite run_loop_cons, Hfid.
Qed.

Lemma run_files_created_facts (file_ids : list string)
    (name : string) (params : Json) (w : World) :
  Worker.wf w ->
  (file_ids = [] ->
   run_files file_ids name params w = (Raise (http_error 400 "file_ids empty"), w)) /\
  (file_ids <> [] -> Forall (fun fid => usable_file E Json w fid = None) file_ids ->
   run_files file_ids name params w = (Raise (http_error 400 "No valid files to run"), w)) /\
  (forall runs w', run_files file_ids name params w = (Ok runs, w') ->
     runs <> [] /\
     map snd runs = filter (fun fid => is_Some (usable_file E Json w fid)) file_ids /\
     queue (Worker.ext w') = (queue (Worker.ext w) ++ map fst runs)%list /\
     NoDup (map fst runs) /\
     Forall (fun r => Worker.task_run w !! r.1 = None /\
                      Worker.task_run w' !! r.1 = Some (pending r.1 r.2 name) /\
                      run_params (Worker.ext w') !! r.1 = Some params) runs /\
     (forall j, j ∉ map fst runs -> Worker.task_run w' !! j = Worker.task_run w !! j) /\
     Worker.wf w' /\ Worker.file w' = Worker.file w /\
     Worker.commits w' = Worker.commits w /\
     objects (Worker.ext w') = objects (Worker.ext w) /\
     artifact (Worker.ext w') = artifact (Worker.ext w)).
Proof.
  intros Hwf. split; [|split].
  - by intros ->.
  - intros Hne Hall. destruct file_ids as [|fid rest]; [done|].
    unfold Service.run_files. by rewrite run_loop_none.
  - intros runs w'. destruct file_ids as [|fid rest]; [intros [=]|].
    unfold Service.run_files.
    destruct (run_loop name params (fid :: rest) w) as [[[|r runs1]|e] w1] eqn:Hloop;
      try (intros [=]; fail).
    intros [= <- <-].
    destruct (run_loop_created name params _ _ _ _ Hwf Hloop)
      as (Hwf3 & Hfile & Hcom & Htick & Hobj & Hart & Hmap & Hq & Hnd & Hall & Hframe).
    done.
Qed.

(** [POST /files:run]: an empty list of files is refused with 400
    "file_ids empty" and a list with no usable file with 400 "No valid
    files to run", nothing being stored; otherwise one PENDING run with no
    timestamps and no error is stored, under a new identifier, for each
    listed file that exists and is not DELETED, in the order of the list
    and once for each time the file is listed; one trigger for each is
    queued in the same order; and nothing else changes. *)
Theorem run_files_creates_a_pending_run_per_usable_file (file_ids : list string)
    (name : string) (params : Json) (w : World) :
  Worker.wf w ->
  (file_ids = [] ->
   run_files file_ids name params w = (Raise (http_error 400 "file_ids empty"), w)) /\
  (file_ids <> [] -> Forall (fun fid => usable_file E Json w fid = None) file_ids ->
   run_files file_ids name params w = (Raise (http_error 400 "No valid files to run"), w)) /\
  (forall runs w', run_files file_ids name params w = (Ok runs, w') ->
     runs <> [] /\
     map snd runs = filter (fun fid => is_Some (usable_file E Json w fid)) file_ids /\
     queue (Worker.ext w') = (queue (Worker.ext w) ++ map fst runs)%list /\
     NoDup (map fst runs) /\
     Forall (fun r => Worker.task_run w !! r.1 = None /\
                      Worker.task_run w' !! r.1 = Some (pending r.1 r.2 name) /\
                      run_params (Worker.ext w') !! r.1 = Some params) runs /\
     (forall j, j ∉ map fst runs -> Worker.task_run w' !! j = Worker.task_run w !! j) /\
     Worker.wf w' /\ Worker.file w' = Worker.file w /\
     Worker.commits w' = Worker.commits w /\
     objects (Worker.ext w') = objects (Worker.ext w) /\
     artifact (Worker.ext w') = artifact (Worker.ext w)).
Proof. exact (run_files_created_facts file_ids name params w). Qed.

(** *** From the request to the settled runs *)

Section Pipeline.

Variable utcnow : nat -> Z.
Variable manager : Manager.TaskManager (Ext E Json).

Local Abbreviation deliver_all :=
  (@Worker.deliver_all (Ext E Json) B utcnow (get_object E Json) manager).

(** Once the worker has taken the triggers of a [POST /files:run] in the
    order they were queued, every run the request created is SUCCEEDED or
    FAILED, with a finish time not before its start time and an error text
    exactly when FAILED, still for the file and the task it was created
    for; and the runs that existed before are as they were.  The clock is
    taken not to run backwards. *)
Theorem queued_runs_are_settled_by_the_worker (file_ids : list string) (name : string)
    (params : Json) (w w' : World) (runs : list (string * string)) :
  Worker.wf w -> TriggerSpec.monotone_clock utcnow ->
  run_files file_ids name params w = (Ok runs, w') ->
  (forall r, r ∈ runs ->
     exists tr, Worker.task_run (deliver_all w' (map fst runs)) !! r.1 = Some tr /\
       RunRecord.settled tr /\
       id tr = r.1 /\ file_id tr = r.2 /\ Models.name tr = name) /\
  (forall j, j ∉ map fst runs ->
     Worker.task_run (deliver_all w' (map fst runs)) !! j = Worker.task_run w !! j) /\
  Worker.file (deliver_all w' (map fst runs)) = Worker.file w.
Proof.
  intros Hwf Hmono Hrun.
  destruct (proj2 (proj2 (run_files_created_facts file_ids name params w Hwf)) runs w' Hrun)
    as (_ & _ & _ & Hnd & Hall & Hframe & Hwf' & Hfile & _).
  split; [|split].
  - intros r Hr. rewrite Forall_forall in Hall. destruct (Hall r Hr) as (_ & Hrow & _).
    destruct (deliver_all_settles utcnow (get_object E Json) manager w' (map fst runs) r.1
                (pending r.1 r.2 name) Hwf' Hmono Hnd) as (tr & Htr & Hset & Hid & Hfid & Hname);
      [by apply list_elem_of_fmap_2|done|done|].
    exists tr. done.
  - intros j Hj. rewrite deliver_all_other by done. by apply Hframe.
  - rewrite <- Hfile.
    apply (deliveries_frame utcnow (get_object E Json) manager w' Hwf' (map fst runs)).
Qed.

End Pipeline.

(** *** Conversion to PDF: the endpoint and the handler *)

Local Abbreviation load_pdf := (load_pdf E Json).
Local Abbreviation to_pdf_run := (to_pdf_run E Json uuid4 cfg_bucket).
Local Abbreviation file_to_pdf_body := (file_to_pdf_body E Json uuid4 cfg_bucket).
Local Abbreviation file_to_pdf := (file_to_pdf E Json empty_params uuid4 cfg_bucket).

(** The key both store the PDF under. *)
Local Abbreviation pdf_key tr f :=
  (_artifact_key (owner_id f) (f_id f) (id tr)
     ("to-pdf/" ++ _stem (user_filename f) ++ ".pdf")).

Lemma load_pdf_frame data (x : Ext E Json) :
  objects (load_pdf data x).2 = objects x /\
  artifact (load_pdf data x).2 = artifact x /\
  file_meta (load_pdf data x).2 = file_meta x /\
  run_params (load_pdf data x).2 = run_params x /\
  queue (load_pdf data x).2 = queue x /\
  issued (load_pdf data x).2 = issued x.
Proof.
  unfold Service.load_pdf.
  destruct (Loader.load E (Loader.Bytes data) (Some pdf_options) (fsys x)) as [[[]|e] fs'];
    done.
Qed.

Lemma to_pdf_run_cases tr f data (x : Ext E Json) :
  match load_pdf data x with
  | (Raise e, x1) =>
      to_pdf_run tr f data x = (Raise e, x1) /\
      file_to_pdf_body tr f data x = (Raise e, x1)
  | (Ok pdf, x1) =>
      exists x2,
        to_pdf_run tr f data x = (Ok tt, x2) /\
        file_to_pdf_body tr f data x = (Ok pdf, x2) /\
        objects x2 = <[(cfg_bucket, pdf_key tr f) := (pdf, "application/pdf")]> (objects x1) /\
        artifact x2
        = (artifact x1 ++
           [mkArtifact (uuid4 (issued x1)) (f_id f) (id tr) "pdf"
              ("s3://" ++ cfg_bucket ++ "/" ++ pdf_key tr f) [("source", "to_pdf")]])%list /\
        issued x2 = S (issued x1) /\ queue x2 = queue x1 /\
        file_meta x2 = file_meta x1 /\ run_params x2 = run_params x1 /\ fsys x2 = fsys x1
  end.
Proof.
  unfold Service.to_pdf_run, Service.file_to_pdf_body.
  destruct (load_pdf data x) as [[pdf|e] x1]; [|done].
  eexists. split; [reflexivity|]. split; [reflexivity|]. done.
Qed.


Local Abbreviation resolve w :=
  (App._resolve_source_bytes_or_404 (get_object E Json (Worker.ext w)) cfg_bucket).

Lemma file_to_pdf_run (fid : string) (w : World) f data :
  usable_file E Json w fid = Some f ->
  resolve w f = Ok data ->
  Worker.task_run w !! uuid4 (issued (Worker.ext w)) = None ->
  exists tr,
    Worker.task_run (file_to_pdf fid w).2 !! uuid4 (issued (Worker.ext w)) = Some tr /\
    id tr = uuid4 (issued (Worker.ext w)) /\ file_id tr = f_id f /\
    Models.name tr = "to_pdf" /\ started_at tr = None /\ finished_at tr = None /\
    match (file_to_pdf fid w).1 with
    | Ok pdf =>
        status tr = "SUCCEEDED" /\ error tr = None /\
        exists a,
          artifact (Worker.ext (file_to_pdf fid w).2)
          = (artifact (Worker.ext w) ++ [a])%list /\
          a_kind a = "pdf" /\ a_task_run_id a = id tr /\ a_file_id a = f_id f /\
          (S3util.slashless cfg_bucket = true ->
           exists key,
             S3util.split_s3_uri (a_storage_uri a) = Ok (cfg_bucket, key) /\
             get_object E Json (Worker.ext (file_to_pdf fid w).2) cfg_bucket key = Ok pdf)
    | Raise e =>
        status tr = "FAILED" /\ error tr = Some (str e) /\
        artifact (Worker.ext (file_to_pdf fid w).2) = artifact (Worker.ext w) /\
        objects (Worker.ext (file_to_pdf fid w).2) = objects (Worker.ext w)
    end /\
    (forall j, j <> uuid4 (issued (Worker.ext w)) ->
       Worker.task_run (file_to_pdf fid w).2 !! j = Worker.task_run w !! j) /\
    Worker.file (file_to_pdf fid w).2 = Worker.file w /\
    Worker.commits (file_to_pdf fid w).2 = Worker.commits w /\
    Worker.ticks (file_to_pdf fid w).2 = Worker.ticks w /\
    queue (Worker.ext (file_to_pdf fid w).2) = queue (Worker.ext w).
Proof.
  intros Hus Hres Hfresh.
  unfold Service.file_to_pdf, draw, insert_task_run. rewrite Hus, Hres.
  cbn -[Service.file_to_pdf_body]. rewrite Hfresh.
  match goal with
  | |- context [Service.file_to_pdf_body _ _ _ _ ?t ?f0 ?d ?x0] =>
      pose proof (to_pdf_run_cases t f0 d x0) as Hc;
      destruct (load_pdf_frame d x0) as (Ho & Ha & _ & _ & Hq & _);
      destruct (load_pdf d x0) as [[pdf|e] x1];
      [destruct Hc as (x2 & _ & Hbody & Hobj & Hart & _ & Hq2 & _)|destruct Hc as [_ Hbody]];
      rewrite Hbody
  end; cbn [fst snd] in *.
  - eexists. split; [apply lookup_insert_eq|]. do 5 (split; [reflexivity|]).
    split; [|split; [|by cbn; rewrite Hq2, Hq]].
    + split; [done|]. split; [done|]. eexists. cbn. rewrite Hart, Ha. cbn.
      split; [reflexivity|]. do 3 (split; [reflexivity|]).
      intros Hb. eexists. split.
      * apply (proj1 (split_s3_uri_cases _)). split; [reflexivity|done].
      * unfold Service.get_object, Store.get_object. rewrite Hobj.
        by rewrite lookup_insert_eq.
    + intros j Hj. cbn. rewrite lookup_insert_ne by done. by rewrite lookup_insert_ne.
  - eexists. split; [apply lookup_insert_eq|]. do 5 (split; [reflexivity|]).
    split; [|split; [|by cbn; rewrite Hq]].
    + cbn. by rewrite Ho, Ha.
    + intros j Hj. cbn. rewrite lookup_insert_ne by done. by rewrite lookup_insert_ne.
Qed.


(** *** A PDF source through the worker *)

Lemma load_pdf_of_pdf (data : bytes) (x : Ext E Json) :
  ConvertSpec.pdf_family E (fsys x) (Loader.Bytes data) ->
  (load_pdf data x).1 = Ok data.
Proof.
  intros Hpdf. unfold ConvertSpec.pdf_family in Hpdf.
  unfold Service.load_pdf, Loader.load, Loader.bindM. cbn [default].
  destruct (detect_type_returns E (Loader.Bytes data) (fsys x)) as [[[lm path] src] Hdet].
  rewrite Hdet in *. cbn [fst] in Hpdf.
  unfold Loader.with_tempdir. destruct (Loader.mkdtemp E (fsys x)) as [work fs1] eqn:Hwork.
  unfold Loader.ret at 1; unfold Datatypes.id.
  change (Loader.return_mode pdf_options =? "PDF_BYTES")%string with true; cbv iota.
  assert (Hpath : path = None).
  { revert Hdet. unfold Loader._detect_type.
    destruct (Loader.identify_bytes E data); by intros [= _ <- _]. }
  subst path. cbn [Loader.truthy] in *.
  unfold Loader.direct_pdf, Loader.is_pdf.
  apply orb_true_iff in Hpdf as [Hpdf|Hpdf]; [|done].
  rewrite Hpdf. reflexivity.
Qed.

Section Delivery.

Variable utcnow : nat -> Z.
Variable manager : Manager.TaskManager (Ext E Json).

Local Abbreviation run_task :=
  (@Worker.run_task (Ext E Json) B utcnow (get_object E Json) manager).

(** A run whose name has the key of [ToPdfHandler], on a file whose
    recorded location holds bytes that are classified as PDF: the trigger
    returns, the run is SUCCEEDED without error, and one artifact of kind
    [pdf] is added for the run and the file, whose recorded location holds
    the source bytes unchanged.  The bucket name is taken to contain no
    slash. *)
Theorem worker_to_pdf_copies_a_pdf_source (w : World) (i : string) (tr : TaskRun)
    (f : File) (data : bytes) :
  Worker.wf w -> S3util.slashless cfg_bucket = true ->
  Manager._handlers manager !! Manager.key_of (name tr)
  = Some (ToPdfHandler E Json uuid4 cfg_bucket) ->
  Worker.task_run w !! i = Some tr -> Worker.file w !! file_id tr = Some f ->
  (exists bucket key, Location.located f bucket key /\
                      get_object E Json (Worker.ext w) bucket key = Ok data) ->
  ConvertSpec.pdf_family E (fsys (Worker.ext w)) (Loader.Bytes data) ->
  (run_task w i).1 = Ok tt /\
  TriggerSpec.marked (run_task w i).2 i "SUCCEEDED" None /\
  exists a,
    artifact (Worker.ext (run_task w i).2) = (artifact (Worker.ext w) ++ [a])%list /\
    a_kind a = "pdf" /\ a_task_run_id a = i /\ a_file_id a = f_id f /\
    exists key,
      S3util.split_s3_uri (a_storage_uri a) = Ok (cfg_bucket, key) /\
      get_object E Json (Worker.ext (run_task w i).2) cfg_bucket key = Ok data.
Proof.
  intros Hwf Hb Hh Htr Hf (bucket & key & Hloc & Hobj0) Hpdf. apply Hwf in Htr as Hid.
  assert (Hg : Worker._get_source_bytes (get_object E Json) f (Worker.ext w) = Ok data).
  { unfold Worker._get_source_bytes.
    by rewrite (proj2 (proj1 (split_s3_uri_cases (storage_uri f)) bucket key) Hloc). }
  assert (Hrun : forall tr1 x, name tr1 = name tr ->
    Manager.run manager tr1 f data x = to_pdf_run tr1 f data x).
  { intros tr1 x Hn. unfold Manager.run. by rewrite Hn, Hh. }
  unfold Worker.run_task. rewrite Htr, Hf.
  cbn -[Manager.run Manager.key_of Service.to_pdf_run]. unfold Worker.run_task_body.
  cbn -[Manager.run Manager.key_of Service.to_pdf_run]. rewrite Hg, Hrun by done.
  match goal with
  | |- context [Service.to_pdf_run _ _ _ _ ?t f data (Worker.ext w)] => set (tr1 := t)
  end.
  pose proof (to_pdf_run_cases tr1 f data (Worker.ext w)) as Hc.
  pose proof (load_pdf_of_pdf data (Worker.ext w) Hpdf) as Hl.
  destruct (load_pdf_frame data (Worker.ext w)) as (Ho & Ha & _).
  destruct (load_pdf data (Worker.ext w)) as [[pdf|e] x1]; cbn [fst snd] in *; [|done].
  injection Hl as ->.
  destruct Hc as (x2 & Hrun2 & _ & Hobj & Hart & _). rewrite Hrun2.
  cbn. split; [done|]. split.
  { eexists. rewrite Hid. split; [apply lookup_insert_eq|done]. }
  eexists. rewrite Hart, Ha. split; [reflexivity|]. cbn.
  do 3 (split; [done|]). eexists. split.
  - apply (proj1 (split_s3_uri_cases _)). split; [reflexivity|done].
  - unfold Service.get_object, Store.get_object. rewrite Hobj. by rewrite lookup_insert_eq.
Qed.

End Delivery.

End ServiceFacts.

(* --------------------------------------------------------------------- *)
(** ** The endpoints on the concrete service *)
(* --------------------------------------------------------------------- *)

Lemma desk_uuid4_slashless (n : nat) : S3util.slashless (Desk.uuid4 n) = true.
Proof.
  unfold Desk.uuid4. change (S3util.slashless (Desk.tally n) = true).
  induction n as [|n IH]; [reflexivity|exact IH].
Qed.

Lemma desk_upload :
  Service.upload_files Desk.E Desk.Json Desk.uuid4 Desk.sha256_bytes Scenario.the_bucket
    Desk.request "alice" Desk.world0 = (Ok ["id-"], Desk.world1).
Proof. vm_compute. reflexivity. Qed.

Lemma desk_run :
  Service.run_files Desk.E Desk.Json Desk.uuid4 ["id-"; "nowhere"] "to_pdf" tt Desk.world1
  = (Ok [("id-i", "id-")], Desk.world2).
Proof. vm_compute. reflexivity. Qed.

Lemma wf_desk1 : Worker.wf Desk.world1.
Proof.
  intros k tr H.
  change (Worker.task_run Desk.world1) with (∅ : gmap string TaskRun) in H.
  by rewrite lookup_empty in H.
Qed.

Lemma wf_desk2 : Worker.wf Desk.world2.
Proof.
  intros k tr H.
  change (Worker.task_run Desk.world2)
    with ({[ "id-i" := mkTaskRun "id-i" "id-" "to_pdf" "PENDING" None None None ]}
          : gmap string TaskRun) in H.
  apply lookup_singleton_Some in H as [<- <-]. done.
Qed.

Lemma desk_handler :
  Manager._handlers Desk.manager
    !! Manager.key_of (name (mkTaskRun "id-i" "id-" "to_pdf" "PENDING" None None None))
  = Some (Service.ToPdfHandler Desk.E Desk.Json Desk.uuid4 Scenario.the_bucket).
Proof.
  change (Manager.key_of _) with "to_pdf".
  apply lookup_singleton_eq.
Qed.

Lemma uploads_are_stored_where_recorded_witness :
  S3util.slashless Scenario.the_bucket = true /\
  Worker._get_source_bytes (Service.get_object Desk.E Desk.Json)
    (mkFile "id-" "alice" "a.pdf" "s3://llmops-bucket/alice/source_files/id-/a.pdf" "READY")
    (Worker.ext Desk.world1) = Ok Plain.pdf_sample.
Proof.
  split; [reflexivity|].
  pose proof (uploads_are_stored_where_recorded Desk.E Desk.Json Desk.uuid4
                Desk.sha256_bytes Scenario.the_bucket Desk.request "alice" Desk.world0
                Desk.world1 ["id-"] eq_refl desk_uuid4_slashless desk_upload)
    as (_ & Hall & _).
  apply Forall2_cons_1 in Hall as [(row & Hrow & _ & _ & _ & _ & _ & _ & Hget & _) _].
  vm_compute in Hrow. injection Hrow as <-. exact Hget.
Defined.

Lemma run_files_creates_a_pending_run_per_usable_file_witness :
  Worker.wf Desk.world1 /\
  Service.queue (Worker.ext Desk.world2)
  = (Service.queue (Worker.ext Desk.world1) ++ ["id-i"])%list.
Proof.
  split; [exact wf_desk1|].
  exact (proj1 (proj2 (proj2 (proj2 (proj2 (run_files_creates_a_pending_run_per_usable_file
           Desk.E Desk.Json Desk.uuid4 ["id-"; "nowhere"] "to_pdf" tt Desk.world1 wf_desk1))
           [("id-i", "id-")] Desk.world2 desk_run)))).
Defined.

Lemma queued_runs_are_settled_by_the_worker_witness :
  Worker.wf Desk.world1 /\ TriggerSpec.monotone_clock Scenario.utcnow /\
  exists tr,
    Worker.task_run
      (Worker.deliver_all Scenario.utcnow (Service.get_object Desk.E Desk.Json) Desk.manager
         Desk.world2 ["id-i"]) !! "id-i" = Some tr /\
    RunRecord.settled tr.
Proof.
  split; [exact wf_desk1|]. split; [exact scenario_clock_monotone|].
  destruct (proj1 (queued_runs_are_settled_by_the_worker Desk.E Desk.Json Desk.uuid4
              Scenario.utcnow Desk.manager ["id-"; "nowhere"] "to_pdf" tt Desk.world1
              Desk.world2 [("id-i", "id-")] wf_desk1 scenario_clock_monotone desk_run)
              ("id-i", "id-")) as (tr & Htr & Hset & _).
  { by apply list_elem_of_singleton. }
  exists tr. split; [exact Htr|exact Hset].
Defined.

Lemma worker_to_pdf_copies_a_pdf_source_witness :
  Worker.wf Desk.world2 /\ S3util.slashless Scenario.the_bucket = true /\
  (Worker.run_task Scenario.utcnow (Service.get_object Desk.E Desk.Json) Desk.manager
     Desk.world2 "id-i").1 = Ok tt.
Proof.
  split; [exact wf_desk2|]. split; [reflexivity|].
  refine (proj1 (worker_to_pdf_copies_a_pdf_source Desk.E Desk.Json Desk.uuid4
            Scenario.the_bucket Scenario.utcnow Desk.manager Desk.world2 "id-i"
            (mkTaskRun "id-i" "id-" "to_pdf" "PENDING" None None None)
            (mkFile "id-" "alice" "a.pdf"
               "s3://llmops-bucket/alice/source_files/id-/a.pdf" "READY")
            Plain.pdf_sample wf_desk2 eq_refl desk_handler _ _ _ _));
    try (vm_compute; reflexivity).
  exists "llmops-bucket", "alice/source_files/id-/a.pdf".
  split; [|vm_compute; reflexivity]. split; reflexivity.
Defined.



(* --------------------------------------------------------------------- *)
(** ** The temporary copy of a bytes input *)
(* --------------------------------------------------------------------- *)

Section TempCopy.

Import Loader OsPath.

Lemma rfind_from_app c (a b : string) (i last : Z) :
  rfind_from c (a ++ b) i last
  = rfind_from c b (i + Z.of_nat (String.length a))%Z (rfind_from c a i last).
Proof.
  revert i last. induction a as [|d a IH]; intros i last.
  - cbn. f_equal. lia.
  - change (rfind_from c (String d a ++ b) i last)
      with (rfind_from c (a ++ b) (i + 1) (if Ascii.eqb c d then i else last)).
    rewrite IH. cbn [rfind_from String.length]. f_equal. lia.
Qed.

Lemma endswith_slash_rfind (q : string) : forall i last,
  endswith_char "/" q = true ->
  rfind_from "/" q i last = (i + Z.of_nat (String.length q) - 1)%Z.
Proof.
  induction q as [|d q IH]; intros i last; [done|].
  destruct q as [|d' q'].
  - cbn. intros ->. lia.
  - intros H.
    change (rfind_from "/" (String d (String d' q')) i last)
      with (rfind_from "/" (String d' q') (i + 1) (if Ascii.eqb "/" d then i else last)).
    rewrite IH by exact H. cbn [String.length]. lia.
Qed.

Lemma endswith_slash_app (a : string) : endswith_char "/" (a ++ "/") = true.
Proof.
  induction a as [|d a IH]; [done|].
  change (String d a ++ "/") with (String d (a ++ "/")).
  destruct (a ++ "/") eqn:Ha; [by destruct a|exact IH].
Qed.

Lemma string_app_assoc (a b c : string) : (a ++ b) ++ c = a ++ b ++ c.
Proof.
  induction a as [|d a IH]; [done|].
  change (String d ((a ++ b) ++ c) = String d (a ++ b ++ c)). by rewrite IH.
Qed.

Lemma substring_app_skip (a b : string) n :
  substring (String.length a) n (a ++ b) = substring 0 n b.
Proof. induction a as [|d a IH]; [done|]. exact IH. Qed.

Lemma drop_str_app (a b : string) k :
  drop_str (String.length a + k) (a ++ b) = drop_str k b.
Proof. induction a as [|d a IH]; [done|]. exact IH. Qed.

(** The extension of [q ++ t] when [q] is empty or ends with a slash and
    [t] is a name of five characters followed by a dot and letters. *)
Lemma splitext_after_dir (q t e : string) :
  rfind "/" q = (Z.of_nat (String.length q) - 1)%Z ->
  (forall i last, rfind_from "/" t i last = last) ->
  (forall i last, rfind_from "." t i last = (i + 5)%Z) ->
  has_other "." (substring 0 5 t) = true ->
  drop_str 5 t = e ->
  snd (splitext (q ++ t)) = e.
Proof.
  intros Hq Hsl Hdot Hlead He. unfold splitext, rfind in *.
  rewrite !rfind_from_app, Hsl, Hdot, Hq.
  destruct (Z.ltb_spec (Z.of_nat (String.length q) - 1)
                       (0 + Z.of_nat (String.length q) + 5)) as [_|]; [|lia].
  replace (Z.to_nat (Z.of_nat (String.length q) - 1 + 1)) with (String.length q) by lia.
  replace (Z.to_nat (0 + Z.of_nat (String.length q) + 5
                     - (Z.of_nat (String.length q) - 1 + 1))) with 5%nat by lia.
  rewrite substring_app_skip, Hlead. cbn [snd].
  replace (Z.to_nat (0 + Z.of_nat (String.length q) + 5)) with (String.length q + 5)%nat by lia.
  by rewrite drop_str_app.
Qed.

Lemma guessed_ext_cases (mime : option string) :
  In (guessed_ext mime) [".pdf"; ".html"; ".png"; ".jpg"; ".tiff"; ".webp"; ".bin"].
Proof.
  unfold guessed_ext. repeat (destruct (String.eqb _ _); [cbn; tauto|]). cbn; tauto.
Qed.

Lemma ext_after_dir (q e : string) :
  rfind "/" q = (Z.of_nat (String.length q) - 1)%Z ->
  In e [".pdf"; ".html"; ".png"; ".jpg"; ".tiff"; ".webp"; ".bin"] ->
  _ext_lower (q ++ "input" ++ e) = e.
Proof.
  intros Hq He. unfold _ext_lower.
  assert (Hs : snd (splitext (q ++ "input" ++ e)) = e).
  { cbn in He.
    destruct He as [<-|[<-|[<-|[<-|[<-|[<-|[<-|[]]]]]]]];
      (apply splitext_after_dir;
       [exact Hq | intros; reflexivity | intros; lazy -[Z.add]; lia | reflexivity | reflexivity]). }
  rewrite Hs. cbn in He.
  destruct He as [<-|[<-|[<-|[<-|[<-|[<-|[<-|[]]]]]]]]; reflexivity.
Qed.

(** The temporary copy of a bytes input is named so that its extension is
    the one guessed from the sniffed type, wherever the temporary
    directory is. *)
Lemma temp_copy_ext (work : string) (mime : option string) :
  _ext_lower (join work ("input" ++ guessed_ext mime)) = guessed_ext mime.
Proof.
  pose proof (guessed_ext_cases mime) as He.
  unfold join.
  change (startswith ("input" ++ guessed_ext mime) "/") with false. cbv iota.
  destruct (String.eqb_spec work "") as [->|Hne].
  { cbn [orb]. apply (ext_after_dir "" _ eq_refl He). }
  cbn [orb]. destruct (endswith_char "/" work) eqn:Hend.
  - apply ext_after_dir; [|done].
    unfold rfind. rewrite (endswith_slash_rfind work 0 (-1) Hend). lia.
  - rewrite <- string_app_assoc. apply ext_after_dir; [|done].
    unfold rfind. rewrite (endswith_slash_rfind _ 0 (-1) (endswith_slash_app work)). lia.
Qed.

End TempCopy.

(* --------------------------------------------------------------------- *)
(** ** The magic sniff *)
(* --------------------------------------------------------------------- *)

Section SniffFacts.

Import Loader.

Lemma bytes_eqb_false (a b : bytes) : bytes_eqb a b = false <-> a <> b.
Proof.
  rewrite <- bytes_eqb_eq. destruct (bytes_eqb a b); split; done.
Qed.

Lemma sniff_cases (data : bytes) :
  (sniff data = "application/pdf" <-> take 4 data = magic_pdf) /\
  (sniff data = "image/png" <-> take 4 data = magic_png) /\
  (sniff data = "image/jpeg" <-> take 3 data = magic_jpeg) /\
  (sniff data = "image/tiff" <->
   take 4 data = magic_tiff_le \/ take 4 data = magic_tiff_be) /\
  (sniff data = "application/octet-stream" <->
   take 4 data <> magic_pdf /\ take 4 data <> magic_png /\ take 3 data <> magic_jpeg /\
   take 4 data <> magic_tiff_le /\ take 4 data <> magic_tiff_be).
Proof.
  unfold sniff, bytes_startswith. rewrite webp_test_fails.
  change (length magic_png) with 4%nat. rewrite take_take. change (4 `min` 8)%nat with 4%nat.
  assert (H3 : take 3 data = take 3 (take 4 data)) by (by rewrite take_take).
  rewrite H3. generalize (take 4 data) as a. clear. intros a.
  destruct (bytes_eqb a magic_pdf) eqn:Hpdf.
  { apply bytes_eqb_eq in Hpdf as ->. repeat split; try done; try (intros [?|?]; done).
    intros (? & _); done. }
  apply bytes_eqb_false in Hpdf.
  destruct (bytes_eqb a magic_png) eqn:Hpng.
  { apply bytes_eqb_eq in Hpng as ->. repeat split; try done; try (intros [?|?]; done).
    intros (_ & ? & _); done. }
  apply bytes_eqb_false in Hpng.
  destruct (bytes_eqb (take 3 a) magic_jpeg) eqn:Hjpg.
  { apply bytes_eqb_eq in Hjpg. repeat split; try done.
    - intros [->| ->]; done.
    - intros (_ & _ & ? & _); done. }
  apply bytes_eqb_false in Hjpg.
  destruct (bytes_eqb a magic_tiff_le) eqn:Hle.
  { apply bytes_eqb_eq in Hle as ->. cbn. repeat split; try done; try by left.
    intros (_ & _ & _ & ? & _); done. }
  apply bytes_eqb_false in Hle.
  destruct (bytes_eqb a magic_tiff_be) eqn:Hbe.
  { apply bytes_eqb_eq in Hbe as ->. cbn. repeat split; try done; try by right.
    intros (_ & _ & _ & _ & ?); done. }
  apply bytes_eqb_false in Hbe. cbn.
  repeat split; try done. intros [?|?]; done.
Qed.

(** The magic sniff looks at the first four bytes only (three for JPEG):
    it answers PDF, PNG, JPEG and TIFF exactly on their magic numbers, and
    [application/octet-stream] exactly when none of them leads the data. *)
Theorem sniff_reads_the_magic_number (data : bytes) :
  (sniff data = "application/pdf" <-> take 4 data = magic_pdf) /\
  (sniff data = "image/png" <-> take 4 data = magic_png) /\
  (sniff data = "image/jpeg" <-> take 3 data = magic_jpeg) /\
  (sniff data = "image/tiff" <->
   take 4 data = magic_tiff_le \/ take 4 data = magic_tiff_be) /\
  (sniff data = "application/octet-stream" <->
   take 4 data <> magic_pdf /\ take 4 data <> magic_png /\ take 3 data <> magic_jpeg /\
   take 4 data <> magic_tiff_le /\ take 4 data <> magic_tiff_be).
Proof. exact (sniff_cases data). Qed.

End SniffFacts.

(* --------------------------------------------------------------------- *)
(** ** The routes of [load] for bytes the classifier gives up on *)
(* --------------------------------------------------------------------- *)

Section SniffedRoutes.

Import Loader OsPath.
Variable E : Env.

(** [load] on a bytes input once the classifier has raised: the detection
    falls back on the sniff, the bytes are copied to the temporary
    directory under the guessed extension, and the routes are taken on
    the sniffed type and this extension. *)
Lemma load_sniffed_bytes (data : bytes) (options : option LoadOptions) (fs : FS E) e0 :
  identify_bytes E data = Raise e0 ->
  load E (Bytes data) options fs
  = let opts := default default_options options in
    let mime := Some (sniff data) in
    let ext := Some (guessed_ext mime) in
    let work := (mkdtemp E fs).1 in
    let src_path := join work ("input" ++ guessed_ext mime) in
    let '(r, fs3) :=
      bindM E
        (if String.eqb (return_mode opts) "PDF_BYTES"
         then direct_pdf E None mime ext (Some data) src_path work
         else ret E None)
        (fun direct =>
           match direct with
           | Some pdf => ret E (RPdf pdf)
           | None =>
               bindM E (produce_images E None mime ext "sniff" (Some data) src_path work opts)
                     (fun images => finish E images opts)
           end)
        (write_file E (mkdtemp E fs).2 src_path data) in
    (r, rmtree E fs3 work).
Proof.
  intros H. unfold load. unfold bindM at 1. rewrite (detect_type_sniffs E data fs e0 H).
  cbv beta iota.
  change (truthy None) with false. change (String.eqb "sniff" "magika") with false. cbv iota.
  unfold with_tempdir. destruct (mkdtemp E fs) as [work fs1].
  unfold bindM at 1. unfold bindM at 1. unfold ret at 1. cbv beta iota zeta.
  rewrite temp_copy_ext. reflexivity.
Qed.

(** Bytes that the classifier gives up on and that start with none of the
    magic numbers are refused in every return mode: [load] raises
    [ValueError] after writing the temporary copy [input.bin], which it
    removes with its directory; no converter is run and nothing is
    rasterised. *)
Theorem unrecognised_bytes_are_refused (data : bytes) (options : option LoadOptions)
    (fs : FS E) (e0 : exn) :
  identify_bytes E data = Raise e0 ->
  sniff data = "application/octet-stream" ->
  load E (Bytes data) options fs
  = (Raise (ValueError
       "Unsupported or unknown document type: label=None mime=application/octet-stream ext=.bin src=sniff"),
     rmtree E
       (write_file E (mkdtemp E fs).2 (join (mkdtemp E fs).1 "input.bin") data)
       (mkdtemp E fs).1).
Proof.
  intros H Hs. rewrite (load_sniffed_bytes data options fs e0 H), Hs.
  cbv zeta. change (guessed_ext (Some "application/octet-stream")) with ".bin".
  destruct (String.eqb (return_mode (default default_options options)) "PDF_BYTES");
    reflexivity.
Qed.

(** Bytes that the classifier gives up on and that start with the magic
    number of a PNG, a JPEG or a TIFF take the image route in every return
    mode, PDF included: the temporary copy is opened as one image, and
    what [load] returns is assembled from this single page. *)
Theorem sniffed_image_bytes_are_one_page (data : bytes) (options : option LoadOptions)
    (fs : FS E) (e0 : exn) :
  identify_bytes E data = Raise e0 ->
  In (sniff data) ["image/png"; "image/jpeg"; "image/tiff"] ->
  let opts := default default_options options in
  let work := (mkdtemp E fs).1 in
  let src_path := join work ("input" ++ guessed_ext (Some (sniff data))) in
  let fs2 := write_file E (mkdtemp E fs).2 src_path data in
  load E (Bytes data) options fs
  = (let '(r, fs3) :=
       bindM E (load_image E src_path opts) (fun images => finish E images opts) fs2 in
     (r, rmtree E fs3 work)) /\
  (forall images fs', load_image E src_path opts fs2 = (Ok images, fs') ->
     fs' = fs2 /\ exists im, images = [im]).
Proof.
  intros H Hs opts work src_path fs2. split.
  - rewrite (load_sniffed_bytes data options fs e0 H).
    fold opts work. cbv zeta. fold src_path fs2.
    cbn in Hs. destruct Hs as [Hs|[Hs|[Hs|[]]]]; rewrite <- Hs;
      destruct (String.eqb (return_mode opts) "PDF_BYTES"); reflexivity.
  - intros images fs'. unfold load_image.
    destruct (open_rgba E fs2 src_path) as [im|e]; [|intros [=]].
    match goal with
    | |- context [im_size E ?i] => destruct (im_size E i) as [w h]
    end.
    destruct (image_new_size w h (max_side opts)) as [[size|]|e]; [| |intros [=]].
    + match goal with
      | |- context [resize E ?i size] => destruct (resize E i size) as [im'|e]
      end; [|intros [=]].
      intros [= <- <-]. eauto.
    + intros [= <- <-]. eauto.
Qed.

(** Whatever the input and whether it returns or raises, [load] ends by
    removing the temporary directory it created. *)
Theorem load_removes_its_temporary_directory (doc : DocInput)
    (options : option LoadOptions) (fs : FS E) :
  exists fs', (load E doc options fs).2 = rmtree E fs' (mkdtemp E fs).1.
Proof.
  unfold load. unfold bindM at 1.
  destruct (detect_type_returns E doc fs) as [[[lm path] src] ->].
  cbv beta iota. unfold with_tempdir. destruct (mkdtemp E fs) as [work fs1].
  match goal with
  | |- context [let '(r, fs2) := ?c in _] => destruct c as [r fs2]
  end.
  eexists. reflexivity.
Qed.

End SniffedRoutes.

Lemma unrecognised_bytes_are_refused_witness :
  (Loader.load (Plain.env []) (Loader.Bytes [x68; x69]) None tt).1
  = Raise (ValueError
      "Unsupported or unknown document type: label=None mime=application/octet-stream ext=.bin src=sniff").
Proof.
  exact (f_equal fst
           (unrecognised_bytes_are_refused (Plain.env []) [x68; x69] None tt
              (OtherError "MagikaError" "model unavailable") eq_refl eq_refl)).
Defined.

Lemma sniffed_image_bytes_are_one_page_witness :
  (Loader.load (Plain.env []) (Loader.Bytes (Loader.magic_png ++ [x0d; x0a])%list)
     (Some (Plain.options "PIL")) tt).1
  = Ok (@Loader.RImages (Plain.env []) [(1%Z, 1%Z)]).
Proof.
  rewrite (proj1 (sniffed_image_bytes_are_one_page (Plain.env [])
                    (Loader.magic_png ++ [x0d; x0a])%list (Some (Plain.options "PIL")) tt
                    (OtherError "MagikaError" "model unavailable") eq_refl
                    (or_introl eq_refl))).
  reflexivity.
Defined.

(* --------------------------------------------------------------------- *)
(** ** The max-side step at its edges *)
(* --------------------------------------------------------------------- *)

Section MaxSideEdges.

Local Open Scope Z_scope.

Lemma scaled_side_edges (w s m w' : Z) :
  0 < w <= m -> 0 < s < m ->
  w * s / m - 1 <= w' <= w * s / m ->
  (w' = w * s / m - 1 -> (w * s) mod m = 0) ->
  0 <= w' /\ (w * s < m -> w' = 0) /\ (w = m -> s - 1 <= w').
Proof.
  intros Hw Hs Hb Hz.
  assert (Hq : 0 <= w * s / m) by (apply Z.div_pos; nia).
  split; [|split].
  - destruct (Z.eq_dec w' (w * s / m - 1)) as [Heq|]; [|lia].
    specialize (Hz Heq). apply Z.mod_divide in Hz; [|lia].
    destruct Hz as [k Hk]. rewrite Hk, Z.div_mul in Heq by lia.
    assert (0 < k) by nia. lia.
  - intros Hlt. rewrite Z.div_small in Hb, Hz by nia.
    destruct (Z.eq_dec w' (-1)) as [Heq|]; [|lia].
    specialize (Hz Heq). rewrite Z.mod_small in Hz by nia. nia.
  - intros ->. rewrite Z.mul_comm, Z.div_mul in Hb by lia. lia.
Qed.

(** When the longest side exceeds [max_side], both paths ask [resize] for
    a size whose longest side is [max_side] or one pixel less, never
    more and never less; no side is negative; and a side so short that its
    exact product with the ratio is below one pixel is asked to be zero
    pixels. *)
Theorem max_side_step_reaches_the_limit_or_one_less (w h s : Z) :
  0 < w < 2 ^ 26 -> 0 < h < 2 ^ 26 -> 0 < s < Z.max w h ->
  exists w' h',
    Loader.image_new_size w h (Some s) = Ok (Some (w', h')) /\
    Loader.pdf_page_new_size w h (Some s) = Ok (Some (w', h')) /\
    s - 1 <= Z.max w' h' <= s /\
    0 <= w' /\ 0 <= h' /\
    (w * s < Z.max w h -> w' = 0) /\
    (h * s < Z.max w h -> h' = 0).
Proof.
  intros Hw Hh Hs.
  destruct (Float64Facts.scaled_size_bounds w h s Hw Hh Hs)
    as (w' & h' & Heq & Hmax & Hbw & Hzw & Hbh & Hzh).
  exists w', h'. split; [exact Heq|]. split; [exact Heq|].
  destruct (scaled_side_edges w s (Z.max w h) w') as (Hw0 & Hwz & Hwm); [lia..|done|].
  destruct (scaled_side_edges h s (Z.max w h) h') as (Hh0 & Hhz & Hhm); [lia..|done|].
  split; [|done].
  split; [|exact Hmax].
  destruct (Z.max_spec w h) as [[_ Hm]|[_ Hm]].
  - specialize (Hhm (eq_sym Hm)). lia.
  - specialize (Hwm (eq_sym Hm)). lia.
Qed.

End MaxSideEdges.

Lemma max_side_step_reaches_the_limit_or_one_less_witness :
  exists h', Loader.image_new_size 1 1000 (Some 100%Z) = Ok (Some (0%Z, h')).
Proof.
  destruct (max_side_step_reaches_the_limit_or_one_less 1 1000 100)
    as (w' & h' & Heq & _ & _ & _ & _ & Hz & _); [split; reflexivity..|].
  exists h'. rewrite Heq, Hz; reflexivity.
Defined.

(* --------------------------------------------------------------------- *)
(** ** Page names *)
(* --------------------------------------------------------------------- *)

Section PageNameFacts.

Import Loader ConvertSpec.
Variable E : Env.

Local Abbreviation digits_value := OsPath.digits_value.

Lemma digit_value_char (d : N) :
  (d < 10)%N -> (N_of_ascii (pretty_N_char d) - 48 = d)%N.
Proof.
  intros Hd.
  destruct d as [|p]; [reflexivity|].
  do 4 (destruct p as [p|p|]; try reflexivity; try lia).
Qed.

Lemma digits_value_go (x : N) (s : string) :
  (digits_value (pretty_N_go x s)
   = x * 10 ^ N.of_nat (String.length s) + digits_value s)%N.
Proof.
  revert s. induction (N.lt_wf_0 x) as [x _ IH]. intros s.
  destruct (decide (0 < x)%N) as [Hx|Hx].
  - rewrite pretty_N_go_step by done.
    rewrite IH by (apply N.div_lt; lia). cbn [digits_value String.length].
    rewrite digit_value_char by (apply N.mod_lt; lia).
    rewrite Nat2N.inj_succ, N.pow_succ_r'.
    pose proof (N.div_mod x 10 ltac:(lia)) as Hdm.
    set (q := (x / 10)%N) in *. set (r := (x mod 10)%N) in *.
    set (p := (10 ^ N.of_nat (String.length s))%N). clearbody q r p. nia.
  - assert (x = 0%N) as -> by lia. by rewrite pretty_N_go_0.
Qed.

Lemma digits_value_pretty (n : N) : digits_value (pretty n) = n.
Proof.
  unfold pretty, pretty_N. destruct (decide (n = 0%N)) as [->|Hn]; [reflexivity|].
  rewrite digits_value_go. cbn. lia.
Qed.

Lemma digits_value_zero (s : string) : digits_value (String "0" s) = digits_value s.
Proof. cbn [digits_value]. change (N_of_ascii "0" - 48)%N with 0%N. lia. Qed.

Lemma digits_value_zeros (k : nat) (s : string) :
  digits_value (String.concat "" (repeat "0"%string k) ++ s) = digits_value s.
Proof.
  induction k as [|k IH]; [reflexivity|].
  destruct k as [|k]; [apply digits_value_zero|].
  change (repeat "0"%string (S (S k))) with ("0"%string :: repeat "0"%string (S k)).
  change (digits_value (String "0" (String.concat "" (repeat "0"%string (S k)) ++ s))
          = digits_value s).
  by rewrite digits_value_zero.
Qed.

(** [f"{i:04d}"] pads, it never cuts: the number can be read back. *)
Lemma fmt_04d_value (i : nat) : digits_value (OsPath.fmt_04d i) = N.of_nat i.
Proof. unfold OsPath.fmt_04d. by rewrite digits_value_zeros, digits_value_pretty. Qed.

Lemma fmt_04d_inj (i j : nat) : OsPath.fmt_04d i = OsPath.fmt_04d j -> i = j.
Proof.
  intros H. apply (f_equal digits_value) in H. rewrite !fmt_04d_value in H. lia.
Qed.

Lemma string_length_app (a b : string) :
  String.length (a ++ b) = String.length a + String.length b.
Proof.
  induction a as [|c a IH]; [done|].
  change (S (String.length (a ++ b)) = S (String.length a + String.length b)).
  by rewrite IH.
Qed.

Lemma string_app_inv_tail (a b s : string) : a ++ s = b ++ s -> a = b.
Proof.
  revert b. induction a as [|c a IH]; intros [|d b] H.
  - done.
  - apply (f_equal String.length) in H. rewrite !string_length_app in H. cbn in H. lia.
  - apply (f_equal String.length) in H. rewrite !string_length_app in H. cbn in H. lia.
  - change (String c (a ++ s) = String d (b ++ s)) in H.
    injection H as -> H. f_equal. by apply IH.
Qed.

Lemma string_app_cancel (p a b : string) : p ++ a = p ++ b -> a = b.
Proof. induction p as [|c p IH]; cbn; [done|]. intros [= H]. auto. Qed.

(** Whether a page's file name is absolute is decided by the prefix, not by
    the page number. *)
Lemma startswith_slash_prefix (p r r' : string) :
  startswith (p ++ "_" ++ r) "/" = startswith (p ++ "_" ++ r') "/".
Proof.
  assert (forall s, String.prefix "" s = true) as Hnil by (by intros []).
  destruct p as [|c p]; [reflexivity|]. unfold startswith.
  change (String.prefix "/" (String c (p ++ "_" ++ r))
          = String.prefix "/" (String c (p ++ "_" ++ r'))).
  cbn [String.prefix]. destruct (ascii_dec _ _); [|done]. by rewrite !Hnil.
Qed.

Lemma page_path_inj (out_dir : string) (options : LoadOptions) (i j : nat) :
  page_path out_dir options i = page_path out_dir options j -> i = j.
Proof.
  unfold page_path, OsPath.join.
  rewrite (startswith_slash_prefix (filename_prefix options) _
             (OsPath.fmt_04d j ++ "." ++ lower (image_format options))).
  intros H. apply fmt_04d_inj.
  destruct (startswith _ "/"); [|destruct (_ || _)].
  - apply string_app_cancel, (string_app_cancel "_") in H.
    by apply string_app_inv_tail in H.
  - apply string_app_cancel, string_app_cancel, (string_app_cancel "_") in H.
    by apply string_app_inv_tail in H.
  - apply string_app_cancel, (string_app_cancel "/"), string_app_cancel,
      (string_app_cancel "_") in H.
    by apply string_app_inv_tail in H.
Qed.

Lemma zip_entry_name_inj (fmt prefix : string) (name_hint : option string) (i j : nat) :
  zip_entry_name fmt prefix name_hint i = zip_entry_name fmt prefix name_hint j -> i = j.
Proof.
  unfold zip_entry_name. intros H. apply fmt_04d_inj.
  destruct (truthy name_hint).
  - destruct (OsPath.splitext _) as [root ext].
    apply string_app_cancel, (string_app_cancel "_") in H.
    by apply string_app_inv_tail in H.
  - apply string_app_cancel, (string_app_cancel "_") in H.
    by apply string_app_inv_tail in H.
Qed.

Lemma enumerate_numbers {A} (n : nat) (l : list A) :
  (enumerate n l).*1 = seq n (length l).
Proof. revert n. induction l as [|a l IH]; intros n; cbn; [done|]. by rewrite IH. Qed.

Lemma numbered_names {A} (f : nat -> string) (l : list (nat * A)) (ps : list string) :
  Forall2 (fun '(i, _) p => p = f i) l ps -> ps = f <$> l.*1.
Proof. induction 1 as [|[i a] p l ps -> _ IH]; cbn; [done|]. by rewrite IH. Qed.

Lemma numbered_names_distinct {A} (f : nat -> string) (l : list A) (ps : list string) :
  (forall i j, f i = f j -> i = j) ->
  ps = f <$> (enumerate 1 l).*1 -> NoDup ps /\ length ps = length l.
Proof.
  intros Hf ->. rewrite enumerate_numbers. split.
  - apply (NoDup_fmap_2_strong f); [|apply NoDup_seq]. intros i j _ _. apply Hf.
  - by rewrite length_fmap, length_seq.
Qed.

Lemma zip_members_names (fmt prefix : string) (name_hint : option string)
    (l : list (nat * Image E)) (ms : list (string * bytes)) :
  map_result
    (fun '(i, im) =>
       match encode E (to_save E fmt im) (upper fmt) with
       | Raise e => Raise e
       | Ok data => Ok (zip_entry_name fmt prefix name_hint i, data)
       end) l = Ok ms ->
  ms.*1 = zip_entry_name fmt prefix name_hint <$> l.*1.
Proof.
  revert ms. induction l as [|[i im] l IH]; intros ms; cbn.
  - by intros [= <-].
  - destruct (encode E _ _) as [data|e]; [|done].
    destruct (map_result _ l) as [ms'|e]; [|done].
    intros [= <-]. cbn. f_equal. by apply IH.
Qed.


End PageNameFacts.

(* --------------------------------------------------------------------- *)
(** ** Unknown return modes *)
(* --------------------------------------------------------------------- *)

Section UnknownMode.

Import Loader.
Variable E : Env.

Lemma unknown_mode_tests (mode : string) :
  is_in mode ["PIL"; "BYTES"; "PATHS"; "ZIP_BYTES"; "PDF_BYTES"] = false ->
  String.eqb mode "PIL" = false /\ String.eqb mode "BYTES" = false /\
  String.eqb mode "PATHS" = false /\ String.eqb mode "ZIP_BYTES" = false /\
  String.eqb mode "PDF_BYTES" = false.
Proof.
  unfold is_in. cbn [existsb].
  destruct (String.eqb mode "PIL"), (String.eqb mode "BYTES"), (String.eqb mode "PATHS"),
    (String.eqb mode "ZIP_BYTES"), (String.eqb mode "PDF_BYTES"); cbn; intros H;
    try discriminate H; repeat split.
Qed.

Lemma assemble_unknown_mode (images : list (Image E)) (saved_paths : list string)
    (options : LoadOptions) (fs : FS E) :
  is_in (return_mode options) ["PIL"; "BYTES"; "PATHS"; "ZIP_BYTES"; "PDF_BYTES"] = false ->
  assemble E images saved_paths options fs
  = (Raise (ValueError ("Unknown return_mode: " ++ return_mode options)), fs).
Proof.
  intros H. destruct (unknown_mode_tests _ H) as (H1 & H2 & H3 & H4 & H5).
  unfold assemble. cbv zeta. by rewrite H1, H2, H3, H4, H5.
Qed.

Lemma finish_unknown_mode (images : list (Image E)) (options : LoadOptions) (fs : FS E) :
  is_in (return_mode options) ["PIL"; "BYTES"; "PATHS"; "ZIP_BYTES"; "PDF_BYTES"] = false ->
  forall r fs', finish E images options fs <> (Ok r, fs').
Proof.
  intros H r fs'. unfold finish, bindM.
  destruct ((if save options then save_pages E images options else ret E []) fs)
    as [[ps|e] fs1]; [|done].
  by rewrite assemble_unknown_mode.
Qed.

(** A return mode that is none of the five names is refused, but last:
    [load] never returns a value for it, whatever the input; the refusal
    comes after the pages have been produced and, when [save] is set,
    after they have been written, so an earlier failure is what the caller
    sees, and the written files stay. *)
Theorem unknown_return_mode_is_refused_last (options : LoadOptions) :
  is_in (return_mode options) ["PIL"; "BYTES"; "PATHS"; "ZIP_BYTES"; "PDF_BYTES"] = false ->
  (forall doc fs r fs', load E doc (Some options) fs <> (Ok r, fs')) /\
  (forall images fs,
     finish E images options fs
     = if save options then
         match save_pages E images options fs with
         | (Ok _, fs1) =>
             (Raise (ValueError ("Unknown return_mode: " ++ return_mode options)), fs1)
         | (Raise e, fs1) => (Raise e, fs1)
         end
       else (Raise (ValueError ("Unknown return_mode: " ++ return_mode options)), fs)).
Proof.
  intros H. split.
  - intros doc fs r fs'. unfold load. unfold bindM at 1.
    destruct (detect_type_returns E doc fs) as [[[lm path] src] ->].
    cbv beta iota. unfold with_tempdir. destruct (mkdtemp E fs) as [work fs1].
    change (default default_options (Some options)) with options.
    destruct (unknown_mode_tests _ H) as (_ & _ & _ & _ & ->).
    unfold bindM at 1.
    match goal with
    | |- context [match ?c fs1 with _ => _ end] => destruct (c fs1) as [[[[d sp] ex]|e] fs2]
    end; [|intros [=]].
    unfold bindM at 1. unfold ret at 1. cbv beta iota.
    unfold bindM at 1.
    destruct (produce_images E _ _ _ _ _ _ _ _ fs2) as [[images|e] fs3]; [|intros [=]].
    destruct (finish E images options fs3) as [[r0|e] fs4] eqn:Hf; [|intros [=]].
    by apply finish_unknown_mode in Hf.
  - intros images fs. unfold finish, bindM.
    destruct (save options).
    + destruct (save_pages E images options fs) as [[ps|e] fs1]; [|done].
      by apply assemble_unknown_mode.
    + unfold ret at 1. by apply assemble_unknown_mode.
Qed.

End UnknownMode.

Lemma unknown_return_mode_is_refused_last_witness :
  Loader.is_in (Loader.return_mode (Plain.options "JSON"))
    ["PIL"; "BYTES"; "PATHS"; "ZIP_BYTES"; "PDF_BYTES"] = false /\
  Loader.load (Plain.env []) (Loader.Bytes Plain.pdf_sample) (Some (Plain.options "JSON")) tt
  <> (Ok (Loader.RPdf Plain.pdf_sample), tt).
Proof.
  split; [reflexivity|].
  apply (proj1 (unknown_return_mode_is_refused_last (Plain.env []) (Plain.options "JSON")
                  eq_refl)).
Defined.

(* --------------------------------------------------------------------- *)
(** ** PDF output of documents *)
(* --------------------------------------------------------------------- *)

Section DirectFacts.

Import Loader DirectSpec.
Variable E : Env.

Lemma direct_pdf_document (label mime ext : option string) (data_bytes : option bytes)
    (src_path work : string) (fs fs' : FS E) :
  is_pdf label mime ext || is_office label mime || is_html label mime ext = true ->
  direct_pdf E label mime ext data_bytes src_path work fs <> (Ok None, fs').
Proof.
  intros H. unfold direct_pdf.
  destruct (is_pdf label mime ext).
  { destruct data_bytes; [by intros [=]|]. unfold bindM, ret.
    by destruct (read_file E fs src_path). }
  destruct (is_office label mime).
  { unfold bindM, ret. destruct (libreoffice_to_pdf E fs src_path work) as [[p|e] fs1]; [|done].
    by destruct (read_file E fs1 p). }
  destruct (is_html label mime ext); [|done].
  unfold bindM, ret. destruct (html_to_pdf E fs src_path _) as [[p|e] fs1]; [|done].
  by destruct (read_file E fs1 _).
Qed.

Lemma family_with_ext (label mime : option string) (e : option string) :
  is_pdf label mime None || is_office label mime || is_html label mime None = true ->
  is_pdf label mime e || is_office label mime || is_html label mime e = true.
Proof.
  unfold is_pdf, is_html. cbn [truthy opt_eq].
  destruct (opt_eq label "pdf"), (opt_eq mime "application/pdf"), (is_office label mime),
    (opt_in label HTML_LABELS), (opt_eq mime "text/html"), (opt_eq e ".pdf"),
    (if truthy e then opt_in e HTML_EXTS else false); cbn; done.
Qed.

Lemma bindM_ext {A B} (c : M E A) (k1 k2 : A -> M E B) (fs : FS E) :
  (forall a fs', c fs = (Ok a, fs') -> k1 a fs' = k2 a fs') ->
  bindM E c k1 fs = bindM E c k2 fs.
Proof. intros H. unfold bindM. destruct (c fs) as [[a|e] fs']; [by apply H|done]. Qed.

(** The step after the temporary copy, for a document and PDF_BYTES: the
    direct route alone, under any options. *)
Lemma direct_only (o1 o2 : LoadOptions) (label mime ext : option string) (src : string)
    (data_bytes : option bytes) (src_path work : string) (fs : FS E) :
  return_mode o1 = "PDF_BYTES" -> return_mode o2 = "PDF_BYTES" ->
  is_pdf label mime ext || is_office label mime || is_html label mime ext = true ->
  bindM E
    (if String.eqb (return_mode o1) "PDF_BYTES"
     then direct_pdf E label mime ext data_bytes src_path work
     else ret E None)
    (fun direct =>
       match direct with
       | Some pdf => ret E (RPdf pdf)
       | None =>
           bindM E (produce_images E label mime ext src data_bytes src_path work o1)
                 (fun images => finish E images o1)
       end) fs
  = bindM E
      (if String.eqb (return_mode o2) "PDF_BYTES"
       then direct_pdf E label mime ext data_bytes src_path work
       else ret E None)
      (fun direct =>
         match direct with
         | Some pdf => ret E (RPdf pdf)
         | None =>
             bindM E (produce_images E label mime ext src data_bytes src_path work o2)
                   (fun images => finish E images o2)
         end) fs.
Proof.
  intros H1 H2 Hfam. rewrite H1, H2. change ("PDF_BYTES" =? "PDF_BYTES") with true. cbv iota.
  apply bindM_ext. intros [pdf|] fs' Hd; [reflexivity|].
  by apply direct_pdf_document in Hd.
Qed.

(** With return mode PDF_BYTES, a document of the PDF, Office or HTML
    family is never taken through the page pipeline: what [load] does and
    returns is the same under any two option records, so the resolution,
    the size limit, the background, the image format, [save],
    [output_dir] and the name settings have no effect, and no page file is
    written even when [save] is set. *)
Theorem pdf_output_of_a_document_ignores_the_other_options (doc : DocInput)
    (o1 o2 : LoadOptions) (fs : FS E) :
  return_mode o1 = "PDF_BYTES" -> return_mode o2 = "PDF_BYTES" ->
  document_family E fs doc ->
  load E doc (Some o1) fs = load E doc (Some o2) fs.
Proof.
  intros H1 H2 Hfam. unfold document_family in Hfam.
  unfold load. cbn [default]. unfold Datatypes.id. unfold bindM at 1. unfold bindM at 5.
  destruct (detect_type_returns E doc fs) as [[[lm path] src] Hdet].
  rewrite Hdet in *. cbn [fst] in Hfam. cbv beta iota.
  unfold with_tempdir. destruct (mkdtemp E fs) as [work fs1].
  match goal with
  | |- (let '(_, _) := bindM E ?X ?K1 fs1 in _) = (let '(_, _) := bindM E _ ?K2 fs1 in _) =>
      rewrite (bindM_ext X K1 K2 fs1); [reflexivity|]
  end.
  intros [[d sp] ex] fs2 HX. cbv beta iota.
  assert (Hex : is_pdf (if src =? "magika" then Some lm else None)
                  (if src =? "magika" then None else Some lm) ex
                || is_office (if src =? "magika" then Some lm else None)
                     (if src =? "magika" then None else Some lm)
                || is_html (if src =? "magika" then Some lm else None)
                     (if src =? "magika" then None else Some lm) ex = true).
  { destruct doc as [p|data].
    - unfold ret in HX. by injection HX as _ _ <- _.
    - assert (Hpath : path = None).
      { revert Hdet. unfold _detect_type.
        destruct (identify_bytes E data); by intros [= _ <- _]. }
      subst path. cbn [truthy] in *. unfold bindM, ret in HX.
      injection HX as _ _ <- _. by apply family_with_ext. }
  by apply direct_only.
Qed.

End DirectFacts.

Lemma pdf_output_of_a_document_ignores_the_other_options_witness :
  DirectSpec.document_family (Plain.env []) tt (Loader.Bytes Plain.pdf_sample) /\
  Loader.load (Plain.env []) (Loader.Bytes Plain.pdf_sample)
    (Some (Plain.options "PDF_BYTES")) tt
  = Loader.load (Plain.env []) (Loader.Bytes Plain.pdf_sample)
      (Some (Loader.mkOptions 72 (Some 100%Z) (Some (255, 255, 255, 255)%Z) true
               (Some "out") "p" "JPEG" "PDF_BYTES" (Some "doc.jpg"))) tt.
Proof.
  split; [reflexivity|].
  apply (pdf_output_of_a_document_ignores_the_other_options (Plain.env [])
           (Loader.Bytes Plain.pdf_sample)); reflexivity.
Defined.
